(** * Offline region packs: metadata decoding, size estimation, catalog and
      download coordination

    A shallow embedding of the data-handling code of the two screens of the
    application:

    - [app/(tabs)/explore.tsx]: [inspectPackForSize] and [fetchPacks], whose
      [map] callback rebuilds each pack's metadata and estimates its size;
    - the map screen ([HomeScreen]): [onProgress], [onError] and
      [handleDownload].

    JavaScript values are modelled by [JsValue].  Strings are sequences of
    code units, here restricted to one byte per unit.  Finite numbers are
    exact rationals (the rounding of IEEE doubles is abstracted away) and
    [NaN] is kept apart.  Exceptions are explicit: a computation that can
    throw returns a [Completion].  The built-ins [JSON.parse],
    [JSON.stringify] and [Number.prototype.toString] are a parameter of the
    development (class [JsRuntime]); a reference implementation on ASCII text
    is given at the end of the definitions and is used to run the model on
    concrete records. *)

From Stdlib Require Import Bool Arith ZArith NArith QArith Qround Lia List.
From Stdlib Require Import Ascii String.
From Stdlib Require Import Permutation Sorted Finite.
Import ListNotations.

Local Open Scope string_scope.
Local Open Scope Z_scope.

Set Implicit Arguments.

(* ================================================================== *)
(** * JavaScript values *)
(* ================================================================== *)

Module Js.

(** A JavaScript number: [NaN] or a finite value. *)
Inductive Num : Type :=
| NaN
| Finite (q : Q).

(** Plain objects and arrays share one representation: the own enumerable
    properties in insertion order.  An array keeps its elements under the
    keys ["0"], ["1"], ... *)
Inductive ObjKind : Type := Plain | Array.

#[warnings="-register-all"]
Inductive JsValue : Type :=
| JUndefined
| JNull
| JBool (b : bool)
| JNum (n : Num)
| JStr (s : string)
| JObj (kind : ObjKind) (props : list (string * JsValue)).

Definition Props : Type := list (string * JsValue).

(** Exceptions the modelled code can meet. *)
Inductive Exn : Type :=
| TypeError
| SyntaxError
| Rejected (message : string).

(** The outcome of evaluating a statement list that may throw. *)
Inductive Completion (A : Type) : Type :=
| Normal (a : A)
| Throw (e : Exn).

Arguments Normal {A} a.
Arguments Throw {A} e.

Definition bind {A B} (c : Completion A) (k : A -> Completion B) : Completion B :=
  match c with
  | Normal a => k a
  | Throw e => Throw e
  end.

(** [try { body } catch (e) { handler e }] *)
Definition try_catch {A} (body : Completion A) (handler : Exn -> Completion A)
  : Completion A :=
  match body with
  | Normal a => Normal a
  | Throw e => handler e
  end.

Definition isNormal {A} (c : Completion A) : bool :=
  match c with Normal _ => true | Throw _ => false end.

End Js.

Export Js.

Notation "x <- c ;; k" := (bind c (fun x => k))
  (at level 61, c at next level, right associativity).

(* ================================================================== *)
(** * Strings *)
(* ================================================================== *)

Definition Zcode (c : ascii) : Z := Z.of_N (N_of_ascii c).

Definition char_of_Z (z : Z) : ascii := ascii_of_N (Z.to_N z).

Definition is_decimal_digit (c : ascii) : bool :=
  (48 <=? Zcode c) && (Zcode c <=? 57).

(** The value of [c] as a digit in the given radix (10 or 16). *)
Definition digit_value (radix : Z) (c : ascii) : option Z :=
  let n := Zcode c in
  if (48 <=? n) && (n <=? 57) then Some (n - 48)
  else if (radix =? 16) && (97 <=? n) && (n <=? 102) then Some (n - 87)
  else if (radix =? 16) && (65 <=? n) && (n <=? 70) then Some (n - 55)
  else None.

(** White space and line terminators that fit in one byte. *)
Definition is_white_space (c : ascii) : bool :=
  let n := Zcode c in
  (n =? 9) || (n =? 10) || (n =? 11) || (n =? 12) || (n =? 13)
  || (n =? 32) || (n =? 160).

Fixpoint trim_start (s : string) : string :=
  match s with
  | String c s' => if is_white_space c then trim_start s' else s
  | EmptyString => EmptyString
  end.

(** The longest prefix of digits, read in the radix; [acc] is [None] until a
    digit has been read. *)
Fixpoint digits_prefix (radix : Z) (s : string) (acc : option Z) : option Z :=
  match s with
  | String c s' =>
      match digit_value radix c with
      | Some d =>
          digits_prefix radix s'
            (Some (radix * match acc with Some a => a | None => 0 end + d))
      | None => acc
      end
  | EmptyString => acc
  end.

(** A text made of decimal digits only, and the number it spells. *)
Fixpoint all_digits (s : string) : Prop :=
  match s with
  | String c r => is_decimal_digit c = true /\ all_digits r
  | EmptyString => True
  end.

Definition digits_value (s : string) : Z :=
  match digits_prefix 10 s None with Some a => a | None => 0 end.

(** A leading sign: [-] (code 45) or [+] (code 43). *)
Definition strip_sign (s : string) : Z * string :=
  match s with
  | String c r =>
      if Zcode c =? 45 then (-1, r)
      else if Zcode c =? 43 then (1, r)
      else (1, s)
  | EmptyString => (1, s)
  end.

(** A leading [0x] or [0X] selects radix 16. *)
Definition strip_hex_prefix (s : string) : Z * string :=
  match s with
  | String c (String x r) =>
      if (Zcode c =? 48) && ((Zcode x =? 120) || (Zcode x =? 88))
      then (16, r) else (10, s)
  | _ => (10, s)
  end.

(** [parseInt(s)] without a radix argument; [None] stands for [NaN]. *)
Definition parseInt (s : string) : option Z :=
  let '(sign, s2) := strip_sign (trim_start s) in
  let '(radix, s3) := strip_hex_prefix s2 in
  option_map (Z.mul sign) (digits_prefix radix s3 None).

(** The number [parseInt] reads, 0 standing in where it reads none. *)
Definition parsedKey (key : string) : Z :=
  match parseInt key with Some z => z | None => 0 end.

(** Decimal digits of a natural number, most significant first. *)
Fixpoint decimal_digits (fuel : nat) (n : N) : string :=
  match fuel with
  | O => EmptyString
  | S f =>
      (if (n <? 10)%N then EmptyString else decimal_digits f (n / 10)%N)
      ++ String (ascii_of_N (48 + n mod 10)) EmptyString
  end.

(** [n.toString()] for a non-negative integer [n]. *)
Definition N_toString (n : N) : string :=
  decimal_digits (S (N.to_nat (N.log2 n))) n.

Definition to_lower_char (c : ascii) : ascii :=
  let n := Zcode c in
  if ((65 <=? n) && (n <=? 90))
     || ((192 <=? n) && (n <=? 222) && negb (n =? 215))
  then char_of_Z (n + 32) else c.

(** [s.toLowerCase()] *)
Fixpoint toLowerCase (s : string) : string :=
  match s with
  | String c s' => String (to_lower_char c) (toLowerCase s')
  | EmptyString => EmptyString
  end.

(** [s.includes(t)] *)
Fixpoint includes (s t : string) : bool :=
  prefix t s ||
  match s with
  | String _ s' => includes s' t
  | EmptyString => false
  end.

(** Whether a field name looks like a size: it contains "size" or "bytes",
    whatever the case of its letters. *)
Definition size_like (key : string) : bool :=
  includes (toLowerCase key) "size" || includes (toLowerCase key) "bytes".

Definition str_length (s : string) : Z := Z.of_nat (String.length s).

Fixpoint join (sep : string) (l : list string) : string :=
  match l with
  | [] => EmptyString
  | [x] => x
  | x :: rest => x ++ sep ++ join sep rest
  end.

(** The one-character strings of a text, in order. *)
Fixpoint characters (s : string) : list string :=
  match s with
  | String c s' => String c EmptyString :: characters s'
  | EmptyString => []
  end.

(* ================================================================== *)
(** * Objects: property lookup, update and enumeration order *)
(* ================================================================== *)

Fixpoint lookup (k : string) (props : Props) : option JsValue :=
  match props with
  | [] => None
  | (k', v) :: rest => if String.eqb k k' then Some v else lookup k rest
  end.

(** [o[k] = v] on the property list: overwrite in place or append. *)
Fixpoint store (k : string) (v : JsValue) (props : Props) : Props :=
  match props with
  | [] => [(k, v)]
  | (k', v') :: rest =>
      if String.eqb k k' then (k, v) :: rest else (k', v') :: store k v rest
  end.

(** A key is an array index when it is the canonical decimal form of an
    integer below [2^32 - 1]. *)
Definition array_index (k : string) : option N :=
  match k with
  | String c _ =>
      if is_decimal_digit c then
        match digits_prefix 10 k None with
        | Some z =>
            let n := Z.to_N z in
            if (n <? 4294967295)%N && String.eqb (N_toString n) k
            then Some n else None
        | None => None
        end
      else None
  | EmptyString => None
  end.

Definition is_array_index (k : string) : bool :=
  match array_index k with Some _ => true | None => false end.

Definition index_of (k : string) : N :=
  match array_index k with Some n => n | None => 0%N end.

Section StableSort.
Variable A : Type.
(** The comparator of [Array.prototype.sort]: a negative result puts the
    first argument first; [None] is a [NaN] result, which counts as zero. *)
Variable cmp : A -> A -> option Z.

Definition comes_before (x y : A) : bool :=
  match cmp x y with
  | Some d => d <? 0
  | None => false
  end.

(** Insert [x] in front of a sorted list: [x] passes every element that
    must come before it and stops at the first one that need not. *)
Fixpoint insert_sorted (x : A) (l : list A) : list A :=
  match l with
  | [] => [x]
  | y :: rest =>
      if comes_before y x then y :: insert_sorted x rest
      else x :: y :: rest
  end.

(** The stable sort of [l]. *)
Fixpoint sort (l : list A) : list A :=
  match l with
  | [] => []
  | x :: rest => insert_sorted x (sort rest)
  end.
End StableSort.

(** [a] may stand before [b] in a list in ascending order of [key]. *)
Definition ordered_by (A : Type) (key : A -> Z) (a b : A) : Prop :=
  key a <= key b.

(** Own enumerable string keys in the order of [Object.keys] and [for-in]:
    array indices ascending, then the other keys in insertion order. *)
Definition ownKeys (props : Props) : list string :=
  let keys := map fst props in
  (sort (fun a b => Some (Z.of_N (index_of a) - Z.of_N (index_of b)))
        (filter is_array_index keys)
   ++ filter (fun k => negb (is_array_index k)) keys)%list.

Definition Object_keys (v : JsValue) : list string :=
  match v with
  | JObj _ props => ownKeys props
  | JStr s => map N_toString (map N.of_nat (seq 0 (String.length s)))
  | _ => []
  end.

(** The [length] of an array: one more than its largest index. *)
Definition array_length (props : Props) : N :=
  fold_right (fun kv acc =>
                match array_index (fst kv) with
                | Some n => N.max (N.succ n) acc
                | None => acc
                end) 0%N props.

Definition string_member (s k : string) : JsValue :=
  if String.eqb k "length" then JNum (Finite (inject_Z (str_length s)))
  else match array_index k with
       | Some n =>
           match String.get (N.to_nat n) s with
           | Some c => JStr (String c EmptyString)
           | None => JUndefined
           end
       | None => JUndefined
       end.

(** [v.k] / [v[k]]: reading a property of [undefined] or [null] throws. *)
Definition get_member (v : JsValue) (k : string) : Completion JsValue :=
  match v with
  | JUndefined | JNull => Throw TypeError
  | JObj Plain props =>
      Normal (match lookup k props with Some x => x | None => JUndefined end)
  | JObj Array props =>
      Normal (match lookup k props with
              | Some x => x
              | None => if String.eqb k "length"
                        then JNum (Finite (inject_Z (Z.of_N (array_length props))))
                        else JUndefined
              end)
  | JStr s => Normal (string_member s k)
  | JBool _ | JNum _ => Normal JUndefined
  end.

(** [v?.k] *)
Definition get_member_opt (v : JsValue) (k : string) : JsValue :=
  match get_member v k with
  | Normal x => x
  | Throw _ => JUndefined
  end.

(** [v.k = x] in strict mode: throws on [undefined], [null] and primitives. *)
Definition set_member (v : JsValue) (k : string) (x : JsValue)
  : Completion JsValue :=
  match v with
  | JObj kind props => Normal (JObj kind (store k x props))
  | _ => Throw TypeError
  end.

Definition typeof (v : JsValue) : string :=
  match v with
  | JUndefined => "undefined"
  | JNull => "object"
  | JBool _ => "boolean"
  | JNum _ => "number"
  | JStr _ => "string"
  | JObj _ _ => "object"
  end.

(** [ToBoolean] *)
Definition truthy (v : JsValue) : bool :=
  match v with
  | JUndefined | JNull => false
  | JBool b => b
  | JNum NaN => false
  | JNum (Finite q) => negb (Qnum q =? 0)
  | JStr s => negb (String.eqb s EmptyString)
  | JObj _ _ => true
  end.

Definition is_object (v : JsValue) : bool :=
  match v with JObj _ _ => true | _ => false end.

(** [a || b] *)
Definition js_or (a b : JsValue) : JsValue := if truthy a then a else b.

(** The record reports the value [r] under a size-like name, either as
    one of its own fields or as a field of its [progress] object. *)
Definition reportedSize (pack r : JsValue) : Prop :=
  exists key,
    size_like key = true
    /\ (get_member_opt pack key = r
        \/ (is_object (get_member_opt pack "progress") = true
            /\ get_member_opt (get_member_opt pack "progress") key = r)).

(* ================================================================== *)
(** * The runtime's built-ins *)
(* ================================================================== *)

Class JsRuntime : Type := {
  (** [JSON.parse(text)]; [None] when it throws a [SyntaxError]. *)
  JSON_parse : string -> option JsValue;
  (** [JSON.stringify(value)]; [None] when the result is [undefined]. *)
  JSON_stringify : JsValue -> option string;
  (** [Number.prototype.toString] on a finite number. *)
  Number_toString : Q -> string;
  (** The [message] of an error object the engine itself creates. *)
  builtin_message : Exn -> string
}.

(** ** Conversions that go through the runtime *)

Section Conversions.
Context {RT : JsRuntime}.

(** [String(v)], as applied by template literals and by [+=] on a
    string. *)
Fixpoint ToString (v : JsValue) : string :=
  match v with
  | JUndefined => "undefined"
  | JNull => "null"
  | JBool true => "true"
  | JBool false => "false"
  | JNum NaN => "NaN"
  | JNum (Finite q) => Number_toString q
  | JStr s => s
  | JObj Plain _ => "[object Object]"
  | JObj Array props =>
      join ","
        ((fix elements (l : Props) : list string :=
            match l with
            | [] => []
            | (k, e) :: rest =>
                if is_array_index k then
                  match e with
                  | JUndefined | JNull => EmptyString
                  | _ => ToString e
                  end :: elements rest
                else elements rest
            end) props)
  end.

(** [e.message] for a caught exception. *)
Definition message_of (e : Exn) : string :=
  match e with
  | Rejected m => m
  | _ => builtin_message e
  end.

Definition JSON_parse_or_throw (text : string) : Completion JsValue :=
  match JSON_parse text with
  | Some v => Normal v
  | None => Throw SyntaxError
  end.

End Conversions.

(* ================================================================== *)
(** * The catalog screen: [app/(tabs)/explore.tsx] *)
(* ================================================================== *)

Module Explore.
Section WithRuntime.
Context {RT : JsRuntime}.

Definition is_number (v : JsValue) : bool := String.eqb (typeof v) "number".

(** The [for (const key in pack)] loop of [inspectPackForSize]. *)
Fixpoint inspectKeys (pack : JsValue) (keys : list string)
  : Completion JsValue :=
  match keys with
  | [] => Normal JNull
  | key :: rest =>
      v <- get_member pack key ;;
      if is_number v
         && (includes (toLowerCase key) "size"
             || includes (toLowerCase key) "bytes")
      then Normal v
      else inspectKeys pack rest
  end.

(** [inspectPackForSize(pack)]: a number, or [null]. *)
Definition inspectPackForSize (pack : JsValue) : Completion JsValue :=
  size <- get_member pack "size" ;;
  if is_number size then Normal size else
  byteSize <- get_member pack "byteSize" ;;
  if is_number byteSize then Normal byteSize else
  bytes <- get_member pack "bytes" ;;
  if is_number bytes then Normal bytes else
  completedResourceSize <- get_member pack "completedResourceSize" ;;
  if is_number completedResourceSize then Normal completedResourceSize else
  completedResourceCount <- get_member pack "completedResourceCount" ;;
  if is_number completedResourceCount && is_number completedResourceSize
  then Normal completedResourceSize else
  progress <- get_member pack "progress" ;;
  inProgress <-
    (if truthy progress && String.eqb (typeof progress) "object" then
       pSize <- get_member progress "completedResourceSize" ;;
       if is_number pSize then Normal (Some pSize) else
       pDone <- get_member progress "completedSize" ;;
       if is_number pDone then Normal (Some pDone) else Normal None
     else Normal None) ;;
  match inProgress with
  | Some n => Normal n
  | None => inspectKeys pack (Object_keys pack)
  end.

(** ** Metadata reconstruction *)

Definition parses_as_number (key : string) : bool :=
  match parseInt key with Some _ => true | None => false end.

(** [(a, b) => parseInt(a) - parseInt(b)] *)
Definition by_parseInt (a b : string) : option Z :=
  match parseInt a, parseInt b with
  | Some x, Some y => Some (x - y)
  | _, _ => None
  end.

(** [Object.keys(pack._metadata).filter(...).sort(...)] *)
Definition numericKeys (_metadata : JsValue) : list string :=
  sort by_parseInt (filter parses_as_number (Object_keys _metadata)).

(** [for (const key of numericKeys) reconstructedJson += pack._metadata[key]] *)
Fixpoint reconstruct (_metadata : JsValue) (keys : list string)
         (reconstructedJson : string) : Completion string :=
  match keys with
  | [] => Normal reconstructedJson
  | key :: rest =>
      c <- get_member _metadata key ;;
      reconstruct _metadata rest (reconstructedJson ++ ToString c)
  end.

(** [{ name: v }] *)
Definition named (v : JsValue) : JsValue := JObj Plain [("name", v)].

(** [`Pack: ${pack.name || "Unknown"}`] *)
Definition packOrUnknown (pack : JsValue) : Completion JsValue :=
  n <- get_member pack "name" ;;
  Normal (JStr ("Pack: " ++ ToString (js_or n (JStr "Unknown")))).

(** [`<prefix>${pack.name}`] *)
Definition labelled (prefix : string) (pack : JsValue) : Completion JsValue :=
  n <- get_member pack "name" ;;
  Normal (JStr (prefix ++ ToString n)).

(** [for (let i = 46; i <= 58; i++) if (pack._metadata[i.toString()]) push] *)
Fixpoint timestampChars (_metadata : JsValue) (positions : list N)
  : Completion (list JsValue) :=
  match positions with
  | [] => Normal []
  | i :: rest =>
      c <- get_member _metadata (N_toString i) ;;
      more <- timestampChars _metadata rest ;;
      Normal (if truthy c then c :: more else more)
  end.

Definition timestampPositions : list N :=
  map N.of_nat (seq 46 13).

(** [chars.join(sep)] with the empty separator *)
Definition join_values (chars : list JsValue) : string :=
  join EmptyString
    (map (fun c => match c with
                   | JUndefined | JNull => EmptyString
                   | _ => ToString c
                   end) chars).

(** The body of the inner [try]: parse the reconstructed text.  [parsed]
    and [metadata] name the same object, so one value stands for both. *)
Definition parseReconstructed (reconstructedJson : string)
  : Completion JsValue :=
  parsed <- JSON_parse_or_throw reconstructedJson ;;
  let metadata := parsed in
  name <- get_member metadata "name" ;;
  parsedName <- get_member metadata "name" ;;
  metadata <-
    (if negb (truthy name) && String.eqb (typeof parsedName) "string"
     then set_member metadata "name" parsedName
     else Normal metadata) ;;
  downloaded_at <- get_member metadata "downloaded_at" ;;
  parsedAt <- get_member metadata "downloaded_at" ;;
  if negb (truthy downloaded_at) && String.eqb (typeof parsedAt) "number"
  then set_member metadata "downloaded_at" parsedAt
  else Normal metadata.

(** The [catch (parseError)] block. *)
Definition afterParseError (pack _metadata : JsValue) (keys : list string)
  : Completion JsValue :=
  mname <- get_member _metadata "name" ;;
  if truthy mname then
    let metadata := named mname in
    if (45 <? Z.of_nat (List.length keys)) then
      chars <- timestampChars _metadata timestampPositions ;;
      if (0 <? Z.of_nat (List.length chars)) then
        let timestampStr := join_values chars in
        match parseInt timestampStr with
        | Some timestamp =>
            set_member metadata "downloaded_at"
              (JNum (Finite (inject_Z timestamp)))
        | None => Normal metadata
        end
      else Normal metadata
    else Normal metadata
  else
    label <- packOrUnknown pack ;;
    Normal (named label).

(** The branch taken when [pack._metadata] is an object. *)
Definition metadataFromCharacters (pack _metadata : JsValue)
  : Completion JsValue :=
  try_catch
    (let keys := numericKeys _metadata in
     reconstructedJson <- reconstruct _metadata keys EmptyString ;;
     try_catch
       (parseReconstructed reconstructedJson)
       (fun parseError => afterParseError pack _metadata keys))
    (fun e =>
       mname <- get_member _metadata "name" ;;
       if truthy mname then Normal (named mname)
       else label <- packOrUnknown pack ;; Normal (named label)).

(** The branch taken otherwise: "original metadata handling".  Here
    [metadata] may be the very object stored in [pack.metadata]; the
    assignment of a fallback name then also changes that object, which
    nothing reads afterwards. *)
Definition metadataFromField (pack : JsValue) : Completion JsValue :=
  try_catch
    (stored <- get_member pack "metadata" ;;
     if truthy stored then
       metadata <-
         (if String.eqb (typeof stored) "object"
             && negb (match stored with JNull => true | _ => false end)
          then Normal stored
          else if String.eqb (typeof stored) "string" then
            try_catch
              (JSON_parse_or_throw (ToString stored))
              (fun parseError =>
                 label <- labelled "Invalid JSON: " pack ;;
                 Normal (named label))
          else
            label <- labelled "Unknown type: " pack ;;
            Normal (named label)) ;;
       metadata <-
         (if negb (String.eqb (typeof metadata) "object")
             || (match metadata with JNull => true | _ => false end)
          then label <- labelled "Type error: " pack ;; Normal (named label)
          else Normal metadata) ;;
       name <- get_member metadata "name" ;;
       if negb (truthy name) then
         label <- labelled "Pack: " pack ;;
         set_member metadata "name" label
       else Normal metadata
     else
       label <- labelled "Pack: " pack ;;
       Normal (named label))
    (fun e =>
       label <- labelled "Error: " pack ;;
       Normal (named label)).

(** Lines 118-249 of the [map] callback: the value of [metadata]. *)
Definition decodeMetadata (pack : JsValue) : Completion JsValue :=
  _metadata <- get_member pack "_metadata" ;;
  if truthy _metadata && String.eqb (typeof _metadata) "object"
  then metadataFromCharacters pack _metadata
  else metadataFromField pack.

(** Lines 251-263: the value of [estimatedSize], [null] or a number. *)
Definition estimatedSize (pack : JsValue) : Completion JsValue :=
  _metadata <- get_member pack "_metadata" ;;
  if truthy _metadata then
    match JSON_stringify _metadata with
    | Some metadataStr =>
        Normal (JNum (Finite (inject_Z (10 * 1024 + str_length metadataStr * 2))))
    | None => Throw TypeError
    end
  else Normal JNull.

Record OfflinePack : Type := {
  name : JsValue;
  bounds : JsValue;
  metadata : JsValue;
  size : JsValue
}.

(** The [map] callback. *)
Definition formatPack (pack : JsValue) : Completion OfflinePack :=
  metadata <- decodeMetadata pack ;;
  estimated <- estimatedSize pack ;;
  name <- get_member pack "name" ;;
  bounds <- get_member pack "bounds" ;;
  bounds <-
    (if truthy bounds then Normal bounds else
     inner <- get_member pack "pack" ;;
     if truthy inner then get_member inner "bounds" else Normal JNull) ;;
  Normal {| name := name; bounds := bounds;
            metadata := metadata; size := estimated |}.

Fixpoint mapPacks (raw : list JsValue) : Completion (list OfflinePack) :=
  match raw with
  | [] => Normal []
  | pack :: rest =>
      p <- formatPack pack ;;
      ps <- mapPacks rest ;;
      Normal (p :: ps)
  end.

(** The elements of an array, in index order. *)
Definition array_elements (props : Props) : list JsValue :=
  flat_map (fun k => match lookup k props with
                     | Some v => [v]
                     | None => []
                     end)
           (filter is_array_index (ownKeys props)).

(** [(offlinePacksRaw || []).map(...)] *)
Definition formattedPacks (offlinePacksRaw : JsValue)
  : Completion (list OfflinePack) :=
  match js_or offlinePacksRaw (JObj Array []) with
  | JObj Array props => mapPacks (array_elements props)
  | _ => Throw TypeError
  end.

(** ** The screen's state and what [fetchPacks] does to it *)

Record State : Type := {
  packs : list OfflinePack;
  isLoading : bool;
  isRefreshing : bool
}.

Inductive Effect : Type :=
| CallGetPacks
| SetPacks (l : list OfflinePack)
| SetIsLoading (b : bool)
| SetIsRefreshing (b : bool)
| Alert (title message : string).

Definition apply (st : State) (e : Effect) : State :=
  match e with
  | SetPacks l => {| packs := l; isLoading := isLoading st;
                     isRefreshing := isRefreshing st |}
  | SetIsLoading b => {| packs := packs st; isLoading := b;
                         isRefreshing := isRefreshing st |}
  | SetIsRefreshing b => {| packs := packs st; isLoading := isLoading st;
                            isRefreshing := b |}
  | CallGetPacks | Alert _ _ => st
  end.

Definition run (st : State) (effects : list Effect) : State :=
  fold_left apply effects st.

Definition getPacksCalls (effects : list Effect) : nat :=
  List.length (filter (fun e => match e with CallGetPacks => true | _ => false end)
                      effects).

(** The storage layer as [fetchPacks] sees it: what awaiting
    [offlineManager.getPacks()] yields. *)
Record OfflineManager : Type := {
  getPacks : Completion JsValue
}.

(** [fetchPacks(refreshing)]: the calls it makes, in order.  Console
    output is left out. *)
Definition fetchPacks (offlineManager : option OfflineManager)
           (refreshing : bool) : list Effect :=
  match offlineManager with
  | None => if negb refreshing then [SetIsLoading true] else []
  | Some manager =>
      ((if refreshing then [SetIsRefreshing true] else [SetIsLoading true])
       ++ [CallGetPacks]
       ++ match try_catch
                  (offlinePacksRaw <- getPacks manager ;;
                   formatted <- formattedPacks offlinePacksRaw ;;
                   Normal [SetPacks formatted])
                  (fun error =>
                     Normal [Alert "Error"
                               ("Could not fetch offline packs. "
                                  ++ message_of error);
                             SetPacks []])
          with
          | Normal effects => effects
          | Throw _ => []
          end
       ++ [SetIsLoading false; SetIsRefreshing false])%list
  end.

(** [item.metadata?.name], the name the list shows (line 334). *)
Definition displayName (metadata : JsValue) : JsValue :=
  get_member_opt metadata "name".

(** ** The specification's wording, for comparison *)

(** The key selection as the specification words it: the keys that parse
    as non-negative integers, sorted numerically. *)
Definition spec_numericKeys (_metadata : JsValue) : list string :=
  sort by_parseInt
    (filter (fun key => match parseInt key with
                        | Some z => 0 <=? z
                        | None => false
                        end)
            (Object_keys _metadata)).

(** The characters kept under the given positions, concatenated; a
    position with no character adds nothing. *)
Definition spec_charactersAt (props : Props) (positions : list N) : string :=
  String.concat EmptyString
    (map (fun i => match lookup (N_toString i) props with
                   | Some (JStr c) => c
                   | _ => EmptyString
                   end) positions).

(** Whether what is kept under each position, if anything, is a string. *)
Definition charactersOnly (props : Props) (positions : list N) : bool :=
  forallb (fun i => match lookup (N_toString i) props with
                    | Some (JStr _) | None => true
                    | Some _ => false
                    end) positions.

(** The size estimate as the specification words it: a reported size
    first; else the base allowance plus twice the length of the
    reconstructed blob; else nothing. *)
Definition spec_estimate (pack : JsValue) : Completion JsValue :=
  reported <- inspectPackForSize pack ;;
  if is_number reported then Normal reported else
  _metadata <- get_member pack "_metadata" ;;
  if truthy _metadata && String.eqb (typeof _metadata) "object" then
    blob <- reconstruct _metadata (numericKeys _metadata) EmptyString ;;
    Normal (JNum (Finite (inject_Z (10 * 1024 + str_length blob * 2))))
  else Normal JNull.

End WithRuntime.

(** The indexed-character map of a text: character [i] under key [i]. *)
Definition scattered (blob : string) : Props :=
  map (fun p => (N_toString (N.of_nat (fst p)), JStr (snd p)))
      (combine (seq 0 (String.length blob)) (characters blob)).

End Explore.

(* ================================================================== *)
(** * The map screen: [onProgress], [onError], [handleDownload] *)
(* ================================================================== *)

Module Home.

Definition MAP_STYLE_URL : string := "https://tiles.openfreemap.org/styles/liberty".

Definition quote : string := String (ascii_of_nat 34) EmptyString.

Record OfflinePackStatus : Type := {
  state : Z;
  percentage : Q
}.

Record OfflinePackInfo : Type := {
  name : string;
  metadata : JsValue
}.

Record OfflinePackError : Type := {
  message : string
}.

(** The options handed to [createPack]. *)
Record PackOptions : Type := {
  optName : string;
  styleURL : string;
  optBounds : JsValue;
  minZoom : Num;
  maxZoom : Num;
  optMetadata : JsValue
}.

(** The two pieces of component state the handlers write. *)
Record State : Type := {
  isDownloading : bool;
  downloadProgress : Q
}.

Inductive Effect : Type :=
| SetIsDownloading (b : bool)
| SetDownloadProgress (fraction : Q)
| Alert (title message : string)
| CreatePack (options : PackOptions).

Definition apply (st : State) (e : Effect) : State :=
  match e with
  | SetIsDownloading b =>
      {| isDownloading := b; downloadProgress := downloadProgress st |}
  | SetDownloadProgress q =>
      {| isDownloading := isDownloading st; downloadProgress := q |}
  | Alert _ _ | CreatePack _ => st
  end.

Definition run (st : State) (effects : list Effect) : State :=
  fold_left apply effects st.

(** The values handed to [setDownloadProgress], in order. *)
Definition published (effects : list Effect) : list Q :=
  flat_map (fun e => match e with
                     | SetDownloadProgress q => [q]
                     | _ => []
                     end) effects.

Definition createPackCalls (effects : list Effect) : nat :=
  List.length (filter (fun e => match e with CreatePack _ => true | _ => false end)
                      effects).

(** [Math.floor], [Math.max(0, _)] and [Math.min(16, _)] on numbers. *)
Definition Math_floor (n : Num) : Num :=
  match n with
  | NaN => NaN
  | Finite q => Finite (inject_Z (Qfloor q))
  end.

Definition plus (n : Num) (k : Z) : Num :=
  match n with
  | NaN => NaN
  | Finite q => Finite (q + inject_Z k)
  end.

Definition Math_max0 (n : Num) : Num :=
  match n with
  | NaN => NaN
  | Finite q => if Qle_bool q 0 then Finite 0 else Finite q
  end.

Definition Math_min16 (n : Num) : Num :=
  match n with
  | NaN => NaN
  | Finite q => if Qle_bool 16 q then Finite 16 else Finite q
  end.

Section WithRuntime.
Context {RT : JsRuntime}.

(** [pack.metadata?.name || pack.name] *)
Definition displayLabel (pack : OfflinePackInfo) : JsValue :=
  js_or (get_member_opt (metadata pack) "name") (JStr (name pack)).

(** [onProgress(pack, status)] *)
Definition onProgress (pack : OfflinePackInfo) (status : OfflinePackStatus)
  : list Effect :=
  let progress := (percentage status / 100)%Q in
  (SetDownloadProgress progress ::
   if state status =? 3 then
     [Alert "Download Complete"
        ("Region " ++ quote ++ ToString (displayLabel pack) ++ quote
           ++ " downloaded successfully.");
      SetIsDownloading false;
      SetDownloadProgress 1%Q]
   else [])%list.

(** [onError(pack, err)] *)
Definition onError (pack : OfflinePackInfo) (err : OfflinePackError)
  : list Effect :=
  [Alert "Download Error"
     ("Failed to download region "
        ++ ToString (js_or (JStr (name pack)) (JStr "Unknown Pack"))
        ++ ". " ++ message err);
   SetIsDownloading false;
   SetDownloadProgress 0%Q].

(** How a call of [handleDownload] ends at its guard. *)
Inductive Guard : Type :=
| DownloadPrevented
| DownloadStarted.

(** What the awaited calls of [handleDownload] yield. *)
Record Environment : Type := {
  getVisibleBounds : Completion JsValue;
  getZoom : Completion (option Num);
  nowForName : Z;
  localeTime : string;
  nowForMetadata : Z;
  createPack : Completion unit
}.

(** [{ name: `Region @ ${...}`, downloaded_at: Date.now() }] *)
Definition newMetadata (time : string) (now : Z) : JsValue :=
  JObj Plain [("name", JStr ("Region @ " ++ time));
              ("downloaded_at", JNum (Finite (inject_Z now)))].

Definition stringified (v : JsValue) : JsValue :=
  match JSON_stringify v with
  | Some s => JStr s
  | None => JUndefined
  end.

(** [handleDownload] up to its first [await]: the guard and the two
    state writes that follow it.  [offlineManager] tells whether the
    manager is available. *)
Definition handleDownload_guard (offlineManager : bool) (st : State)
  : Guard * list Effect :=
  if isDownloading st || negb offlineManager then
    (DownloadPrevented,
     if negb offlineManager then
       [Alert "Error"
          "Offline manager is not yet available. Please wait and try again."]
     else [])
  else
    (DownloadStarted, [SetIsDownloading true; SetDownloadProgress 0%Q]).

(** The [try] block of [handleDownload]. *)
Definition handleDownload_try (env : Environment)
  : Completion (list Effect) * list Effect :=
  match getVisibleBounds env with
  | Throw e => (Throw e, [])
  | Normal bounds =>
  match getZoom env with
  | Throw e => (Throw e, [])
  | Normal zoom =>
  match (if truthy bounds then zoom else None) with
  | None =>
      (Normal [],
       [Alert "Error" "Could not get map bounds or zoom level.";
        SetIsDownloading false])
  | Some z =>
      let packName :=
        "offline-pack-" ++ Number_toString (inject_Z (nowForName env)) in
      let metadata := newMetadata (localeTime env) (nowForMetadata env) in
      let options :=
        {| optName := packName;
           styleURL := MAP_STYLE_URL;
           optBounds := bounds;
           minZoom := Math_max0 (plus (Math_floor z) (-2));
           maxZoom := Math_min16 (plus (Math_floor z) 3);
           optMetadata := stringified metadata |} in
      match createPack env with
      | Normal _ => (Normal [], [CreatePack options])
      | Throw e => (Throw e, [CreatePack options])
      end
  end end end.

(** [handleDownload] after its guard. *)
Definition handleDownload_rest (env : Environment) : list Effect :=
  let '(outcome, effects) := handleDownload_try env in
  (effects ++
   match outcome with
   | Normal _ => []
   | Throw error =>
       [Alert "Error" ("Failed to start download. " ++ message_of error);
        SetIsDownloading false;
        SetDownloadProgress 0%Q]
   end)%list.

(** [handleDownload()] *)
Definition handleDownload (offlineManager : bool) (st : State)
           (env : Environment) : Guard * list Effect :=
  match handleDownload_guard offlineManager st with
  | (DownloadPrevented, effects) => (DownloadPrevented, effects)
  | (DownloadStarted, effects) =>
      (DownloadStarted, (effects ++ handleDownload_rest env)%list)
  end.

(** The effects of a run of progress callbacks for one pack. *)
Definition progressRun (pack : OfflinePackInfo)
           (statuses : list OfflinePackStatus) : list Effect :=
  flat_map (onProgress pack) statuses.

End WithRuntime.
End Home.

(* ================================================================== *)
(** * A reference runtime *)
(* ================================================================== *)

(** [JSON.parse], [JSON.stringify] and number printing after ECMA-404 and
    ECMA-262, for texts of one-byte code units and for numbers that are
    integers or short decimals below [10^21].  The theorems below hold for
    every runtime; this one runs the model on concrete records. *)

Module Reference.

Definition is_json_space (c : ascii) : bool :=
  let n := Zcode c in (n =? 32) || (n =? 9) || (n =? 10) || (n =? 13).

Fixpoint skip_space (s : string) : string :=
  match s with
  | String c s' => if is_json_space c then skip_space s' else s
  | EmptyString => EmptyString
  end.

(** Leading decimal digits: their value, how many there are, and the rest. *)
Fixpoint read_digits (s : string) (acc : Z) (count : Z) : Z * Z * string :=
  match s with
  | String c s' =>
      if is_decimal_digit c then read_digits s' (10 * acc + (Zcode c - 48)) (count + 1)
      else (acc, count, s)
  | EmptyString => (acc, count, s)
  end.

Definition scaled (mantissa exponent : Z) : Q :=
  if 0 <=? exponent then inject_Z (mantissa * 10 ^ exponent)
  else Qred (Qmake mantissa (Z.to_pos (10 ^ (- exponent)))).

(** number = [-] int [frac] [exp] *)
Definition read_number (s : string) : option (Q * string) :=
  let '(sign, s1) :=
    match s with String "-" r => (-1, r) | _ => (1, s) end in
  let '(int, n, s2) := read_digits s1 0 0 in
  if (n =? 0) || ((1 <? n) && prefix "0" s1) then None else
  let frac :=
    match s2 with
    | String "." r =>
        let '(m, k, s3) := read_digits r int 0 in
        if k =? 0 then None else Some (m, k, s3)
    | _ => Some (int, 0, s2)
    end in
  match frac with
  | None => None
  | Some (m, k, s3) =>
      let exp :=
        match s3 with
        | String c r =>
            if (Zcode c =? 101) || (Zcode c =? 69) then
              let '(esign, r1) :=
                match r with
                | String "-" r' => (-1, r')
                | String "+" r' => (1, r')
                | _ => (1, r)
                end in
              let '(e, ek, s4) := read_digits r1 0 0 in
              if ek =? 0 then None else Some (esign * e, s4)
            else Some (0, s3)
        | EmptyString => Some (0, s3)
        end in
      match exp with
      | None => None
      | Some (e, s4) => Some (scaled (sign * m) (e - k), s4)
      end
  end.

Definition hex4 (a b c d : ascii) : option Z :=
  match digit_value 16 a, digit_value 16 b, digit_value 16 c, digit_value 16 d with
  | Some x, Some y, Some z, Some w => Some (((x * 16 + y) * 16 + z) * 16 + w)
  | _, _, _, _ => None
  end.

(** The characters of a string literal after its opening quote. *)
Fixpoint read_string (s : string) : option (string * string) :=
  match s with
  | EmptyString => None
  | String c r =>
      if Zcode c =? 34 then Some (EmptyString, r)
      else if Zcode c =? 92 then
        match r with
        | String e r' =>
            let plain (x : Z) :=
              option_map (fun p => (String (char_of_Z x) (fst p), snd p))
                         (read_string r') in
            if Zcode e =? 34 then plain 34
            else if Zcode e =? 92 then plain 92
            else if Zcode e =? 47 then plain 47
            else if Zcode e =? 98 then plain 8
            else if Zcode e =? 102 then plain 12
            else if Zcode e =? 110 then plain 10
            else if Zcode e =? 114 then plain 13
            else if Zcode e =? 116 then plain 9
            else if Zcode e =? 117 then
              match r' with
              | String h1 (String h2 (String h3 (String h4 r''))) =>
                  match hex4 h1 h2 h3 h4 with
                  | Some x =>
                      if x <? 256 then
                        option_map
                          (fun p => (String (char_of_Z x) (fst p), snd p))
                          (read_string r'')
                      else None
                  | None => None
                  end
              | _ => None
              end
            else None
        | EmptyString => None
        end
      else if Zcode c <? 32 then None
      else option_map (fun p => (String c (fst p), snd p)) (read_string r)
  end.

Definition read_literal (word : string) (v : JsValue) (s : string)
  : option (JsValue * string) :=
  if prefix word s
  then Some (v, substring (String.length word)
                          (String.length s - String.length word) s)
  else None.

Fixpoint read_value (fuel : nat) (s : string) : option (JsValue * string) :=
  match fuel with
  | O => None
  | S f =>
      match skip_space s with
      | String c r =>
          if Zcode c =? 123 then
            match skip_space r with
            | String "}" r' => Some (JObj Plain [], r')
            | r1 => read_members f r1 []
            end
          else if Zcode c =? 91 then
            match skip_space r with
            | String "]" r' => Some (JObj Array [], r')
            | r1 => read_elements f r1 0%N []
            end
          else if Zcode c =? 34 then
            option_map (fun p => (JStr (fst p), snd p)) (read_string r)
          else if Zcode c =? 116 then read_literal "true" (JBool true) (String c r)
          else if Zcode c =? 102 then read_literal "false" (JBool false) (String c r)
          else if Zcode c =? 110 then read_literal "null" JNull (String c r)
          else option_map (fun p => (JNum (Finite (fst p)), snd p))
                          (read_number (String c r))
      | EmptyString => None
      end
  end

with read_members (fuel : nat) (s : string) (acc : Props)
  : option (JsValue * string) :=
  match fuel with
  | O => None
  | S f =>
      match skip_space s with
      | String c r =>
          match (if Zcode c =? 34 then read_string r else None) with
          | Some (key, r1) =>
              match skip_space r1 with
              | String ":" r2 =>
                  match read_value f r2 with
                  | Some (v, r3) =>
                      let acc' := store key v acc in
                      match skip_space r3 with
                      | String "," r4 => read_members f r4 acc'
                      | String "}" r4 => Some (JObj Plain acc', r4)
                      | _ => None
                      end
                  | None => None
                  end
              | _ => None
              end
          | None => None
          end
      | EmptyString => None
      end
  end

with read_elements (fuel : nat) (s : string) (i : N) (acc : Props)
  : option (JsValue * string) :=
  match fuel with
  | O => None
  | S f =>
      match read_value f s with
      | Some (v, r) =>
          let acc' := (acc ++ [(N_toString i, v)])%list in
          match skip_space r with
          | String "," r1 => read_elements f r1 (N.succ i) acc'
          | String "]" r1 => Some (JObj Array acc', r1)
          | _ => None
          end
      | None => None
      end
  end.

(** [JSON.parse(text)] *)
Definition parse (text : string) : option JsValue :=
  match read_value (2 * String.length text + 2) text with
  | Some (v, rest) =>
      match skip_space rest with
      | EmptyString => Some v
      | _ => None
      end
  | None => None
  end.

(** Up to [fuel] decimals of [r / d], stopping when the remainder is 0. *)
Fixpoint decimals (fuel : nat) (r d : N) : string :=
  match fuel with
  | O => EmptyString
  | S f =>
      if (r =? 0)%N then EmptyString
      else String (ascii_of_N (48 + (10 * r) / d))
                  (decimals f ((10 * r) mod d) d)
  end.

(** [q.toString()] *)
Definition number_toString (q : Q) : string :=
  let n := Z.abs_N (Qnum q) in
  let d := Npos (Qden q) in
  let fraction := decimals 20 (n mod d) d in
  (if (Qnum q <? 0) then "-" else EmptyString)
    ++ N_toString (n / d)
    ++ (if String.eqb fraction EmptyString then EmptyString
        else "." ++ fraction).

Definition hex_digit (n : Z) : ascii :=
  if n <? 10 then char_of_Z (48 + n) else char_of_Z (87 + n).

Definition backslash : string := String (ascii_of_nat 92) EmptyString.

Fixpoint escaped (s : string) : string :=
  match s with
  | EmptyString => EmptyString
  | String c r =>
      let n := Zcode c in
      (if n =? 34 then backslash ++ String c EmptyString
       else if n =? 92 then backslash ++ backslash
       else if n =? 8 then backslash ++ "b"
       else if n =? 12 then backslash ++ "f"
       else if n =? 10 then backslash ++ "n"
       else if n =? 13 then backslash ++ "r"
       else if n =? 9 then backslash ++ "t"
       else if n <? 32 then
         backslash ++ "u00" ++ String (hex_digit (n / 16))
                          (String (hex_digit (n mod 16)) EmptyString)
       else String c EmptyString) ++ escaped r
  end.

Definition quoted (s : string) : string :=
  Home.quote ++ escaped s ++ Home.quote.

(** [JSON.stringify(v)]; [None] stands for [undefined]. *)
Fixpoint stringify (v : JsValue) : option string :=
  match v with
  | JUndefined => None
  | JNull => Some "null"
  | JBool true => Some "true"
  | JBool false => Some "false"
  | JNum NaN => Some "null"
  | JNum (Finite q) => Some (number_toString q)
  | JStr s => Some (quoted s)
  | JObj kind props =>
      let texts :=
        (fix each (l : Props) : list (string * option string) :=
           match l with
           | [] => []
           | (k, e) :: rest => (k, stringify e) :: each rest
           end) props in
      let text_of k :=
        match find (fun p => String.eqb k (fst p)) texts with
        | Some (_, t) => t
        | None => None
        end in
      match kind with
      | Plain =>
          Some ("{" ++ join ","
                  (flat_map (fun k => match text_of k with
                                      | Some t => [quoted k ++ ":" ++ t]
                                      | None => []
                                      end) (ownKeys props)) ++ "}")
      | Array =>
          Some ("[" ++ join ","
                  (map (fun k => match text_of k with
                                 | Some t => t
                                 | None => "null"
                                 end)
                       (filter is_array_index (ownKeys props))) ++ "]")
      end
  end.

Definition message (e : Exn) : string :=
  match e with
  | TypeError => "TypeError"
  | SyntaxError => "SyntaxError"
  | Rejected m => m
  end.

#[export] Instance runtime : JsRuntime := {|
  JSON_parse := parse;
  JSON_stringify := stringify;
  Number_toString := number_toString;
  builtin_message := message
|}.

End Reference.

Export Reference.

(* ================================================================== *)
(** * The catalog screen: rows, views and deletion *)
(* ================================================================== *)

Module ExploreView.

(** A raw pack is a record when reading a field of it does not throw. *)
Definition is_record (pack : JsValue) : bool :=
  match pack with
  | JUndefined | JNull => false
  | _ => true
  end.

(** What the screen shows: the spinner alone, or the list, whose empty
    text appears when there is no row and nothing is loading. *)
Inductive View : Type :=
| Loader
| ListOf (rows : list Explore.OfflinePack) (emptyText : bool).

(** The [return] of [TabTwoScreen] (lines 361-394). *)
Definition view (st : Explore.State) : View :=
  if Explore.isLoading st
     && (Z.of_nat (List.length (Explore.packs st)) =? 0)
     && negb (Explore.isRefreshing st)
  then Loader
  else ListOf (Explore.packs st)
              (match Explore.packs st with
               | [] => negb (Explore.isLoading st)
                       && negb (Explore.isRefreshing st)
               | _ :: _ => false
               end).

(** [disabled={isLoading || isRefreshing}] on a row's Delete button. *)
Definition deleteDisabled (st : Explore.State) : bool :=
  Explore.isLoading st || Explore.isRefreshing st.

(** What the delete dialog's buttons lead to. *)
Inductive Choice : Type :=
| Cancel
| Delete.

Inductive Effect : Type :=
| CallDeletePack (packName : JsValue)
| Screen (e : Explore.Effect).

Definition apply (st : Explore.State) (e : Effect) : Explore.State :=
  match e with
  | CallDeletePack _ => st
  | Screen e' => Explore.apply st e'
  end.

Definition run (st : Explore.State) (effects : list Effect) : Explore.State :=
  fold_left apply effects st.

Definition deletePackCalls (effects : list Effect) : list JsValue :=
  flat_map (fun e => match e with
                     | CallDeletePack n => [n]
                     | Screen _ => []
                     end) effects.

(** The effects on the screen alone. *)
Definition screenEffects (effects : list Effect) : list Explore.Effect :=
  flat_map (fun e => match e with
                     | CallDeletePack _ => []
                     | Screen e' => [e']
                     end) effects.

Section WithRuntime.
Context {RT : JsRuntime}.

(** Whether [JSON.stringify] has a text for the record's [_metadata] when
    that is truthy, as it has for every value that is not [undefined]. *)
Definition serializable (pack : JsValue) : bool :=
  let m := get_member_opt pack "_metadata" in
  if truthy m
  then match JSON_stringify m with Some _ => true | None => false end
  else true.

(** [item.metadata?.name || item.name], the row's title (line 334) and the
    name handed to [handleDeletePack] (line 349). *)
Definition itemTitle (item : Explore.OfflinePack) : JsValue :=
  js_or (get_member_opt (Explore.metadata item) "name") (Explore.name item).

(** [item.metadata?.downloaded_at && ...]: whether the row has its
    "Downloaded:" line. *)
Definition showsDownloaded (item : Explore.OfflinePack) : bool :=
  truthy (get_member_opt (Explore.metadata item) "downloaded_at").

(** The storage layer as the screen sees it. *)
Record Storage : Type := {
  packsManager : Explore.OfflineManager;
  deletePack : JsValue -> Completion unit
}.

(** [handleDeletePack(packName, displayName)], with the button the user
    presses in the dialog. *)
Definition handleDeletePack (offlineManager : option Storage) (choice : Choice)
           (packName displayName : JsValue) : list Effect :=
  match offlineManager with
  | None => [Screen (Explore.Alert "Error" "Offline manager not available.")]
  | Some storage =>
      Screen (Explore.Alert "Confirm Deletion"
                ("Are you sure you want to delete the offline region "
                   ++ Home.quote ++ ToString displayName ++ Home.quote ++ "?"))
      :: match choice with
         | Cancel => []
         | Delete =>
             Screen (Explore.SetIsLoading true)
             :: CallDeletePack packName
             :: match deletePack storage packName with
                | Normal _ =>
                    Screen (Explore.Alert "Success"
                              ("Region " ++ Home.quote ++ ToString displayName
                                 ++ Home.quote ++ " deleted."))
                    :: map Screen
                         (Explore.fetchPacks (Some (packsManager storage)) false)
                | Throw error =>
                    [Screen (Explore.Alert "Error"
                               ("Could not delete pack. " ++ message_of error));
                     Screen (Explore.SetIsLoading false)]
                end
         end
  end.

(** A row's Delete button: [handleDeletePack(item.name, title)]. *)
Definition pressDelete (offlineManager : option Storage) (choice : Choice)
           (item : Explore.OfflinePack) : list Effect :=
  handleDeletePack offlineManager choice (Explore.name item) (itemTitle item).

End WithRuntime.
End ExploreView.

(* ================================================================== *)
(** * The map screen: callbacks, progress text and location *)
(* ================================================================== *)

Module HomeView.

(** [Math.round]: the nearest integer, halves upwards. *)
Definition Math_round (q : Q) : Z := Qfloor (q + (1 # 2))%Q.

(** The number in [`Downloading... (${Math.round(downloadProgress * 100)}%)`]. *)
Definition progressPercent (st : Home.State) : Z :=
  Math_round (Home.downloadProgress st * 100)%Q.

(** Whether the Download button is on screen: it gives way to the
    progress text while [isDownloading] holds. *)
Definition downloadButtonShown (st : Home.State) : bool :=
  negb (Home.isDownloading st).

(** A call the storage layer makes on one of the two listeners. *)
Inductive Callback : Type :=
| Progress (pack : Home.OfflinePackInfo) (status : Home.OfflinePackStatus)
| Failure (pack : Home.OfflinePackInfo) (err : Home.OfflinePackError).

Record CameraConfig : Type := {
  followUserLocation : bool;
  zoomLevel : Z;
  animationDuration : Z
}.

(** The location part of the component state; [locationPermission] is
    [None] until a request has been answered. *)
Record LocationState : Type := {
  locationPermission : option bool;
  showsUserLocation : bool;
  cameraConfig : CameraConfig
}.

Definition initialLocation : LocationState :=
  {| locationPermission := None;
     showsUserLocation := false;
     cameraConfig := {| followUserLocation := false;
                        zoomLevel := 12;
                        animationDuration := 0 |} |}.

Inductive LocationEffect : Type :=
| SetLocationPermission (granted : bool)
| SetShowsUserLocation (b : bool)
| SetCameraConfig (c : CameraConfig)
| StopFollowing
| PermissionAlert (title message : string).

Definition applyLocation (st : LocationState) (e : LocationEffect)
  : LocationState :=
  match e with
  | SetLocationPermission g =>
      {| locationPermission := Some g;
         showsUserLocation := showsUserLocation st;
         cameraConfig := cameraConfig st |}
  | SetShowsUserLocation b =>
      {| locationPermission := locationPermission st;
         showsUserLocation := b;
         cameraConfig := cameraConfig st |}
  | SetCameraConfig c =>
      {| locationPermission := locationPermission st;
         showsUserLocation := showsUserLocation st;
         cameraConfig := c |}
  | StopFollowing =>
      {| locationPermission := locationPermission st;
         showsUserLocation := showsUserLocation st;
         cameraConfig :=
           {| followUserLocation := false;
              zoomLevel := zoomLevel (cameraConfig st);
              animationDuration := animationDuration (cameraConfig st) |} |}
  | PermissionAlert _ _ => st
  end.

Definition runLocation (st : LocationState) (effects : list LocationEffect)
  : LocationState :=
  fold_left applyLocation effects st.

(** [showsUserLocation && locationPermission && <UserLocation />] *)
Definition markerShown (st : LocationState) : bool :=
  showsUserLocation st
  && match locationPermission st with Some true => true | _ => false end.

(** [requestLocationPermission()]: what it returns and what it does, given
    what awaiting the permission request yields. *)
Definition requestLocationPermission (request : Completion string)
  : bool * list LocationEffect :=
  match request with
  | Normal status =>
      let isGranted := String.eqb status "granted" in
      (isGranted,
       SetLocationPermission isGranted
       :: if negb isGranted
          then [PermissionAlert "Permission Required"
                  "Location permission is needed to show your position on the map."]
          else [])
  | Throw _ => (false, [SetLocationPermission false])
  end.

(** [handleLocationFocus()]: what it does at once, and what its timer
    does 1500 ms later. *)
Definition handleLocationFocus (st : LocationState) (request : Completion string)
  : list LocationEffect * list LocationEffect :=
  let '(granted, asked) :=
    match locationPermission st with
    | Some true => (true, [])
    | _ => requestLocationPermission request
    end in
  if granted then
    ((asked ++ [SetShowsUserLocation true;
                SetCameraConfig {| followUserLocation := true;
                                   zoomLevel := 15;
                                   animationDuration := 1000 |}])%list,
     [StopFollowing])
  else (asked, []).

Section WithRuntime.
Context {RT : JsRuntime}.

Definition callbackEffects (c : Callback) : list Home.Effect :=
  match c with
  | Progress pack status => Home.onProgress pack status
  | Failure pack err => Home.onError pack err
  end.

(** The record the storage layer keeps for a pack made with the given
    options, when it hands the metadata back as the text it was given. *)
Definition storedRecord (options : Home.PackOptions) : JsValue :=
  JObj Plain [("name", JStr (Home.optName options));
              ("bounds", Home.optBounds options);
              ("metadata", Home.optMetadata options)].

End WithRuntime.
End HomeView.

(* ================================================================== *)
(** * Sample records *)
(* ================================================================== *)

Definition idleScreen : Home.State :=
  {| Home.isDownloading := false; Home.downloadProgress := 0%Q |}.

Definition sampleEnvironment : Home.Environment :=
  {| Home.getVisibleBounds := Normal (JObj Array []);
     Home.getZoom := Normal (Some (Finite 12%Q));
     Home.nowForName := 1700000000000;
     Home.localeTime := "10:00:00";
     Home.nowForMetadata := 1700000000000;
     Home.createPack := Normal tt |}.

(** What a second press, half a second later, is answered with. *)
Definition laterEnvironment : Home.Environment :=
  {| Home.getVisibleBounds := Normal (JObj Array []);
     Home.getZoom := Normal (Some (Finite 12%Q));
     Home.nowForName := 1700000000500;
     Home.localeTime := "10:00:00";
     Home.nowForMetadata := 1700000000500;
     Home.createPack := Normal tt |}.

Definition samplePack : Home.OfflinePackInfo :=
  {| Home.name := "offline-pack-1700000000000";
     Home.metadata := JObj Plain [("name", JStr "Region @ 10:00:00")] |}.

Definition active (p : Q) : Home.OfflinePackStatus :=
  {| Home.state := 2; Home.percentage := p |}.

Definition complete (p : Q) : Home.OfflinePackStatus :=
  {| Home.state := 3; Home.percentage := p |}.

(** A pack whose indexed-character map spells the text of an empty
    object, and the same text kept as an opaque string. *)
Definition namelessMapPack : JsValue :=
  JObj Plain [("name", JStr "offline-pack-1");
              ("_metadata", JObj Plain [("0", JStr "{"); ("1", JStr "}")])].

Definition namelessTextPack : JsValue :=
  JObj Plain [("name", JStr "offline-pack-1"); ("metadata", JStr "{}")].

(** A pack whose metadata string is not structured text. *)
Definition unparsablePack : JsValue :=
  JObj Plain [("name", JStr "offline-pack-1"); ("metadata", JStr "oops")].

(** A pack with no metadata, and one whose metadata is a number. *)
Definition barePack : JsValue :=
  JObj Plain [("name", JStr "offline-pack-1")].

Definition numberMetadataPack : JsValue :=
  JObj Plain [("name", JStr "offline-pack-1");
              ("metadata", JNum (Finite 42%Q))].

(** A pack whose record reports a size and has no indexed-character map. *)
Definition sizedPack : JsValue :=
  JObj Plain [("name", JStr "offline-pack-1");
              ("size", JNum (Finite 5000%Q))].

(** An indexed-character map of a text cut short before its closing brace,
    with the name the map carries besides. *)
Definition truncatedText : string :=
  "{" ++ Home.quote ++ "name" ++ Home.quote ++ ":" ++ Home.quote
      ++ "Region @ 9:00:00 AM" ++ Home.quote ++ "," ++ Home.quote
      ++ "downloaded_at" ++ Home.quote ++ ":1700000000000".

Definition truncatedMap : Props :=
  (Explore.scattered truncatedText ++ [("name", JStr "Region @ 9:00:00 AM")])%list.

Definition truncatedPack : JsValue :=
  JObj Plain [("name", JStr "offline-pack-1");
              ("_metadata", JObj Plain truncatedMap)].

(** A map with a key that [parseInt] reads as a negative number. *)
Definition negativeKeyMap : JsValue :=
  JObj Plain [("-1", JStr "x"); ("0", JStr "{"); ("1", JStr "}")].

(** A pack written at 10:00:00, as [handleDownload] makes it: the text
    handed to [createPack], the pack that holds it as an opaque string,
    and the pack that holds it as an indexed-character map whose keys were
    inserted last to first. *)
Definition sampleBlob : string :=
  match stringify (Home.newMetadata "10:00:00" 1700000000000) with
  | Some text => text
  | None => EmptyString
  end.

Definition sampleTextPack : JsValue :=
  JObj Plain [("name", JStr "offline-pack-1700000000000");
              ("metadata", JStr sampleBlob)].

Definition sampleMapPack : JsValue :=
  JObj Plain [("name", JStr "offline-pack-1700000000000");
              ("_metadata", JObj Plain (rev (Explore.scattered sampleBlob)))].

(** A pack whose metadata is handed over as an object with a field of
    its own besides the name. *)
Definition objectMetadataPack : JsValue :=
  JObj Plain [("name", JStr "offline-pack-1");
              ("metadata",
               JObj Plain [("name", JStr "Trailhead"); ("note", JStr "kept")])].

(** The indexed-character map of the sample text, carrying a name of its
    own besides. *)
Definition renamedMapPack : JsValue :=
  JObj Plain [("name", JStr "offline-pack-1700000000000");
              ("_metadata",
               JObj Plain (Explore.scattered sampleBlob
                             ++ [("name", JStr "Other")])%list)].

(** A raw answer of two records, and one with a [null] entry in between. *)
Definition twoRecords : Props :=
  [("0", sampleTextPack); ("1", namelessMapPack)].

Definition recordsWithNull : Props :=
  [("0", sampleTextPack); ("1", JNull); ("2", barePack)].

(** A screen with nothing on it, and one still showing an earlier list. *)
Definition emptyScreen : Explore.State :=
  {| Explore.packs := [];
     Explore.isLoading := false;
     Explore.isRefreshing := false |}.

Definition staleScreen : Explore.State :=
  {| Explore.packs :=
       [{| Explore.name := JStr "offline-pack-0";
           Explore.bounds := JNull;
           Explore.metadata := Explore.named (JStr "Earlier");
           Explore.size := JNull |}];
     Explore.isLoading := false;
     Explore.isRefreshing := false |}.

(** The pack on the stale screen, a storage layer that refuses to delete,
    and one that deletes and has no pack left. *)
Definition earlierPack : Explore.OfflinePack :=
  {| Explore.name := JStr "offline-pack-0";
     Explore.bounds := JNull;
     Explore.metadata := Explore.named (JStr "Earlier");
     Explore.size := JNull |}.

Definition refusingStorage : ExploreView.Storage :=
  {| ExploreView.packsManager :=
       {| Explore.getPacks := Normal (JObj Array []) |};
     ExploreView.deletePack := fun _ => Throw (Rejected "pack is in use") |}.

Definition emptiedStorage : ExploreView.Storage :=
  {| ExploreView.packsManager :=
       {| Explore.getPacks := Normal (JObj Array []) |};
     ExploreView.deletePack := fun _ => Normal tt |}.

(* ================================================================== *)
(** * Facts about strings *)
(* ================================================================== *)

Unset Implicit Arguments.

Lemma append_assoc (a b c : string) : (a ++ b) ++ c = a ++ (b ++ c).
Proof. induction a as [|x a IH]; cbn; [reflexivity|now rewrite IH]. Qed.

Lemma append_empty_r (a : string) : a ++ EmptyString = a.
Proof. induction a as [|x a IH]; cbn; [reflexivity|now rewrite IH]. Qed.

Lemma length_append (a b : string) :
  String.length (a ++ b) = (String.length a + String.length b)%nat.
Proof. induction a as [|x a IH]; cbn; [reflexivity|now rewrite IH]. Qed.

(* ================================================================== *)
(** * The download coordinator *)
(* ================================================================== *)

Section Coordinator.
Context {RT : JsRuntime}.

Lemma run_app (st : Home.State) (e1 e2 : list Home.Effect) :
  Home.run st (e1 ++ e2) = Home.run (Home.run st e1) e2.
Proof. unfold Home.run. apply fold_left_app. Qed.

Lemma published_app (e1 e2 : list Home.Effect) :
  Home.published (e1 ++ e2) = (Home.published e1 ++ Home.published e2)%list.
Proof. unfold Home.published. apply flat_map_app. Qed.

(** While a download is under way a call of [handleDownload] stops at its
    guard: it writes no state and asks for no pack. *)
Lemma handleDownload_while_downloading
      (offlineManager : bool) (st : Home.State) (env : Home.Environment) :
  Home.isDownloading st = true ->
  exists effects,
    Home.handleDownload offlineManager st env = (Home.DownloadPrevented, effects)
    /\ Home.run st effects = st
    /\ Home.createPackCalls effects = 0%nat
    /\ Home.published effects = [].
Proof.
  intros Hd. unfold Home.handleDownload, Home.handleDownload_guard.
  rewrite Hd. cbn [orb].
  destruct offlineManager; cbn [negb]; eexists; repeat split; reflexivity.
Qed.

(** When idle and with the manager at hand, [handleDownload] passes its
    guard and marks the download as under way before it first waits. *)
Lemma handleDownload_when_idle (st : Home.State) :
  Home.isDownloading st = false ->
  Home.handleDownload_guard true st
  = (Home.DownloadStarted,
     [Home.SetIsDownloading true; Home.SetDownloadProgress 0%Q]).
Proof.
  intros Hd. unfold Home.handleDownload_guard. now rewrite Hd.
Qed.

(** After a render.  A download requested of a handler that has seen
    [isDownloading] set is turned down at once and changes nothing.
    From an idle screen the first call of
    [handleDownload] passes the guard and sets [isDownloading] before its
    first [await]; a second call made at that point, or in any later
    state in which [isDownloading] still holds, returns at the guard
    ("Download prevented"), leaves [isDownloading] and [downloadProgress]
    as they are and makes no [createPack] call, so that the two calls
    together make at most one. *)
Theorem second_download_prevented
        (st : Home.State) (env1 env2 : Home.Environment) :
  Home.isDownloading st = false ->
  let first := Home.handleDownload_guard true st in
  let st1 := Home.run st (snd first) in
  fst first = Home.DownloadStarted
  /\ Home.isDownloading st1 = true
  /\ (forall (manager : bool) (busy : Home.State),
         Home.isDownloading busy = true ->
         exists effects,
           Home.handleDownload manager busy env2
           = (Home.DownloadPrevented, effects)
           /\ Home.run busy effects = busy
           /\ Home.createPackCalls effects = 0%nat)
  /\ (Home.createPackCalls (snd (Home.handleDownload true st env1))
      + Home.createPackCalls (snd (Home.handleDownload true st1 env2))
      <= 1)%nat.
Proof.
  intros Hidle first st1.
  assert (Hfirst : first = (Home.DownloadStarted,
                            [Home.SetIsDownloading true;
                             Home.SetDownloadProgress 0%Q]))
    by (apply handleDownload_when_idle; exact Hidle).
  assert (Hbusy : Home.isDownloading st1 = true)
    by (unfold st1; rewrite Hfirst; reflexivity).
  split; [now rewrite Hfirst|]. split; [exact Hbusy|]. split.
  - intros manager busy Hb.
    destruct (handleDownload_while_downloading manager busy env2 Hb)
      as (effects & H1 & H2 & H3 & _).
    exists effects. auto.
  - destruct (handleDownload_while_downloading true st1 env2 Hbusy)
      as (effects & H1 & _ & H3 & _).
    rewrite H1. cbn [snd]. rewrite H3, Nat.add_0_r.
    unfold Home.handleDownload. fold first. rewrite Hfirst.
    cbn [snd]. unfold Home.createPackCalls. cbn [app filter].
    unfold Home.handleDownload_rest, Home.handleDownload_try.
    destruct (Home.getVisibleBounds env1) as [b|e]; cbn; [|lia].
    destruct (Home.getZoom env1) as [z|e]; cbn; [|lia].
    destruct (truthy b); [destruct z as [z|]|]; cbn; try lia.
    destruct (Home.createPack env1); cbn; lia.
Qed.

(** ** Progress *)

Lemma Sorted_snoc (A : Type) (R : A -> A -> Prop) (l : list A) (x : A) :
  Sorted R l -> Forall (fun a => R a x) l -> Sorted R (l ++ [x]).
Proof.
  induction 1 as [|a l Hs IH Hhd]; intros Hall; cbn.
  - repeat constructor.
  - inversion Hall as [|? ? Hax Hrest]; subst.
    constructor; [now apply IH|].
    destruct l as [|b l]; cbn; constructor; [exact Hax|].
    now inversion Hhd.
Qed.

Lemma Sorted_map (A B : Type) (R : A -> A -> Prop) (R' : B -> B -> Prop)
      (f : A -> B) (l : list A) :
  (forall a b, R a b -> R' (f a) (f b)) ->
  Sorted R l -> Sorted R' (map f l).
Proof.
  intros Hf. induction 1 as [|a l Hs IH Hhd]; cbn; constructor; auto.
  destruct Hhd; cbn; constructor; auto.
Qed.

Lemma fraction_le (p q : Q) : (p <= q)%Q -> (p / 100 <= q / 100)%Q.
Proof.
  intros H. unfold Qdiv. apply Qmult_le_compat_r; [exact H|].
  discriminate.
Qed.

Lemma fraction_le_1 (p : Q) : (p <= 100)%Q -> (p / 100 <= 1)%Q.
Proof.
  intros H. apply Qle_shift_div_r; [reflexivity|].
  now rewrite Qmult_1_l.
Qed.

(** A run of callbacks none of which reports completion publishes one
    fraction per callback and leaves [isDownloading] alone. *)
Lemma progressRun_ongoing (pack : Home.OfflinePackInfo)
      (statuses : list Home.OfflinePackStatus) :
  Forall (fun s => Home.state s <> 3) statuses ->
  Home.progressRun pack statuses
  = map (fun s => Home.SetDownloadProgress (Home.percentage s / 100)%Q)
        statuses.
Proof.
  induction 1 as [|s l Hs _ IH]; [reflexivity|].
  unfold Home.progressRun in *. cbn [flat_map map]. rewrite IH.
  unfold Home.onProgress.
  apply Z.eqb_neq in Hs. now rewrite Hs.
Qed.

Lemma published_progress (l : list Home.OfflinePackStatus) :
  Home.published
    (map (fun s => Home.SetDownloadProgress (Home.percentage s / 100)%Q) l)
  = map (fun s => (Home.percentage s / 100)%Q) l.
Proof. induction l as [|s l IH]; cbn; [reflexivity|now f_equal]. Qed.

(** C4.  For callbacks with non-decreasing percentages between 0 and 100
    of which the last, and only the last, carries the complete status
    (state 3), the fractions handed to [setDownloadProgress] are each
    percentage divided by 100, in order, followed by 1; this sequence is
    non-decreasing; afterwards [downloadProgress] is exactly 1 and
    [isDownloading] is false; and the completion alert names the pack by
    [pack.metadata?.name || pack.name], which is the metadata's name
    whenever that is a non-empty string. *)
Theorem progress_published
        (pack : Home.OfflinePackInfo)
        (before : list Home.OfflinePackStatus) (final : Home.OfflinePackStatus)
        (st : Home.State) :
  Forall (fun s => Home.state s <> 3) before ->
  Home.state final = 3 ->
  Forall (fun s => (0 <= Home.percentage s)%Q /\ (Home.percentage s <= 100)%Q)
         (before ++ [final]) ->
  Sorted (fun a b => (Home.percentage a <= Home.percentage b)%Q)
         (before ++ [final]) ->
  let effects := Home.progressRun pack (before ++ [final]) in
  Home.published effects
  = (map (fun s => (Home.percentage s / 100)%Q) (before ++ [final]) ++ [1%Q])%list
  /\ Sorted Qle (Home.published effects)
  /\ last (Home.published effects) 0%Q = 1%Q
  /\ Home.downloadProgress (Home.run st effects) = 1%Q
  /\ Home.isDownloading (Home.run st effects) = false
  /\ In (Home.Alert "Download Complete"
           ("Region " ++ Home.quote ++ ToString (Home.displayLabel pack)
              ++ Home.quote ++ " downloaded successfully."))
        effects
  /\ (forall label : string,
         get_member_opt (Home.metadata pack) "name" = JStr label ->
         label <> EmptyString ->
         ToString (Home.displayLabel pack) = label).
Proof.
  intros Hbefore Hfinal Hrange Hsorted effects.
  assert (Heff : effects
                 = (map (fun s => Home.SetDownloadProgress
                                    (Home.percentage s / 100)%Q) before
                    ++ Home.onProgress pack final)%list).
  { unfold effects, Home.progressRun. rewrite flat_map_app.
    fold (Home.progressRun pack before).
    rewrite (progressRun_ongoing pack _ Hbefore). cbn [flat_map].
    now rewrite app_nil_r. }
  assert (Hlast : Home.onProgress pack final
                  = [Home.SetDownloadProgress (Home.percentage final / 100)%Q;
                     Home.Alert "Download Complete"
                       ("Region " ++ Home.quote
                          ++ ToString (Home.displayLabel pack)
                          ++ Home.quote ++ " downloaded successfully.");
                     Home.SetIsDownloading false;
                     Home.SetDownloadProgress 1%Q]).
  { unfold Home.onProgress. now rewrite Hfinal. }
  assert (Hpub : Home.published effects
                 = (map (fun s => (Home.percentage s / 100)%Q)
                        (before ++ [final]) ++ [1%Q])%list).
  { rewrite Heff, published_app, published_progress, Hlast.
    rewrite map_app. cbn. now rewrite <- app_assoc. }
  split; [exact Hpub|]. split; [|split; [|split; [|split; [|split]]]].
  - rewrite Hpub. apply Sorted_snoc.
    + eapply Sorted_map; [|exact Hsorted].
      intros a b Hab. now apply fraction_le.
    + apply Forall_map. eapply Forall_impl; [|exact Hrange].
      intros s [_ Hs]. now apply fraction_le_1.
  - rewrite Hpub. apply last_last.
  - rewrite Heff, run_app, Hlast. reflexivity.
  - rewrite Heff, run_app, Hlast. reflexivity.
  - rewrite Heff, Hlast. apply in_or_app. right. cbn. auto.
  - intros label Hname Hne. unfold Home.displayLabel, js_or.
    rewrite Hname. cbn.
    destruct (String.eqb_spec label EmptyString) as [->|_];
      [contradiction|reflexivity].
Qed.

(** C8.  In whatever state it finds the screen, [onError] leaves
    [isDownloading] false and [downloadProgress] exactly 0, raises an
    alert whose text ends with the error's message, and the next call of
    [handleDownload] passes the guard again. *)
Theorem error_resets_download
        (st : Home.State) (pack : Home.OfflinePackInfo)
        (err : Home.OfflinePackError) :
  let effects := Home.onError pack err in
  let st' := Home.run st effects in
  Home.isDownloading st' = false
  /\ Home.downloadProgress st' = 0%Q
  /\ (exists text,
         In (Home.Alert "Download Error" (text ++ Home.message err)) effects)
  /\ fst (Home.handleDownload_guard true st') = Home.DownloadStarted
  /\ Home.createPackCalls effects = 0%nat.
Proof.
  cbn zeta. repeat split.
  exists ("Failed to download region "
            ++ ToString (js_or (JStr (Home.name pack)) (JStr "Unknown Pack"))
            ++ ". ").
  unfold Home.onError. left. f_equal.
  now rewrite !append_assoc.
Qed.

End Coordinator.

Lemma second_download_prevented_witness :
  Home.isDownloading idleScreen = false
  /\ fst (Home.handleDownload_guard true idleScreen) = Home.DownloadStarted.
Proof.
  split; [reflexivity|].
  exact (proj1 (@second_download_prevented
                  runtime idleScreen sampleEnvironment sampleEnvironment
                  eq_refl)).
Defined.

(** The state a call of [handleDownload] reads is the one its render
    saw.  A handler made on an idle screen therefore passes its guard
    every time it is called, whatever its earlier calls have written. *)
Lemma same_render_passes_guard
      {RT : JsRuntime} (st : Home.State) (env1 env2 : Home.Environment) :
  Home.isDownloading st = false ->
  fst (Home.handleDownload true st env1) = Home.DownloadStarted
  /\ fst (Home.handleDownload true st env2) = Home.DownloadStarted.
Proof.
  intros Hidle. unfold Home.handleDownload.
  now rewrite (handleDownload_when_idle st Hidle).
Qed.

(** C3, at the calls on which it fails.  [handleDownload] reads
    [isDownloading] as the render that made the handler saw it.  Called
    twice in immediate succession, before the screen has rendered again,
    the handler made on the idle screen passes its guard both times and
    each call asks the storage layer for a pack of its own: two downloads
    are accepted, and the second call writes [isDownloading] and the
    progress anew.  Only the handler of a later render, which has seen
    [isDownloading] set, is turned down. *)
Theorem same_handler_passes_twice :
  let first := Home.handleDownload true idleScreen sampleEnvironment in
  let second := Home.handleDownload true idleScreen laterEnvironment in
  fst first = Home.DownloadStarted
  /\ fst second = Home.DownloadStarted
  /\ Home.createPackCalls (snd first) = 1%nat
  /\ Home.createPackCalls (snd second) = 1%nat
  /\ Home.createPackCalls (snd first ++ snd second) = 2%nat
  /\ (exists one other,
         In (Home.CreatePack one) (snd first)
         /\ In (Home.CreatePack other) (snd second)
         /\ Home.optName one = "offline-pack-1700000000000"
         /\ Home.optName other = "offline-pack-1700000000500")
  /\ In (Home.SetIsDownloading true) (snd second)
  /\ fst (Home.handleDownload true (Home.run idleScreen (snd first))
                              laterEnvironment)
     = Home.DownloadPrevented.
Proof.
  cbn zeta. repeat split; try (vm_compute; reflexivity).
  - do 2 eexists. repeat split.
    + right. right. left. reflexivity.
    + right. right. left. reflexivity.
    + vm_compute. reflexivity.
    + vm_compute. reflexivity.
  - left. reflexivity.
Qed.

Lemma progress_published_witness :
  Home.published
    (Home.progressRun samplePack
       [active 10; active 45; active 45; active 90; complete 100])
  = [(10 / 100)%Q; (45 / 100)%Q; (45 / 100)%Q; (90 / 100)%Q; (100 / 100)%Q; 1%Q].
Proof.
  refine (proj1 (@progress_published
                   runtime samplePack
                   [active 10; active 45; active 45; active 90]
                   (complete 100) idleScreen _ _ _ _)).
  - repeat constructor; discriminate.
  - reflexivity.
  - repeat constructor; discriminate.
  - repeat constructor; discriminate.
Defined.

(* ================================================================== *)
(** * The catalog: fetching and decoding *)
(* ================================================================== *)

Section Catalog.
Context {RT : JsRuntime}.

(** C9.  When awaiting [getPacks] throws, [fetchPacks] has called it
    once and does not call it again, raises the alert "Could not fetch
    offline packs." followed by the error's message, and replaces the
    list on screen, whatever it held, by the empty list; both loading
    flags end up cleared. *)
Theorem fetch_failure_clears_list
        (st : Explore.State) (refreshing : bool) (error : Exn) :
  let manager := {| Explore.getPacks := Throw error |} in
  let effects := Explore.fetchPacks (Some manager) refreshing in
  Explore.packs (Explore.run st effects) = []
  /\ In (Explore.Alert "Error"
           ("Could not fetch offline packs. " ++ message_of error))
        effects
  /\ Explore.getPacksCalls effects = 1%nat
  /\ Explore.isLoading (Explore.run st effects) = false
  /\ Explore.isRefreshing (Explore.run st effects) = false
  /\ (forall reason, error = Rejected reason -> message_of error = reason).
Proof.
  cbn zeta. unfold Explore.fetchPacks. cbn [Explore.getPacks bind try_catch].
  destruct refreshing; cbn; repeat split; auto.
  all: intros reason ->; reflexivity.
Qed.

(** ** Reading members *)

Lemma get_member_object (kind : ObjKind) (props : Props) (k : string) :
  exists x, get_member (JObj kind props) k = Normal x.
Proof. destruct kind; cbn; eauto. Qed.

(** A value that has yielded one member yields any other. *)
Lemma get_member_again (v x : JsValue) (k k' : string) :
  get_member v k = Normal x -> exists x', get_member v k' = Normal x'.
Proof.
  destruct v as [| |b|n|s|kind props]; cbn; try discriminate; eauto.
  intros _. apply get_member_object.
Qed.

Lemma object_condition (m : JsValue) :
  truthy m && String.eqb (typeof m) "object" = is_object m.
Proof.
  destruct m as [| |[]|[|q]|s|kind props]; cbn; try reflexivity.
  - now destruct (negb _).
  - now destruct (negb _).
Qed.

Lemma try_catch_total (A : Type) (body : Completion A)
      (handler : Exn -> Completion A) :
  (forall e, exists a, handler e = Normal a) ->
  exists a, try_catch body handler = Normal a.
Proof.
  intros H. destruct body as [a|e]; cbn; [eauto|apply H].
Qed.

Lemma labelled_total (prefix : string) (pack x : JsValue) (k : string) :
  get_member pack k = Normal x ->
  exists l, Explore.labelled prefix pack = Normal l.
Proof.
  intros H. destruct (get_member_again _ _ _ "name" H) as [n Hn].
  unfold Explore.labelled. rewrite Hn. cbn. eauto.
Qed.

Lemma packOrUnknown_total (pack x : JsValue) (k : string) :
  get_member pack k = Normal x ->
  exists l, Explore.packOrUnknown pack = Normal l.
Proof.
  intros H. destruct (get_member_again _ _ _ "name" H) as [n Hn].
  unfold Explore.packOrUnknown. rewrite Hn. cbn. eauto.
Qed.

(** For a raw record that is not [undefined] or [null], rebuilding the
    metadata never throws: every exception is caught on the way. *)
Lemma decodeMetadata_total (pack : JsValue) :
  pack <> JUndefined -> pack <> JNull ->
  exists metadata, Explore.decodeMetadata pack = Normal metadata.
Proof.
  intros Hu Hn.
  assert (Hm : exists m, get_member pack "_metadata" = Normal m).
  { destruct pack as [| |b|n|s|kind props]; cbn; try contradiction; eauto.
    apply get_member_object. }
  destruct Hm as [m Hm]. unfold Explore.decodeMetadata. rewrite Hm.
  cbn [bind]. rewrite object_condition.
  destruct (is_object m) eqn:Hobj.
  - destruct m as [| |b|n|s|kind props]; try discriminate.
    unfold Explore.metadataFromCharacters. apply try_catch_total.
    intros e. destruct (get_member_object kind props "name") as [x Hx].
    rewrite Hx. cbn [bind]. destruct (truthy x); [eauto|].
    destruct (packOrUnknown_total _ _ _ Hm) as [l Hl]. rewrite Hl. cbn. eauto.
  - unfold Explore.metadataFromField. apply try_catch_total.
    intros e. destruct (labelled_total "Error: " _ _ _ Hm) as [l Hl].
    rewrite Hl. cbn. eauto.
Qed.

End Catalog.

(** C1, at the record on which it fails.  The indexed-character map
    [{0: "{", 1: "}"}] rebuilds the text of the empty object, which parses;
    the metadata returned is that empty object, and it has no name.  The
    same text stored as an opaque string is given the name "Pack: " and the
    identifier. *)
Theorem decode_parsed_map_without_name :
  Explore.decodeMetadata namelessMapPack = Normal (JObj Plain [])
  /\ Explore.displayName (JObj Plain []) = JUndefined
  /\ Explore.decodeMetadata namelessTextPack
     = Normal (JObj Plain [("name", JStr "Pack: offline-pack-1")]).
Proof. repeat split; vm_compute; reflexivity. Qed.

Section Labels.
Context {RT : JsRuntime}.

Lemma lookup_store (k : string) (v : JsValue) (props : Props) :
  lookup k (store k v props) = Some v.
Proof.
  induction props as [|[k' v'] rest IH]; cbn.
  - now rewrite String.eqb_refl.
  - destruct (String.eqb k k') eqn:E; cbn.
    + now rewrite String.eqb_refl.
    + now rewrite E.
Qed.

Lemma store_same (k : string) (v : JsValue) (props : Props) :
  lookup k props = Some v -> store k v props = props.
Proof.
  induction props as [|[k' v'] rest IH]; cbn; [discriminate|].
  destruct (String.eqb_spec k k') as [->|Hne].
  - now intros [= ->].
  - intros H. now rewrite IH.
Qed.

Lemma displayName_store (kind : ObjKind) (props : Props) (v : JsValue) :
  Explore.displayName (JObj kind (store "name" v props)) = v.
Proof.
  unfold Explore.displayName, get_member_opt.
  destruct kind; cbn; now rewrite lookup_store.
Qed.

(** The steps of the "original metadata handling" once the stored value
    has become an object [JObj kind props]. *)
Lemma field_object_named (pack id : JsValue)
      (kind : ObjKind) (props : Props) :
  get_member pack "name" = Normal id ->
  (name <- get_member (JObj kind props) "name" ;;
   if negb (truthy name) then
     label <- Explore.labelled "Pack: " pack ;;
     set_member (JObj kind props) "name" label
   else Normal (JObj kind props))
  = Normal (if truthy (Explore.displayName (JObj kind props))
            then JObj kind props
            else JObj kind (store "name" (JStr ("Pack: " ++ ToString id)) props)).
Proof.
  intros Hid. unfold Explore.displayName, get_member_opt.
  destruct (get_member_object kind props "name") as [x Hx].
  rewrite Hx. cbn [bind]. destruct (truthy x); cbn [negb]; [reflexivity|].
  unfold Explore.labelled. rewrite Hid. reflexivity.
Qed.

(** On the "original metadata handling" path the metadata returned is
    always an object with a usable name, whatever the record holds. *)
Lemma metadataFromField_has_name (pack id : JsValue) :
  get_member pack "name" = Normal id ->
  exists kind props,
    Explore.metadataFromField pack = Normal (JObj kind props)
    /\ truthy (Explore.displayName (JObj kind props)) = true.
Proof.
  intros Hid.
  assert (Hlabel : forall prefix,
             Explore.labelled prefix pack = Normal (JStr (prefix ++ ToString id)))
    by (intros prefix; unfold Explore.labelled; now rewrite Hid).
  destruct (get_member_again pack id "name" "metadata" Hid) as [stored Hs].
  unfold Explore.metadataFromField. rewrite Hs. cbn [bind].
  destruct (truthy stored) eqn:Ht.
  2:{ rewrite Hlabel. cbn [bind try_catch]. do 2 eexists.
      split; reflexivity. }
  rewrite (Hlabel "Invalid JSON: "), (Hlabel "Unknown type: "),
    (Hlabel "Type error: ").
  unfold Explore.named, JSON_parse_or_throw.
  destruct stored as [| |b|n|s|kind props]; try discriminate;
    [| |destruct (JSON_parse (ToString (JStr s))) as [[| |b|n|t|kind props]|]|].
  all: cbn [bind try_catch typeof String.eqb Ascii.eqb Bool.eqb andb orb negb].
  all: rewrite (field_object_named pack id _ _ Hid); cbn [try_catch].
  all: match goal with
       | |- context [truthy (Explore.displayName ?o)] =>
           destruct (truthy (Explore.displayName o)) eqn:Hn
       end.
  all: do 2 eexists;
    (split; [reflexivity
            |first [exact Hn | rewrite displayName_store; reflexivity]]).
Qed.

(** C7, as the code has it.  An opaque metadata string that is not empty
    and does not parse never makes the decoding throw; the name returned
    is "Invalid JSON: " followed by the pack's identifier, and the string
    itself is no part of it.  The empty string counts as no metadata and
    gives "Pack: " followed by the identifier. *)
Theorem unparsable_string_label
        (pack m : JsValue) (id text : string) :
  get_member pack "name" = Normal (JStr id) ->
  get_member pack "_metadata" = Normal m ->
  is_object m = false ->
  get_member pack "metadata" = Normal (JStr text) ->
  (text <> EmptyString -> JSON_parse text = None ->
   Explore.decodeMetadata pack
   = Normal (Explore.named (JStr ("Invalid JSON: " ++ id))))
  /\ (text = EmptyString ->
      Explore.decodeMetadata pack
      = Normal (Explore.named (JStr ("Pack: " ++ id)))).
Proof.
  intros Hid Hm Hobj Htext.
  unfold Explore.decodeMetadata. rewrite Hm. cbn [bind].
  rewrite object_condition, Hobj.
  unfold Explore.metadataFromField. rewrite Htext. cbn [bind].
  split.
  - intros Hne Hparse.
    assert (Ht : truthy (JStr text) = true).
    { cbn. now destruct (String.eqb_spec text EmptyString). }
    rewrite Ht. cbn [typeof String.eqb Ascii.eqb Bool.eqb andb negb ToString].
    unfold JSON_parse_or_throw. rewrite Hparse. cbn [try_catch].
    unfold Explore.labelled. rewrite Hid. reflexivity.
  - intros ->. cbn [truthy String.eqb negb].
    unfold Explore.labelled. rewrite Hid. reflexivity.
Qed.

End Labels.

Lemma unparsable_string_label_witness :
  Explore.decodeMetadata unparsablePack
  = Normal (Explore.named (JStr "Invalid JSON: offline-pack-1")).
Proof.
  refine (proj1 (@unparsable_string_label
                   runtime unparsablePack JUndefined "offline-pack-1" "oops"
                   eq_refl eq_refl eq_refl eq_refl) _ _).
  - discriminate.
  - reflexivity.
Defined.

(** C7 as the specification words it fails: for the metadata string
    "oops" the name returned is "Invalid JSON: offline-pack-1", in which
    "oops" does not occur. *)
Lemma unparsable_label_omits_text :
  exists label,
    option_map Explore.displayName
      (match Explore.decodeMetadata unparsablePack with
       | Normal v => Some v
       | Throw _ => None
       end) = Some (JStr label)
    /\ includes label "oops" = false.
Proof. exists "Invalid JSON: offline-pack-1". split; reflexivity. Qed.

Section Fallback.
Context {RT : JsRuntime}.

Lemma displayName_member (kind : ObjKind) (props : Props) :
  get_member (JObj kind props) "name"
  = Normal (Explore.displayName (JObj kind props)).
Proof. unfold Explore.displayName, get_member_opt. now destruct kind. Qed.

(** The map branch when the rebuilt text is of no use and the map has no
    usable name. *)
Lemma map_without_name (pack : JsValue) (id : string)
      (kind : ObjKind) (props : Props) (text : string) :
  get_member pack "name" = Normal (JStr id) ->
  Explore.reconstruct (JObj kind props)
    (Explore.numericKeys (JObj kind props)) EmptyString = Normal text ->
  JSON_parse text = None \/ JSON_parse text = Some JNull ->
  truthy (Explore.displayName (JObj kind props)) = false ->
  Explore.metadataFromCharacters pack (JObj kind props)
  = Normal (Explore.named
              (JStr ("Pack: " ++ if String.eqb id EmptyString
                                 then "Unknown" else id))).
Proof.
  intros Hid Hrec Hparse Hname.
  unfold Explore.metadataFromCharacters. rewrite Hrec. cbn [bind].
  assert (Hbody : exists e, Explore.parseReconstructed text = Throw e).
  { unfold Explore.parseReconstructed, JSON_parse_or_throw.
    destruct Hparse as [-> | ->]; cbn; eauto. }
  destruct Hbody as [e ->]. cbn [try_catch].
  unfold Explore.afterParseError. rewrite displayName_member. cbn [bind].
  rewrite Hname. unfold Explore.packOrUnknown. rewrite Hid. cbn [bind].
  unfold js_or. cbn [truthy].
  now destruct (String.eqb id EmptyString).
Qed.

(** C6, as the code has it.  Let the pack's identifier be [id].  The name
    returned is exactly "Pack: " followed by [id] when the pack has no
    metadata at all, or when its metadata is an object, handed over as
    such or parsed from the opaque string, without a usable name.  When
    an indexed-character map rebuilds a text that does not parse (or that
    parses to [null]) and the map has no usable name either, the name is
    "Pack: " followed by [id], or by "Unknown" if [id] is empty.  Metadata
    of another type is named "Unknown type: " and [id], and a text that
    parses to something that is not an object "Type error: " and [id]. *)
Theorem fallback_label (pack m : JsValue) (id : string) :
  get_member pack "name" = Normal (JStr id) ->
  get_member pack "_metadata" = Normal m ->
  (is_object m = false ->
   forall stored, get_member pack "metadata" = Normal stored ->
     truthy stored = false ->
     Explore.decodeMetadata pack
     = Normal (Explore.named (JStr ("Pack: " ++ id))))
  /\ (is_object m = false ->
      forall kind props,
        get_member pack "metadata" = Normal (JObj kind props) ->
        truthy (Explore.displayName (JObj kind props)) = false ->
        exists v, Explore.decodeMetadata pack = Normal v
                  /\ Explore.displayName v = JStr ("Pack: " ++ id))
  /\ (is_object m = false ->
      forall text kind props,
        get_member pack "metadata" = Normal (JStr text) ->
        text <> EmptyString ->
        JSON_parse text = Some (JObj kind props) ->
        truthy (Explore.displayName (JObj kind props)) = false ->
        exists v, Explore.decodeMetadata pack = Normal v
                  /\ Explore.displayName v = JStr ("Pack: " ++ id))
  /\ (is_object m = true ->
      forall text,
        Explore.reconstruct m (Explore.numericKeys m) EmptyString
        = Normal text ->
        JSON_parse text = None \/ JSON_parse text = Some JNull ->
        truthy (Explore.displayName m) = false ->
        Explore.decodeMetadata pack
        = Normal (Explore.named
                    (JStr ("Pack: " ++ if String.eqb id EmptyString
                                       then "Unknown" else id))))
  /\ (is_object m = false ->
      forall stored, get_member pack "metadata" = Normal stored ->
        truthy stored = true -> is_object stored = false ->
        (forall text, stored <> JStr text) ->
        Explore.decodeMetadata pack
        = Normal (Explore.named (JStr ("Unknown type: " ++ id))))
  /\ (is_object m = false ->
      forall text v,
        get_member pack "metadata" = Normal (JStr text) ->
        text <> EmptyString ->
        JSON_parse text = Some v -> is_object v = false ->
        Explore.decodeMetadata pack
        = Normal (Explore.named (JStr ("Type error: " ++ id)))).
Proof.
  intros Hid Hm.
  unfold Explore.decodeMetadata. rewrite Hm. cbn [bind].
  rewrite object_condition.
  repeat match goal with |- _ /\ _ => split end; intros Hobj; rewrite Hobj.
  - intros stored Hs Hfalsy. unfold Explore.metadataFromField.
    rewrite Hs. cbn [bind]. rewrite Hfalsy.
    unfold Explore.labelled. rewrite Hid. reflexivity.
  - intros kind props Hs Hname. unfold Explore.metadataFromField.
    rewrite Hs. cbn [bind truthy typeof String.eqb Ascii.eqb Bool.eqb
                     andb orb negb].
    rewrite (field_object_named pack (JStr id) kind props Hid), Hname.
    cbn [try_catch]. eexists. split; [reflexivity|].
    apply displayName_store.
  - intros text kind props Hs Hne Hparse Hname.
    unfold Explore.metadataFromField. rewrite Hs. cbn [bind].
    assert (Ht : truthy (JStr text) = true).
    { cbn. now destruct (String.eqb_spec text EmptyString). }
    rewrite Ht. cbn [typeof String.eqb Ascii.eqb Bool.eqb andb negb ToString].
    unfold JSON_parse_or_throw. rewrite Hparse.
    cbn [try_catch bind typeof String.eqb Ascii.eqb Bool.eqb andb orb negb].
    rewrite (field_object_named pack (JStr id) kind props Hid), Hname.
    cbn [try_catch]. eexists. split; [reflexivity|].
    apply displayName_store.
  - intros text Hrec Hparse Hname.
    destruct m as [| |b|n|s|kind props]; try discriminate.
    now apply map_without_name with (text := text).
  - intros stored Hs Htruthy Hnobj Hnstr.
    unfold Explore.metadataFromField. rewrite Hs. cbn [bind].
    rewrite Htruthy.
    destruct stored as [| |b|n|s|kind props]; try discriminate;
      try (exfalso; now apply (Hnstr s)).
    all: cbn [typeof String.eqb Ascii.eqb Bool.eqb andb negb].
    all: unfold Explore.labelled; rewrite Hid; reflexivity.
  - intros text v Hs Hne Hparse Hnobj.
    unfold Explore.metadataFromField. rewrite Hs. cbn [bind].
    assert (Ht : truthy (JStr text) = true).
    { cbn. now destruct (String.eqb_spec text EmptyString). }
    rewrite Ht. cbn [typeof String.eqb Ascii.eqb Bool.eqb andb negb ToString].
    unfold JSON_parse_or_throw. rewrite Hparse. cbn [try_catch bind].
    unfold Explore.labelled. rewrite Hid. cbn [bind].
    destruct v as [| |b|n|s|kind props]; try discriminate; reflexivity.
Qed.

End Fallback.

Lemma fallback_label_witness :
  Explore.decodeMetadata barePack
  = Normal (Explore.named (JStr "Pack: offline-pack-1")).
Proof.
  exact (proj1 (@fallback_label runtime barePack JUndefined "offline-pack-1"
                  eq_refl eq_refl)
               eq_refl JUndefined eq_refl eq_refl).
Defined.

(** C6 as the specification words it fails: metadata that is the number 42
    yields no name by any path, and the name returned is "Unknown type: "
    with the identifier, not "Pack: " with the identifier. *)
Lemma unknown_type_label_differs :
  Explore.decodeMetadata numberMetadataPack
  = Normal (Explore.named (JStr "Unknown type: offline-pack-1"))
  /\ Explore.displayName (Explore.named (JStr "Unknown type: offline-pack-1"))
     <> JStr ("Pack: " ++ "offline-pack-1").
Proof. split; [reflexivity|discriminate]. Qed.

Section Timestamp.
Context {RT : JsRuntime}.

Lemma join_empty_cons (x : string) (l : list string) :
  join EmptyString (x :: l) = x ++ join EmptyString l.
Proof.
  destruct l as [|y l]; cbn [join]; [now rewrite append_empty_r|reflexivity].
Qed.

Lemma concat_empty_cons (x : string) (l : list string) :
  String.concat EmptyString (x :: l) = x ++ String.concat EmptyString l.
Proof.
  destruct l as [|y l]; cbn [String.concat];
    [now rewrite append_empty_r|reflexivity].
Qed.

Lemma member_by_lookup (kind : ObjKind) (props : Props) (k : string) :
  String.eqb k "length" = false ->
  get_member (JObj kind props) k
  = Normal (match lookup k props with Some x => x | None => JUndefined end).
Proof.
  intros Hk. destruct kind; cbn; [reflexivity|].
  destruct (lookup k props); [reflexivity|now rewrite Hk].
Qed.

(** The loop over the positions gathers the non-empty characters; joined
    they are the concatenation of what the positions hold. *)
Lemma timestampChars_text (kind : ObjKind) (props : Props)
      (positions : list N) :
  Forall (fun i => String.eqb (N_toString i) "length" = false) positions ->
  Explore.charactersOnly props positions = true ->
  exists chars,
    Explore.timestampChars (JObj kind props) positions = Normal chars
    /\ Explore.join_values chars = Explore.spec_charactersAt props positions.
Proof.
  induction 1 as [|i rest Hi _ IH]; intros Hchars.
  - exists []. split; reflexivity.
  - cbn [Explore.charactersOnly forallb] in Hchars.
    apply andb_prop in Hchars as [Hc Hrest].
    destruct (IH Hrest) as (more & Hmore & Hjoin).
    cbn [Explore.timestampChars]. rewrite (member_by_lookup _ _ _ Hi), Hmore.
    cbn [bind]. unfold Explore.spec_charactersAt in *. cbn [map].
    rewrite concat_empty_cons, <- Hjoin.
    destruct (lookup (N_toString i) props) as [[| |b|n|c|k p]|];
      try discriminate.
    + cbn [truthy]. destruct (String.eqb_spec c EmptyString) as [->|Hne];
        cbn [negb]; eexists; split; try reflexivity.
      unfold Explore.join_values. cbn [map ToString].
      now rewrite join_empty_cons.
    + cbn [truthy]. eexists; split; reflexivity.
Qed.

(** C10.  Suppose an indexed-character map rebuilds a text that does not
    parse, while the map itself has a usable [name], and whatever it
    keeps under the keys "46" to "58" are characters.  Then the metadata
    returned has that name; and if the map has more than 45 numeric keys
    and the characters under "46" to "58", concatenated, are read by
    [parseInt] as a number, it has that number as [downloaded_at] as
    well.  In every other case it has the name alone. *)
Theorem timestamp_from_positions
        (pack : JsValue) (kind : ObjKind) (props : Props)
        (text : string) (name : JsValue) :
  get_member pack "_metadata" = Normal (JObj kind props) ->
  Explore.reconstruct (JObj kind props)
    (Explore.numericKeys (JObj kind props)) EmptyString = Normal text ->
  JSON_parse text = None ->
  lookup "name" props = Some name ->
  truthy name = true ->
  Explore.charactersOnly props Explore.timestampPositions = true ->
  Explore.timestampPositions
  = [46; 47; 48; 49; 50; 51; 52; 53; 54; 55; 56; 57; 58]%N
  /\ Explore.decodeMetadata pack
     = Normal
         (if 45 <? Z.of_nat (List.length (Explore.numericKeys (JObj kind props)))
          then
            match parseInt (Explore.spec_charactersAt
                              props Explore.timestampPositions) with
            | Some timestamp =>
                JObj Plain [("name", name);
                            ("downloaded_at",
                             JNum (Finite (inject_Z timestamp)))]
            | None => Explore.named name
            end
          else Explore.named name).
Proof.
  intros Hm Hrec Hparse Hname Htruthy Hchars. split; [reflexivity|].
  unfold Explore.decodeMetadata. rewrite Hm. cbn [bind].
  rewrite object_condition. cbn [is_object].
  unfold Explore.metadataFromCharacters. rewrite Hrec. cbn [bind].
  unfold Explore.parseReconstructed, JSON_parse_or_throw.
  rewrite Hparse. cbn [bind try_catch].
  unfold Explore.afterParseError.
  assert (Hn : get_member (JObj kind props) "name" = Normal name).
  { destruct kind; cbn; now rewrite Hname. }
  rewrite Hn. cbn [bind]. rewrite Htruthy.
  destruct (45 <? _); [|reflexivity].
  destruct (timestampChars_text kind props Explore.timestampPositions)
    as (chars & Hc & Hjoin).
  { repeat constructor. }
  { exact Hchars. }
  rewrite Hc. cbn [bind]. rewrite <- Hjoin.
  destruct chars as [|c chars]; [reflexivity|].
  cbn [List.length]. rewrite Nat2Z.inj_succ.
  replace (0 <? Z.succ (Z.of_nat (List.length chars))) with true
    by (symmetry; apply Z.ltb_lt; lia).
  cbn [try_catch].
  destruct (parseInt _); reflexivity.
Qed.

End Timestamp.

Lemma timestamp_from_positions_witness :
  Explore.decodeMetadata truncatedPack
  = Normal (JObj Plain [("name", JStr "Region @ 9:00:00 AM");
                        ("downloaded_at",
                         JNum (Finite (inject_Z 1700000000000)))]).
Proof.
  refine (proj2 (@timestamp_from_positions
                   runtime truncatedPack Plain truncatedMap truncatedText
                   (JStr "Region @ 9:00:00 AM") _ _ _ _ _ _)).
  all: vm_compute; reflexivity.
Defined.

Section Sizes.
Context {RT : JsRuntime}.

Lemma get_member_opt_normal (v x : JsValue) (k k' : string) :
  get_member v k = Normal x ->
  get_member v k' = Normal (get_member_opt v k').
Proof.
  intros H. unfold get_member_opt.
  destruct (get_member_again v x k k' H) as [x' ->]. reflexivity.
Qed.

(** The [for-in] loop returns the first numeric field with a size-like
    name, and [null] when there is none. *)
Lemma inspectKeys_result (pack x : JsValue) (k : string) (keys : list string) :
  get_member pack k = Normal x ->
  exists r,
    Explore.inspectKeys pack keys = Normal r
    /\ ((r = JNull
         /\ forall key, In key keys ->
              Explore.is_number (get_member_opt pack key) = true ->
              size_like key = false)
        \/ (Explore.is_number r = true
            /\ exists key, In key keys /\ size_like key = true
                           /\ get_member_opt pack key = r)).
Proof.
  intros Hp. induction keys as [|key rest IH].
  - exists JNull. split; [reflexivity|]. left. split; [reflexivity|].
    intros key [].
  - cbn [Explore.inspectKeys].
    rewrite (get_member_opt_normal pack x k key Hp). cbn [bind].
    fold (size_like key).
    destruct (Explore.is_number (get_member_opt pack key)) eqn:Hnum;
      [destruct (size_like key) eqn:Hlike|]; cbn [andb].
    + eexists. split; [reflexivity|]. right. split; [exact Hnum|].
      exists key. cbn. auto.
    + destruct IH as (r & Hr & Hcase). exists r. split; [exact Hr|].
      destruct Hcase as [[-> Hall]|[Hn (key' & Hin & Hl & Hv)]].
      * left. split; [reflexivity|]. intros key' [<-|Hin] Hn'; auto.
      * right. split; [exact Hn|]. exists key'. cbn. auto.
    + destruct IH as (r & Hr & Hcase). exists r. split; [exact Hr|].
      destruct Hcase as [[-> Hall]|[Hn (key' & Hin & Hl & Hv)]].
      * left. split; [reflexivity|]. intros key' [<-|Hin] Hn'; auto.
        congruence.
      * right. split; [exact Hn|]. exists key'. cbn. auto.
Qed.

(** [inspectPackForSize] yields [null] or a number.  A number it yields
    is one the record reports under a size-like name, a numeric [size]
    field before any other; [null] means that no own field of the record
    is a number under a size-like name and that [progress] reports no
    size either. *)
Lemma inspectPackForSize_result (pack x : JsValue) (k : string) :
  get_member pack k = Normal x ->
  exists r,
    Explore.inspectPackForSize pack = Normal r
    /\ (r = JNull \/ Explore.is_number r = true)
    /\ (Explore.is_number (get_member_opt pack "size") = true ->
        r = get_member_opt pack "size")
    /\ (r = JNull ->
        forall key, In key (Object_keys pack) ->
          Explore.is_number (get_member_opt pack key) = true ->
          size_like key = false)
    /\ (r = JNull ->
        is_object (get_member_opt pack "progress") = true ->
        forall key, key = "completedResourceSize" \/ key = "completedSize" ->
          Explore.is_number
            (get_member_opt (get_member_opt pack "progress") key) = false)
    /\ (Explore.is_number r = true -> reportedSize pack r).
Proof.
  intros Hp. unfold Explore.inspectPackForSize.
  assert (Hfield : forall key,
             size_like key = true ->
             Explore.is_number (get_member_opt pack key) = true ->
             (Explore.is_number (get_member_opt pack "size") = true ->
              get_member_opt pack key = get_member_opt pack "size") ->
             exists r,
               Normal (get_member_opt pack key) = Normal r
               /\ (r = JNull \/ Explore.is_number r = true)
               /\ (Explore.is_number (get_member_opt pack "size") = true ->
                   r = get_member_opt pack "size")
               /\ (r = JNull ->
                   forall key, In key (Object_keys pack) ->
                     Explore.is_number (get_member_opt pack key) = true ->
                     size_like key = false)
               /\ (r = JNull ->
                   is_object (get_member_opt pack "progress") = true ->
                   forall key,
                     key = "completedResourceSize" \/ key = "completedSize" ->
                     Explore.is_number
                       (get_member_opt (get_member_opt pack "progress") key)
                     = false)
               /\ (Explore.is_number r = true -> reportedSize pack r)).
  { intros key Hlike Hnum Hsize. eexists. split; [reflexivity|].
    split; [now right|]. split; [exact Hsize|].
    split; [intros E; rewrite E in Hnum; discriminate|].
    split; [intros E; rewrite E in Hnum; discriminate|].
    intros _. exists key. auto. }
  rewrite (get_member_opt_normal pack x k "size" Hp). cbn [bind].
  destruct (Explore.is_number (get_member_opt pack "size")) eqn:H1.
  { apply Hfield; [reflexivity|exact H1|reflexivity]. }
  rewrite (get_member_opt_normal pack x k "byteSize" Hp). cbn [bind].
  destruct (Explore.is_number (get_member_opt pack "byteSize")) eqn:H2.
  { apply Hfield; [reflexivity|exact H2|discriminate]. }
  rewrite (get_member_opt_normal pack x k "bytes" Hp). cbn [bind].
  destruct (Explore.is_number (get_member_opt pack "bytes")) eqn:H3.
  { apply Hfield; [reflexivity|exact H3|discriminate]. }
  rewrite (get_member_opt_normal pack x k "completedResourceSize" Hp).
  cbn [bind].
  destruct (Explore.is_number (get_member_opt pack "completedResourceSize"))
    eqn:H4.
  { apply Hfield; [reflexivity|exact H4|discriminate]. }
  clear Hfield.
  rewrite (get_member_opt_normal pack x k "completedResourceCount" Hp).
  cbn [bind]. rewrite andb_false_r.
  rewrite (get_member_opt_normal pack x k "progress" Hp). cbn [bind].
  set (progress := get_member_opt pack "progress").
  rewrite object_condition.
  assert (Hin : exists found,
             (if is_object progress then
                pSize <- get_member progress "completedResourceSize" ;;
                if Explore.is_number pSize then Normal (Some pSize) else
                pDone <- get_member progress "completedSize" ;;
                if Explore.is_number pDone then Normal (Some pDone)
                else Normal None
              else Normal None) = Normal found
             /\ (forall n, found = Some n ->
                   Explore.is_number n = true /\ reportedSize pack n)
             /\ (found = None -> is_object progress = true ->
                 forall key,
                   key = "completedResourceSize" \/ key = "completedSize" ->
                   Explore.is_number (get_member_opt progress key) = false)).
  { destruct (is_object progress) eqn:Hobj.
    2:{ exists None. repeat split; discriminate. }
    assert (Hget : forall key,
               get_member progress key = Normal (get_member_opt progress key)).
    { intros key. destruct progress as [| |b|n|s|kind props]; try discriminate.
      unfold get_member_opt.
      now destruct (get_member_object kind props key) as [v ->]. }
    rewrite (Hget "completedResourceSize"). cbn [bind].
    destruct (Explore.is_number (get_member_opt progress "completedResourceSize"))
      eqn:Hs.
    { eexists. split; [reflexivity|]. split; [|discriminate].
      intros n [= <-]. split; [exact Hs|].
      exists "completedResourceSize". split; [reflexivity|]. right.
      split; [exact Hobj|reflexivity]. }
    rewrite (Hget "completedSize"). cbn [bind].
    destruct (Explore.is_number (get_member_opt progress "completedSize"))
      eqn:Hd.
    { eexists. split; [reflexivity|]. split; [|discriminate].
      intros n [= <-]. split; [exact Hd|].
      exists "completedSize". split; [reflexivity|]. right.
      split; [exact Hobj|reflexivity]. }
    exists None. split; [reflexivity|]. split; [discriminate|].
    intros _ _ key [->| ->]; assumption. }
  destruct Hin as (found & -> & Hfound & Hnone). cbn [bind].
  destruct found as [n|].
  { destruct (Hfound n eq_refl) as [Hn Hrep].
    exists n. split; [reflexivity|]. split; [now right|].
    split; [discriminate|].
    split; [intros E; rewrite E in Hn; discriminate|].
    split; [intros E; rewrite E in Hn; discriminate|].
    intros _. exact Hrep. }
  destruct (inspectKeys_result pack x k (Object_keys pack) Hp)
    as (r & -> & Hcase).
  exists r. split; [reflexivity|].
  destruct Hcase as [[-> Hall]|[Hn (key & _ & Hlike & Hval)]].
  - split; [now left|]. split; [discriminate|].
    split; [intros _; exact Hall|].
    split; [intros _; now apply Hnone|]. discriminate.
  - split; [now right|]. split; [discriminate|].
    split; [intros E; rewrite E in Hn; discriminate|].
    split; [intros E; rewrite E in Hn; discriminate|].
    intros _. exists key. auto.
Qed.

(** The [for-in] loop yields the value of the first key, in enumeration
    order, that holds a number under a size-like name. *)
Lemma inspectKeys_find (pack x : JsValue) (k : string) (keys : list string) :
  get_member pack k = Normal x ->
  Explore.inspectKeys pack keys
  = Normal match find (fun key =>
                         Explore.is_number (get_member_opt pack key)
                         && size_like key) keys with
           | Some key => get_member_opt pack key
           | None => JNull
           end.
Proof.
  intros Hp. induction keys as [|key rest IH]; [reflexivity|].
  cbn [Explore.inspectKeys find].
  rewrite (get_member_opt_normal pack x k key Hp). cbn [bind].
  fold (size_like key).
  destruct (Explore.is_number (get_member_opt pack key) && size_like key);
    [reflexivity|exact IH].
Qed.

(** C5, as the code has it.  [inspectPackForSize] returns the first of
    these that is a number: the record's [size], [byteSize], [bytes] and
    [completedResourceSize]; then, when [progress] is an object, its
    [completedResourceSize] and [completedSize]; then the first own field,
    in enumeration order, under a name containing "size" or "bytes" in
    any case; and [null] when there is none.  But the list does not use
    it.  The size of a
    listed pack is [null] when [pack._metadata] is absent or falsy, and
    otherwise 10240 plus twice the length of [JSON.stringify] of
    [pack._metadata] as it is stored, so never zero, whatever sizes the
    record reports. *)
Theorem listed_size_is_estimated (pack m : JsValue) :
  get_member pack "_metadata" = Normal m ->
  (truthy m = false -> Explore.estimatedSize pack = Normal JNull)
  /\ (truthy m = true ->
      forall text, JSON_stringify m = Some text ->
        Explore.estimatedSize pack
        = Normal (JNum (Finite (inject_Z (10240 + 2 * str_length text))))
        /\ 0 < 10240 + 2 * str_length text)
  /\ (forall listed, Explore.formatPack pack = Normal listed ->
        Explore.estimatedSize pack = Normal (Explore.size listed))
  /\ (exists reported,
         Explore.inspectPackForSize pack = Normal reported
         /\ (reported = JNull \/ Explore.is_number reported = true)
         /\ (Explore.is_number (get_member_opt pack "size") = true ->
             reported = get_member_opt pack "size")
         /\ (reported = JNull ->
             forall key, In key (Object_keys pack) ->
               Explore.is_number (get_member_opt pack key) = true ->
               size_like key = false)
         /\ (reported = JNull ->
             is_object (get_member_opt pack "progress") = true ->
             forall key,
               key = "completedResourceSize" \/ key = "completedSize" ->
               Explore.is_number
                 (get_member_opt (get_member_opt pack "progress") key) = false)
         /\ (Explore.is_number reported = true -> reportedSize pack reported))
  /\ (let field := get_member_opt pack in
      let progress := get_member_opt (get_member_opt pack "progress") in
      let inProgress key :=
        is_object (get_member_opt pack "progress")
        && Explore.is_number (progress key) in
      Explore.inspectPackForSize pack
      = Normal
          (if Explore.is_number (field "size") then field "size"
           else if Explore.is_number (field "byteSize") then field "byteSize"
           else if Explore.is_number (field "bytes") then field "bytes"
           else if Explore.is_number (field "completedResourceSize")
                then field "completedResourceSize"
           else if inProgress "completedResourceSize"
                then progress "completedResourceSize"
           else if inProgress "completedSize" then progress "completedSize"
           else match find (fun key => Explore.is_number (field key)
                                       && size_like key)
                           (Object_keys pack) with
                | Some key => field key
                | None => JNull
                end)).
Proof.
  intros Hm.
  split; [|split; [|split; [|split]]]; [| | | |cbn zeta].
  5:{ unfold Explore.inspectPackForSize.
      rewrite (get_member_opt_normal pack m "_metadata" "size" Hm).
      cbn [bind].
      destruct (Explore.is_number (get_member_opt pack "size"));
        [reflexivity|].
      rewrite (get_member_opt_normal pack m "_metadata" "byteSize" Hm).
      cbn [bind].
      destruct (Explore.is_number (get_member_opt pack "byteSize"));
        [reflexivity|].
      rewrite (get_member_opt_normal pack m "_metadata" "bytes" Hm).
      cbn [bind].
      destruct (Explore.is_number (get_member_opt pack "bytes"));
        [reflexivity|].
      rewrite (get_member_opt_normal pack m "_metadata"
                 "completedResourceSize" Hm).
      cbn [bind].
      destruct (Explore.is_number (get_member_opt pack "completedResourceSize"));
        [reflexivity|].
      rewrite (get_member_opt_normal pack m "_metadata"
                 "completedResourceCount" Hm).
      cbn [bind]. rewrite andb_false_r.
      rewrite (get_member_opt_normal pack m "_metadata" "progress" Hm).
      cbn [bind]. rewrite object_condition.
      destruct (get_member_opt pack "progress")
        as [| |b|n|t|kind props] eqn:Hprogress;
        cbn [is_object andb bind];
        try exact (inspectKeys_find pack m "_metadata" _ Hm).
      assert (Hget : forall key,
                 get_member (JObj kind props) key
                 = Normal (get_member_opt (JObj kind props) key)).
      { intros key. unfold get_member_opt.
        now destruct (get_member_object kind props key) as [v ->]. }
      rewrite (Hget "completedResourceSize"). cbn [bind].
      destruct (Explore.is_number
                  (get_member_opt (JObj kind props) "completedResourceSize"));
        [reflexivity|].
      rewrite (Hget "completedSize"). cbn [bind].
      destruct (Explore.is_number
                  (get_member_opt (JObj kind props) "completedSize"));
        [reflexivity|].
      exact (inspectKeys_find pack m "_metadata" _ Hm). }
  - intros Hf. unfold Explore.estimatedSize. rewrite Hm. cbn [bind].
    now rewrite Hf.
  - intros Ht text Hs. split.
    + unfold Explore.estimatedSize. rewrite Hm. cbn [bind].
      rewrite Ht, Hs. do 4 f_equal. lia.
    + unfold str_length. lia.
  - intros listed. unfold Explore.formatPack.
    destruct (Explore.decodeMetadata pack) as [md|e]; cbn [bind];
      [|discriminate].
    destruct (Explore.estimatedSize pack) as [est|e]; cbn [bind];
      [|discriminate].
    destruct (get_member pack "name") as [n|e]; cbn [bind]; [|discriminate].
    destruct (get_member pack "bounds") as [b|e]; cbn [bind]; [|discriminate].
    match goal with
    | |- bind ?c _ = _ -> _ => destruct c as [b'|e]; cbn [bind];
                               [|discriminate]
    end.
    now intros [= <-].
  - exact (inspectPackForSize_result pack m "_metadata" Hm).
Qed.

End Sizes.

Lemma listed_size_is_estimated_witness :
  Explore.estimatedSize namelessMapPack
  = Normal (JNum (Finite (inject_Z (10240 + 2 * 17)))).
Proof.
  refine (proj1
            (proj1 (proj2 (@listed_size_is_estimated
                             runtime namelessMapPack
                             (JObj Plain [("0", JStr "{"); ("1", JStr "}")])
                             eq_refl))
                   eq_refl
                   (String "{" (String (ascii_of_nat 34) "0"
                      ++ String (ascii_of_nat 34) ":"
                      ++ String (ascii_of_nat 34) "{"
                      ++ String (ascii_of_nat 34) ","
                      ++ String (ascii_of_nat 34) "1"
                      ++ String (ascii_of_nat 34) ":"
                      ++ String (ascii_of_nat 34) "}"
                      ++ String (ascii_of_nat 34) "}"))
                   eq_refl)).
Defined.

(** C5 as the specification words it fails twice over.  A record that
    reports [size: 5000] and has no indexed-character map is listed with
    no size, where the specification's estimate is 5000.  And the record
    whose map spells a text of length 2 is listed with 10240 + 2 * 17,
    the map's own serialization being 17 characters long, where the
    specification's estimate is 10240 + 2 * 2. *)
Lemma reported_size_is_ignored :
  Explore.inspectPackForSize sizedPack = Normal (JNum (Finite 5000%Q))
  /\ Explore.spec_estimate sizedPack = Normal (JNum (Finite 5000%Q))
  /\ Explore.estimatedSize sizedPack = Normal JNull
  /\ Explore.spec_estimate namelessMapPack
     = Normal (JNum (Finite (inject_Z 10244)))
  /\ Explore.estimatedSize namelessMapPack
     = Normal (JNum (Finite (inject_Z 10274)))
  /\ Explore.estimatedSize sizedPack <> Explore.spec_estimate sizedPack
  /\ Explore.estimatedSize namelessMapPack
     <> Explore.spec_estimate namelessMapPack.
Proof. repeat split; try (vm_compute; reflexivity); discriminate. Qed.

(* ================================================================== *)
(** * Decimal keys: printing and reading back *)
(* ================================================================== *)

Section DecimalKeys.

Lemma all_digits_app (s t : string) :
  all_digits s -> all_digits t -> all_digits (s ++ t).
Proof. induction s as [|c s IH]; cbn; [auto|]. intros [Hc Hs] Ht; auto. Qed.

Lemma Zcode_digit (d : N) :
  (d < 10)%N -> Zcode (ascii_of_N (48 + d)) = 48 + Z.of_N d.
Proof.
  intros Hd. unfold Zcode. rewrite N_ascii_embedding; lia.
Qed.

Lemma digit_value_decimal (c : ascii) :
  is_decimal_digit c = true -> digit_value 10 c = Some (Zcode c - 48).
Proof. unfold is_decimal_digit, digit_value. now intros ->. Qed.

(** Reading one more digit after a run of digits. *)
Lemma digits_prefix_snoc (s : string) (c : ascii) (acc : option Z) :
  all_digits s -> is_decimal_digit c = true ->
  digits_prefix 10 (s ++ String c EmptyString) acc
  = Some (10 * match digits_prefix 10 s acc with
               | Some a => a
               | None => 0
               end + (Zcode c - 48)).
Proof.
  revert acc. induction s as [|x s IH]; intros acc Hs Hc; cbn.
  - now rewrite (digit_value_decimal c Hc).
  - destruct Hs as [Hx Hs]. rewrite (digit_value_decimal x Hx).
    now apply IH.
Qed.

(** The last digit of [n] after the digits of [n / 10]. *)
Lemma decimal_digits_step (head : string) (n : N) :
  all_digits head -> digits_value head = Z.of_N (n / 10) ->
  let s := head ++ String (ascii_of_N (48 + n mod 10)) EmptyString in
  all_digits s /\ s <> EmptyString
  /\ digits_prefix 10 s None = Some (Z.of_N n).
Proof.
  intros Ha Hv s.
  assert (Hd : (n mod 10 < 10)%N) by (apply N.mod_lt; lia).
  assert (Hc : is_decimal_digit (ascii_of_N (48 + n mod 10)) = true).
  { unfold is_decimal_digit. rewrite (Zcode_digit _ Hd).
    revert Hd. generalize (n mod 10)%N. intros d Hd. lia. }
  split; [|split].
  - apply all_digits_app; [exact Ha|]. cbn. auto.
  - unfold s. destruct head; discriminate.
  - unfold s. rewrite (digits_prefix_snoc _ _ None Ha Hc).
    fold (digits_value head). rewrite Hv, (Zcode_digit _ Hd).
    f_equal. assert (E : n = (10 * (n / 10) + n mod 10)%N)
      by (apply N.div_mod; discriminate).
    revert E. generalize (n / 10)%N, (n mod 10)%N. intros q d E. lia.
Qed.

Lemma decimal_digits_S (fuel : nat) (n : N) :
  decimal_digits (S fuel) n
  = (if (n <? 10)%N then EmptyString else decimal_digits fuel (n / 10)%N)
      ++ String (ascii_of_N (48 + n mod 10)) EmptyString.
Proof. reflexivity. Qed.

Lemma decimal_digits_read (fuel : nat) (n : N) :
  (n < 10 ^ N.of_nat (S fuel))%N ->
  all_digits (decimal_digits (S fuel) n)
  /\ decimal_digits (S fuel) n <> EmptyString
  /\ digits_prefix 10 (decimal_digits (S fuel) n) None = Some (Z.of_N n).
Proof.
  revert n. induction fuel as [|f IH]; intros n Hn;
    rewrite decimal_digits_S; destruct (N.ltb_spec n 10) as [Hlt|Hge].
  - apply decimal_digits_step; [exact I|].
    rewrite N.div_small by exact Hlt. reflexivity.
  - cbn in Hn. lia.
  - apply decimal_digits_step; [exact I|].
    rewrite N.div_small by exact Hlt. reflexivity.
  - assert (Hq : (n / 10 < 10 ^ N.of_nat (S f))%N).
    { apply N.Div0.div_lt_upper_bound.
      rewrite (Nat2N.inj_succ (S f)), N.pow_succ_r' in Hn. exact Hn. }
    destruct (IH _ Hq) as (Ha & _ & Hr).
    apply decimal_digits_step; [exact Ha|].
    unfold digits_value. now rewrite Hr.
Qed.

Lemma N_toString_fuel (n : N) :
  (n < 10 ^ N.of_nat (S (N.to_nat (N.log2 n))))%N.
Proof.
  rewrite Nat2N.inj_succ, N2Nat.id.
  destruct (N.eq_dec n 0) as [->|Hn]; [reflexivity|].
  apply N.lt_le_trans with (2 ^ N.succ (N.log2 n))%N.
  - apply N.log2_spec. lia.
  - apply N.pow_le_mono_l. lia.
Qed.

Lemma N_toString_digits (n : N) :
  all_digits (N_toString n) /\ N_toString n <> EmptyString
  /\ digits_prefix 10 (N_toString n) None = Some (Z.of_N n).
Proof. apply decimal_digits_read, N_toString_fuel. Qed.

(** A run of decimal digits is read by [parseInt] as it stands. *)
Lemma parseInt_digits (s : string) :
  all_digits s -> parseInt s = digits_prefix 10 s None.
Proof.
  intros Hs. destruct s as [|c r]; [reflexivity|].
  destruct Hs as [Hc Hr]. unfold parseInt.
  assert (Hcode : 48 <= Zcode c <= 57)
    by (unfold is_decimal_digit in Hc; lia).
  assert (Hw : is_white_space c = false) by (unfold is_white_space; lia).
  cbn [trim_start]. rewrite Hw. unfold strip_sign.
  replace (Zcode c =? 45) with false by lia.
  replace (Zcode c =? 43) with false by lia.
  assert (Hx : strip_hex_prefix (String c r) = (10, String c r)).
  { unfold strip_hex_prefix. destruct r as [|x r']; [reflexivity|].
    destruct Hr as [Hxd _].
    assert (48 <= Zcode x <= 57) by (unfold is_decimal_digit in Hxd; lia).
    replace (Zcode x =? 120) with false by lia.
    replace (Zcode x =? 88) with false by lia.
    now rewrite andb_false_r. }
  rewrite Hx. unfold option_map.
  destruct (digits_prefix 10 (String c r) None) as [z|]; [|reflexivity].
  f_equal. lia.
Qed.

(** Printing a natural number and reading it back. *)
Lemma parseInt_N_toString (n : N) : parseInt (N_toString n) = Some (Z.of_N n).
Proof.
  destruct (N_toString_digits n) as (Ha & _ & Hr).
  now rewrite (parseInt_digits _ Ha).
Qed.

Lemma N_toString_inj (a b : N) : N_toString a = N_toString b -> a = b.
Proof.
  intros H. pose proof (parseInt_N_toString a) as Ha.
  rewrite H, parseInt_N_toString in Ha. injection Ha. lia.
Qed.

End DecimalKeys.

(* ================================================================== *)
(** * The stable sort *)
(* ================================================================== *)

Section SortFacts.
Variable A : Type.
Variable cmp : A -> A -> option Z.

Lemma insert_sorted_perm (x : A) (l : list A) :
  Permutation (insert_sorted cmp x l) (x :: l).
Proof.
  induction l as [|y l IH]; cbn; [reflexivity|].
  destruct (comes_before cmp y x); [|reflexivity].
  rewrite IH. apply perm_swap.
Qed.

Lemma sort_perm (l : list A) : Permutation (sort cmp l) l.
Proof.
  induction l as [|x l IH]; cbn; [reflexivity|].
  rewrite insert_sorted_perm. now constructor.
Qed.

(** On elements where the comparator is the difference of a key, the
    sort orders by that key. *)
Variable key : A -> Z.
Variable P : A -> Prop.
Hypothesis cmp_key : forall a b, P a -> P b -> cmp a b = Some (key a - key b).

Lemma insert_sorted_sorted (x : A) (l : list A) :
  P x -> Forall P l ->
  StronglySorted (ordered_by key) l -> StronglySorted (ordered_by key) (insert_sorted cmp x l).
Proof.
  intros Hx HP Hs. induction Hs as [|y l Hs IH Hy]; cbn.
  - repeat constructor.
  - inversion HP as [|? ? Py Pl]; subst.
    unfold comes_before. rewrite (cmp_key y x Py Hx).
    destruct (Z.ltb_spec (key y - key x) 0) as [Hlt|Hge].
    + constructor; [now apply IH|].
      apply (Permutation_Forall (Permutation_sym (insert_sorted_perm x l))).
      constructor; [unfold ordered_by; lia|exact Hy].
    + constructor; [now constructor|].
      constructor; [unfold ordered_by; lia|].
      eapply Forall_impl; [|exact Hy].
      unfold ordered_by. intros a Ha. lia.
Qed.

Lemma sort_sorted (l : list A) :
  Forall P l -> StronglySorted (ordered_by key) (sort cmp l).
Proof.
  induction 1 as [|x l Hx Hl IH]; cbn; [constructor|].
  apply insert_sorted_sorted; [exact Hx| |exact IH].
  apply (Permutation_Forall (Permutation_sym (sort_perm l))). exact Hl.
Qed.

(** Two arrangements of the same elements, one ordered by the key and the
    other strictly so, are the same list. *)
Lemma sorted_unique (l l' : list A) :
  StronglySorted (ordered_by key) l ->
  StronglySorted (fun a b => key a < key b) l' ->
  Permutation l l' -> l = l'.
Proof.
  intros Hs. revert l'. induction Hs as [|x l Hs IH Hx]; intros l' Hs' Hp.
  - now apply Permutation_nil in Hp.
  - destruct l' as [|y l'].
    { apply Permutation_sym, Permutation_nil in Hp. discriminate. }
    inversion Hs' as [|? ? Hs'' Hy]; subst.
    assert (Hxy : x = y).
    { assert (Hyin : In y (x :: l))
        by (apply (Permutation_in _ (Permutation_sym Hp)); now left).
      assert (Hxin : In x (y :: l'))
        by (apply (Permutation_in _ Hp); now left).
      destruct Hyin as [E|Hyin]; [exact E|].
      destruct Hxin as [E|Hxin]; [now symmetry|].
      rewrite Forall_forall in Hx, Hy.
      specialize (Hx y Hyin). specialize (Hy x Hxin).
      unfold ordered_by in Hx. lia. }
    subst y. f_equal. apply IH; [exact Hs''|].
    now apply Permutation_cons_inv in Hp.
Qed.

End SortFacts.

Lemma filter_all (A : Type) (f : A -> bool) (l : list A) :
  Forall (fun a => f a = true) l -> filter f l = l.
Proof.
  induction 1 as [|x l Hx _ IH]; cbn; [reflexivity|]. now rewrite Hx, IH.
Qed.

Lemma filter_split_perm (A : Type) (f : A -> bool) (l : list A) :
  Permutation (filter f l ++ filter (fun a => negb (f a)) l) l.
Proof.
  induction l as [|x l IH]; cbn; [reflexivity|].
  destruct (f x); cbn.
  - now constructor.
  - rewrite <- Permutation_middle. now constructor.
Qed.

Lemma StronglySorted_map (A B : Type) (R : A -> A -> Prop)
      (R' : B -> B -> Prop) (f : A -> B) (l : list A) :
  (forall a b, R a b -> R' (f a) (f b)) ->
  StronglySorted R l -> StronglySorted R' (map f l).
Proof.
  intros Hf. induction 1 as [|a l Hs IH Ha]; cbn; constructor; [exact IH|].
  apply Forall_map. eapply Forall_impl; [|exact Ha]. intros b. apply Hf.
Qed.

Lemma StronglySorted_seq (start len : nat) :
  StronglySorted lt (seq start len).
Proof.
  revert start. induction len as [|n IH]; intros start; cbn; constructor.
  - apply IH.
  - apply Forall_forall. intros x Hx. apply in_seq in Hx. lia.
Qed.

(** The keys of an object, in enumeration order, are its keys. *)
Lemma ownKeys_perm (props : Props) : Permutation (ownKeys props) (map fst props).
Proof.
  unfold ownKeys. rewrite sort_perm. apply filter_split_perm.
Qed.

Lemma lookup_in (props : Props) (k : string) (v : JsValue) :
  NoDup (map fst props) -> In (k, v) props -> lookup k props = Some v.
Proof.
  induction props as [|[k' v'] rest IH]; cbn; [intros _ []|].
  intros Hnd [E|Hin].
  - injection E as -> ->. now rewrite String.eqb_refl.
  - inversion Hnd as [|? ? Hnotin Hrest]; subst.
    destruct (String.eqb_spec k k') as [->|_]; [|now apply IH].
    exfalso. apply Hnotin. now apply (in_map fst) in Hin.
Qed.

(* ================================================================== *)
(** * Rebuilding a text from its indexed-character map *)
(* ================================================================== *)

Section Reconstruction.
Context {RT : JsRuntime}.

Lemma by_parseInt_key (a b : string) :
  Explore.parses_as_number a = true -> Explore.parses_as_number b = true ->
  Explore.by_parseInt a b = Some (parsedKey a - parsedKey b).
Proof.
  unfold Explore.parses_as_number, Explore.by_parseInt, parsedKey.
  destruct (parseInt a), (parseInt b); intros; try discriminate; reflexivity.
Qed.

(** The keys kept are those of the object that [parseInt] reads as a
    number. *)
Lemma numericKeys_in (m : JsValue) (key : string) :
  In key (Explore.numericKeys m)
  <-> In key (Object_keys m) /\ parseInt key <> None.
Proof.
  unfold Explore.numericKeys. split.
  - intros H. apply (Permutation_in _ (sort_perm _ _ _)) in H.
    apply filter_In in H as [Hin Hp]. split; [exact Hin|].
    unfold Explore.parses_as_number in Hp. now destruct (parseInt key).
  - intros [Hin Hp].
    apply (Permutation_in _ (Permutation_sym (sort_perm _ _ _))).
    apply filter_In. split; [exact Hin|].
    unfold Explore.parses_as_number. now destruct (parseInt key).
Qed.

(** They stand in ascending order of the number read. *)
Lemma numericKeys_sorted (m : JsValue) :
  StronglySorted (ordered_by parsedKey) (Explore.numericKeys m).
Proof.
  unfold Explore.numericKeys.
  apply sort_sorted
    with (P := fun k => Explore.parses_as_number k = true).
  - intros a b. apply by_parseInt_key.
  - apply Forall_forall. intros k Hk. now apply filter_In in Hk.
Qed.

Lemma length_characters (s : string) :
  List.length (characters s) = String.length s.
Proof. induction s as [|c s IH]; cbn; [reflexivity|now rewrite IH]. Qed.

Lemma concat_characters (s : string) :
  String.concat EmptyString (characters s) = s.
Proof.
  induction s as [|c s IH]; [reflexivity|].
  cbn [characters]. rewrite concat_empty_cons, IH. reflexivity.
Qed.

Lemma map_fst_combine (A B : Type) (l : list A) (l' : list B) :
  List.length l = List.length l' -> map fst (combine l l') = l.
Proof.
  revert l'. induction l as [|a l IH]; intros [|b l'] H; cbn in *;
    try discriminate; [reflexivity|]. f_equal. apply IH. lia.
Qed.

Lemma map_snd_combine (A B : Type) (l : list A) (l' : list B) :
  List.length l = List.length l' -> map snd (combine l l') = l'.
Proof.
  revert l'. induction l as [|a l IH]; intros [|b l'] H; cbn in *;
    try discriminate; [reflexivity|]. f_equal. apply IH. lia.
Qed.

(** The keys of the indexed-character map of a text are the positions
    0, 1, ... printed in decimal. *)
Lemma scattered_keys (blob : string) :
  map fst (Explore.scattered blob)
  = map (fun i => N_toString (N.of_nat i)) (seq 0 (String.length blob)).
Proof.
  unfold Explore.scattered. rewrite map_map. cbn [fst].
  rewrite <- (map_map fst (fun i => N_toString (N.of_nat i))).
  rewrite map_fst_combine; [reflexivity|].
  now rewrite length_seq, length_characters.
Qed.

Lemma scattered_keys_sorted (blob : string) :
  StronglySorted (fun a b => parsedKey a < parsedKey b)
                 (map fst (Explore.scattered blob)).
Proof.
  rewrite scattered_keys.
  apply StronglySorted_map with (R := lt); [|apply StronglySorted_seq].
  intros a b Hab. unfold parsedKey. rewrite !parseInt_N_toString. lia.
Qed.

Lemma scattered_keys_parse (blob : string) :
  Forall (fun k => Explore.parses_as_number k = true)
         (map fst (Explore.scattered blob)).
Proof.
  rewrite scattered_keys. apply Forall_map, Forall_forall. intros i _.
  unfold Explore.parses_as_number. now rewrite parseInt_N_toString.
Qed.

Lemma scattered_keys_NoDup (blob : string) :
  NoDup (map fst (Explore.scattered blob)).
Proof.
  rewrite scattered_keys. apply Injective_map_NoDup; [|apply seq_NoDup].
  intros a b H. apply N_toString_inj in H. lia.
Qed.

(** Whatever the order in which the characters were stored, the keys
    come out in the order of the text. *)
Lemma numericKeys_scattered (kind : ObjKind) (props : Props) (blob : string) :
  Permutation props (Explore.scattered blob) ->
  Explore.numericKeys (JObj kind props) = map fst (Explore.scattered blob).
Proof.
  intros Hperm.
  assert (Hkeys : Permutation (ownKeys props) (map fst (Explore.scattered blob))).
  { rewrite ownKeys_perm. now apply Permutation_map. }
  apply sorted_unique with (key := parsedKey).
  - apply numericKeys_sorted.
  - apply scattered_keys_sorted.
  - unfold Explore.numericKeys. rewrite sort_perm. cbn [Object_keys].
    rewrite filter_all; [exact Hkeys|].
    apply (Permutation_Forall (Permutation_sym Hkeys)).
    apply scattered_keys_parse.
Qed.

(** Concatenating the characters found under a list of keys. *)
Lemma reconstruct_entries (m : JsValue) (entries : list (string * string))
      (acc : string) :
  (forall k c, In (k, c) entries -> get_member m k = Normal (JStr c)) ->
  Explore.reconstruct m (map fst entries) acc
  = Normal (acc ++ String.concat EmptyString (map snd entries)).
Proof.
  revert acc. induction entries as [|[k c] rest IH]; intros acc H.
  - cbn. now rewrite append_empty_r.
  - cbn [map fst snd Explore.reconstruct].
    rewrite (H k c) by now left. cbn [bind ToString].
    rewrite IH by (intros k' c' Hin; apply H; now right).
    now rewrite concat_empty_cons, append_assoc.
Qed.

(** The text comes back from its indexed-character map, in whatever
    order the map holds the characters. *)
Lemma reconstruct_scattered (kind : ObjKind) (props : Props) (blob : string) :
  Permutation props (Explore.scattered blob) ->
  Explore.reconstruct (JObj kind props)
    (Explore.numericKeys (JObj kind props)) EmptyString
  = Normal blob.
Proof.
  intros Hperm. rewrite (numericKeys_scattered kind props blob Hperm).
  set (entries :=
         map (fun p : nat * string => (N_toString (N.of_nat (fst p)), snd p))
             (combine (seq 0 (String.length blob)) (characters blob))).
  assert (Hfst : map fst (Explore.scattered blob) = map fst entries).
  { unfold Explore.scattered, entries. now rewrite !map_map. }
  assert (Hsnd : map snd entries = characters blob).
  { unfold entries. rewrite map_map. cbn [snd].
    apply map_snd_combine. now rewrite length_seq, length_characters. }
  rewrite Hfst, reconstruct_entries.
  - now rewrite Hsnd, concat_characters.
  - intros k c Hin.
    assert (Hprops : In (k, JStr c) props).
    { apply (Permutation_in _ (Permutation_sym Hperm)).
      unfold entries in Hin. apply in_map_iff in Hin as (p & E & Hp).
      injection E as <- <-. unfold Explore.scattered.
      apply in_map_iff. exists p. split; [reflexivity|exact Hp]. }
    assert (Hnd : NoDup (map fst props)).
    { apply (Permutation_NoDup
               (Permutation_sym (Permutation_map fst Hperm))).
      apply scattered_keys_NoDup. }
    destruct kind; cbn; now rewrite (lookup_in props k (JStr c) Hnd Hprops).
Qed.

(** A text that parses to an object with a usable name decodes to that
    object, be it stored as an indexed-character map or as it stands. *)
Lemma parseReconstructed_named (text : string) (kind : ObjKind) (props : Props) :
  JSON_parse text = Some (JObj kind props) ->
  truthy (Explore.displayName (JObj kind props)) = true ->
  Explore.parseReconstructed text = Normal (JObj kind props).
Proof.
  intros Hparse Hname. unfold Explore.parseReconstructed, JSON_parse_or_throw.
  rewrite Hparse. cbn [bind]. rewrite displayName_member. cbn [bind].
  rewrite Hname. cbn [negb andb bind].
  destruct (get_member_object kind props "downloaded_at") as [at_ Hat].
  rewrite Hat. cbn [bind].
  destruct (negb (truthy at_) && String.eqb (typeof at_) "number") eqn:Hc;
    [|reflexivity].
  cbn [set_member]. do 2 f_equal.
  destruct (lookup "downloaded_at" props) as [v|] eqn:Hl.
  - apply store_same. rewrite Hl. f_equal.
    destruct kind; cbn in Hat; rewrite Hl in Hat; now injection Hat.
  - exfalso. destruct kind; cbn in Hat; rewrite Hl in Hat;
      injection Hat as <-; discriminate.
Qed.

Lemma metadataFromField_named (pack : JsValue) (text : string)
      (kind : ObjKind) (props : Props) :
  get_member pack "metadata" = Normal (JStr text) ->
  text <> EmptyString ->
  JSON_parse text = Some (JObj kind props) ->
  truthy (Explore.displayName (JObj kind props)) = true ->
  Explore.metadataFromField pack = Normal (JObj kind props).
Proof.
  intros Hs Hne Hparse Hname. unfold Explore.metadataFromField.
  rewrite Hs. cbn [bind].
  assert (Ht : truthy (JStr text) = true).
  { cbn. now destruct (String.eqb_spec text EmptyString). }
  rewrite Ht. cbn [typeof String.eqb Ascii.eqb Bool.eqb andb negb ToString].
  unfold JSON_parse_or_throw. rewrite Hparse.
  cbn [try_catch bind typeof String.eqb Ascii.eqb Bool.eqb andb orb negb].
  rewrite displayName_member. cbn [bind]. now rewrite Hname.
Qed.

(** C2, as the code has it.  The keys kept from an indexed-character map
    are exactly its keys that [parseInt] reads as a number, negative
    numbers and digits followed by other text included; they are put in
    ascending order of the number read, so that "2" comes before "10";
    and the characters under them are concatenated in that order and the
    result parsed.  Hence, for the text that [handleDownload] hands to
    [createPack], the map that holds its characters under their
    positions decodes, whatever the order in which its keys were
    inserted, to the same metadata as the text itself. *)
Theorem scattered_blob_decodes
        (time : string) (now : Z) (blob : string)
        (kind : ObjKind) (props : Props)
        (packMap packText other : JsValue) :
  JSON_stringify (Home.newMetadata time now) = Some blob ->
  JSON_parse blob = Some (Home.newMetadata time now) ->
  blob <> EmptyString ->
  Permutation props (Explore.scattered blob) ->
  get_member packMap "_metadata" = Normal (JObj kind props) ->
  get_member packText "_metadata" = Normal other ->
  is_object other = false ->
  get_member packText "metadata" = Normal (JStr blob) ->
  (forall m key,
      In key (Explore.numericKeys m)
      <-> In key (Object_keys m) /\ parseInt key <> None)
  /\ (forall m,
         StronglySorted (ordered_by parsedKey) (Explore.numericKeys m))
  /\ Explore.numericKeys (JObj Plain [("10", JStr "a"); ("2", JStr "b")])
     = ["2"; "10"]
  /\ Explore.reconstruct (JObj kind props)
       (Explore.numericKeys (JObj kind props)) EmptyString
     = Normal blob
  /\ Explore.decodeMetadata packMap = Normal (Home.newMetadata time now)
  /\ Explore.decodeMetadata packText = Normal (Home.newMetadata time now).
Proof.
  intros _ Hparse Hne Hperm Hmap Hother Hnobj Htext.
  assert (Hname : truthy (Explore.displayName (Home.newMetadata time now))
                  = true) by reflexivity.
  split; [exact numericKeys_in|]. split; [exact numericKeys_sorted|].
  split; [reflexivity|].
  split; [now apply reconstruct_scattered|]. split.
  - unfold Explore.decodeMetadata. rewrite Hmap. cbn [bind].
    rewrite object_condition. cbn [is_object].
    unfold Explore.metadataFromCharacters.
    rewrite (reconstruct_scattered kind props blob Hperm). cbn [bind].
    unfold Home.newMetadata in *.
    now rewrite (parseReconstructed_named blob _ _ Hparse Hname).
  - unfold Explore.decodeMetadata. rewrite Hother. cbn [bind].
    rewrite object_condition, Hnobj.
    unfold Home.newMetadata in *.
    now apply metadataFromField_named with (text := blob).
Qed.

End Reconstruction.

Lemma scattered_blob_decodes_witness :
  Explore.decodeMetadata sampleMapPack
  = Normal (Home.newMetadata "10:00:00" 1700000000000)
  /\ Explore.decodeMetadata sampleTextPack
     = Normal (Home.newMetadata "10:00:00" 1700000000000).
Proof.
  refine (proj2 (proj2 (proj2 (proj2
            (@scattered_blob_decodes
               runtime "10:00:00" 1700000000000 sampleBlob Plain
               (rev (Explore.scattered sampleBlob))
               sampleMapPack sampleTextPack JUndefined
               _ _ _ _ _ _ _ _))))).
  - vm_compute; reflexivity.
  - vm_compute; reflexivity.
  - vm_compute; discriminate.
  - apply Permutation_sym, Permutation_rev.
  - reflexivity.
  - reflexivity.
  - reflexivity.
  - reflexivity.
Defined.

(** C2 as the specification words it fails: the key "-1" is read by
    [parseInt] as the negative number -1, and it is kept all the same,
    where the specification's selection leaves it out; the text rebuilt
    then starts with the character stored under it. *)
Lemma negative_key_is_kept :
  In "-1" (Explore.numericKeys negativeKeyMap)
  /\ parseInt "-1" = Some (-1)
  /\ ~ In "-1" (Explore.spec_numericKeys negativeKeyMap)
  /\ Explore.numericKeys negativeKeyMap <> Explore.spec_numericKeys negativeKeyMap
  /\ Explore.reconstruct negativeKeyMap (Explore.numericKeys negativeKeyMap)
       EmptyString = Normal "x{}"
  /\ Explore.reconstruct negativeKeyMap (Explore.spec_numericKeys negativeKeyMap)
       EmptyString = Normal "{}".
Proof.
  repeat split; try (vm_compute; reflexivity).
  - cbn. auto.
  - vm_compute. intros [H|[H|[]]]; discriminate.
  - vm_compute. discriminate.
Qed.

(* ================================================================== *)
(** * More about decoding *)
(* ================================================================== *)

Section DecodingFacts.
Context {RT : JsRuntime}.

Lemma record_member (pack : JsValue) (k : string) :
  ExploreView.is_record pack = true ->
  get_member pack k = Normal (get_member_opt pack k).
Proof.
  intros Hr. unfold get_member_opt.
  destruct pack as [| |b|n|s|kind props]; try discriminate; try reflexivity.
  now destruct (get_member_object kind props k) as [x ->].
Qed.

Lemma member_record (pack x : JsValue) (k : string) :
  get_member pack k = Normal x -> ExploreView.is_record pack = true.
Proof. destruct pack; cbn; try discriminate; reflexivity. Qed.

(** X1.  Rebuilding the metadata of a raw record never throws, whatever
    the record holds: every parse failure and type error on the way is
    caught.  A raw entry that is [null] or [undefined] is the one input on
    which it throws, a [TypeError], before any [try] is entered. *)
Theorem decode_throws_only_without_record (pack : JsValue) :
  (ExploreView.is_record pack = true ->
   exists metadata, Explore.decodeMetadata pack = Normal metadata)
  /\ (ExploreView.is_record pack = false ->
      Explore.decodeMetadata pack = Throw TypeError).
Proof.
  split; intros Hr.
  - apply decodeMetadata_total; intros ->; discriminate.
  - destruct pack; try discriminate; reflexivity.
Qed.

(** X2.  When the record's [_metadata] is not an object, whatever its
    [metadata] field holds (nothing, an object, a text that parses or
    not, a number, ...), the metadata returned is an object whose name is
    usable: the list never has to fall back on the identifier. *)
Theorem field_metadata_always_named (pack m : JsValue) :
  get_member pack "_metadata" = Normal m ->
  is_object m = false ->
  exists kind props,
    Explore.decodeMetadata pack = Normal (JObj kind props)
    /\ truthy (Explore.displayName (JObj kind props)) = true.
Proof.
  intros Hm Hobj.
  assert (Hid : get_member pack "name" = Normal (get_member_opt pack "name"))
    by (apply record_member; exact (member_record _ _ _ Hm)).
  unfold Explore.decodeMetadata. rewrite Hm. cbn [bind].
  rewrite object_condition, Hobj.
  exact (metadataFromField_has_name pack _ Hid).
Qed.

Lemma lookup_store_other (k k' : string) (v : JsValue) (props : Props) :
  k <> k' -> lookup k (store k' v props) = lookup k props.
Proof.
  intros Hne. induction props as [|[k0 v0] rest IH]; cbn.
  - destruct (String.eqb_spec k k'); [contradiction|reflexivity].
  - destruct (String.eqb_spec k' k0) as [->|Hk0]; cbn.
    + destruct (String.eqb_spec k k0); [contradiction|reflexivity].
    + destruct (String.eqb_spec k k0); [reflexivity|exact IH].
Qed.

(** X3.  Metadata that the storage layer hands over as an object is kept
    as it is: with a usable name the very same object is returned, and
    without one the name "Pack: " and the identifier is written into it
    while every other field keeps its value. *)
Theorem object_metadata_is_kept
        (pack m id : JsValue) (kind : ObjKind) (props : Props) :
  get_member pack "_metadata" = Normal m ->
  is_object m = false ->
  get_member pack "name" = Normal id ->
  get_member pack "metadata" = Normal (JObj kind props) ->
  (truthy (Explore.displayName (JObj kind props)) = true ->
   Explore.decodeMetadata pack = Normal (JObj kind props))
  /\ (truthy (Explore.displayName (JObj kind props)) = false ->
      exists props',
        Explore.decodeMetadata pack = Normal (JObj kind props')
        /\ lookup "name" props' = Some (JStr ("Pack: " ++ ToString id))
        /\ forall k, k <> "name" -> lookup k props' = lookup k props).
Proof.
  intros Hm Hobj Hid Hs.
  unfold Explore.decodeMetadata. rewrite Hm. cbn [bind].
  rewrite object_condition, Hobj.
  unfold Explore.metadataFromField. rewrite Hs.
  cbn [bind truthy typeof String.eqb Ascii.eqb Bool.eqb andb orb negb].
  rewrite (field_object_named pack id kind props Hid). cbn [try_catch].
  split; intros Hname; rewrite Hname; [reflexivity|].
  eexists. split; [reflexivity|]. split.
  - apply lookup_store.
  - intros k Hk. now apply lookup_store_other.
Qed.

(** X4.  When the text rebuilt from an indexed-character map parses to an
    object with a usable name, that object is the metadata, with all its
    fields and in particular its own [name] and [downloaded_at]: a name
    the map carries besides its characters is not consulted. *)
Theorem parsed_map_text_is_kept
        (pack : JsValue) (kind kind' : ObjKind) (props props' : Props)
        (text : string) :
  get_member pack "_metadata" = Normal (JObj kind props) ->
  Explore.reconstruct (JObj kind props)
    (Explore.numericKeys (JObj kind props)) EmptyString = Normal text ->
  JSON_parse text = Some (JObj kind' props') ->
  truthy (Explore.displayName (JObj kind' props')) = true ->
  Explore.decodeMetadata pack = Normal (JObj kind' props').
Proof.
  intros Hm Hrec Hparse Hname.
  unfold Explore.decodeMetadata. rewrite Hm. cbn [bind].
  rewrite object_condition. cbn [is_object].
  unfold Explore.metadataFromCharacters. rewrite Hrec. cbn [bind].
  now rewrite (parseReconstructed_named text kind' props' Hparse Hname).
Qed.

(** Rebuilding the text of an object never throws. *)
Lemma reconstruct_total (kind : ObjKind) (props : Props)
      (keys : list string) (acc : string) :
  exists text, Explore.reconstruct (JObj kind props) keys acc = Normal text.
Proof.
  revert acc. induction keys as [|key rest IH]; intros acc;
    cbn [Explore.reconstruct]; [eauto|].
  destruct (get_member_object kind props key) as [c ->]. cbn [bind].
  apply IH.
Qed.

End DecodingFacts.

Lemma decode_throws_only_without_record_witness :
  exists metadata, Explore.decodeMetadata unparsablePack = Normal metadata.
Proof.
  exact (proj1 (@decode_throws_only_without_record runtime unparsablePack)
               eq_refl).
Defined.

Lemma field_metadata_always_named_witness :
  exists kind props,
    Explore.decodeMetadata numberMetadataPack = Normal (JObj kind props)
    /\ truthy (Explore.displayName (JObj kind props)) = true.
Proof.
  exact (@field_metadata_always_named runtime numberMetadataPack JUndefined
           eq_refl eq_refl).
Defined.

Lemma object_metadata_is_kept_witness :
  Explore.decodeMetadata objectMetadataPack
  = Normal (JObj Plain [("name", JStr "Trailhead"); ("note", JStr "kept")]).
Proof.
  exact (proj1 (@object_metadata_is_kept
                  runtime objectMetadataPack JUndefined (JStr "offline-pack-1")
                  Plain [("name", JStr "Trailhead"); ("note", JStr "kept")]
                  eq_refl eq_refl eq_refl eq_refl)
               eq_refl).
Defined.

Lemma parsed_map_text_is_kept_witness :
  Explore.decodeMetadata renamedMapPack
  = Normal (Home.newMetadata "10:00:00" 1700000000000).
Proof.
  refine (@parsed_map_text_is_kept
            runtime renamedMapPack Plain Plain
            (Explore.scattered sampleBlob ++ [("name", JStr "Other")])%list
            _ sampleBlob _ _ _ _).
  all: vm_compute; reflexivity.
Defined.

(* ================================================================== *)
(** * More about the catalog *)
(* ================================================================== *)

Section CatalogFacts.
Context {RT : JsRuntime}.

Lemma truthy_record (v : JsValue) :
  truthy v = true -> ExploreView.is_record v = true.
Proof. destruct v; cbn; try discriminate; reflexivity. Qed.

(** What the [map] callback makes of a record. *)
Lemma formatPack_record (pack : JsValue) :
  ExploreView.is_record pack = true ->
  ExploreView.serializable pack = true ->
  exists listed,
    Explore.formatPack pack = Normal listed
    /\ Explore.name listed = get_member_opt pack "name"
    /\ Explore.decodeMetadata pack = Normal (Explore.metadata listed)
    /\ Explore.estimatedSize pack = Normal (Explore.size listed).
Proof.
  intros Hr Hs. unfold Explore.formatPack.
  destruct (decodeMetadata_total pack) as [md Hmd];
    try (intros ->; discriminate).
  rewrite Hmd. cbn [bind].
  assert (Hest : exists est, Explore.estimatedSize pack = Normal est).
  { unfold Explore.estimatedSize.
    rewrite (record_member pack "_metadata" Hr). cbn [bind].
    unfold ExploreView.serializable in Hs.
    destruct (truthy (get_member_opt pack "_metadata")); [|eauto].
    destruct (JSON_stringify (get_member_opt pack "_metadata"));
      [eauto|discriminate]. }
  destruct Hest as [est Hest]. rewrite Hest. cbn [bind].
  rewrite (record_member pack "name" Hr). cbn [bind].
  rewrite (record_member pack "bounds" Hr). cbn [bind].
  assert (Hb : exists b,
             (if truthy (get_member_opt pack "bounds")
              then Normal (get_member_opt pack "bounds")
              else inner <- get_member pack "pack" ;;
                   if truthy inner then get_member inner "bounds"
                   else Normal JNull) = Normal b).
  { destruct (truthy (get_member_opt pack "bounds")); [eauto|].
    rewrite (record_member pack "pack" Hr). cbn [bind].
    destruct (truthy (get_member_opt pack "pack")) eqn:Hi; [|eauto].
    rewrite (record_member _ "bounds" (truthy_record _ Hi)). eauto. }
  destruct Hb as [b ->]. cbn [bind].
  eexists. repeat split.
Qed.

Lemma mapPacks_records (records : list JsValue) :
  forallb (fun p => ExploreView.is_record p && ExploreView.serializable p)
          records = true ->
  exists listed,
    Explore.mapPacks records = Normal listed
    /\ map Explore.name listed
       = map (fun p => get_member_opt p "name") records
    /\ Forall2 (fun p l => Explore.decodeMetadata p
                           = Normal (Explore.metadata l))
               records listed.
Proof.
  induction records as [|pack rest IH]; intros H.
  - exists []. repeat split. constructor.
  - cbn [forallb] in H. apply andb_prop in H as [Hp Hrest].
    apply andb_prop in Hp as [Hr Hs].
    destruct (formatPack_record pack Hr Hs) as (l & Hl & Hname & Hmd & _).
    destruct (IH Hrest) as (ls & Hls & Hnames & Hmds).
    exists (l :: ls). cbn [Explore.mapPacks]. rewrite Hl, Hls. cbn [bind].
    split; [reflexivity|]. split.
    + cbn [map]. now rewrite Hname, Hnames.
    + now constructor.
Qed.

Lemma mapPacks_bad (records : list JsValue) (bad : JsValue) :
  In bad records -> ExploreView.is_record bad = false ->
  exists e, Explore.mapPacks records = Throw e.
Proof.
  intros Hin Hbad. induction records as [|pack rest IH]; [destruct Hin|].
  cbn [Explore.mapPacks].
  destruct (Explore.formatPack pack) as [l|e] eqn:Hl; cbn [bind]; [|eauto].
  destruct Hin as [->|Hin].
  - exfalso. unfold Explore.formatPack in Hl.
    destruct bad; try discriminate.
  - destruct (IH Hin) as [e ->]. cbn [bind]. eauto.
Qed.

(** What [fetchPacks] does once the raw list has been mapped, or the
    mapping has thrown. *)
Lemma fetchPacks_resolved (raw : JsValue) (refreshing : bool) :
  Explore.fetchPacks (Some {| Explore.getPacks := Normal raw |}) refreshing
  = ((if refreshing then Explore.SetIsRefreshing true
      else Explore.SetIsLoading true)
     :: Explore.CallGetPacks
     :: match Explore.formattedPacks raw with
        | Normal listed => [Explore.SetPacks listed]
        | Throw error =>
            [Explore.Alert "Error"
               ("Could not fetch offline packs. " ++ message_of error);
             Explore.SetPacks []]
        end
     ++ [Explore.SetIsLoading false; Explore.SetIsRefreshing false])%list.
Proof.
  unfold Explore.fetchPacks. cbn [Explore.getPacks bind].
  destruct (Explore.formattedPacks raw); destruct refreshing; reflexivity.
Qed.

(** X5.  When the storage layer answers with an array of records, the
    list put on screen has one pack per record, in the order of the array,
    each under its record's identifier and with the metadata decoded from
    that record; no alert is raised. *)
Theorem fetch_lists_records_in_order
        (st : Explore.State) (refreshing : bool) (props : Props) :
  forallb (fun p => ExploreView.is_record p && ExploreView.serializable p)
          (Explore.array_elements props) = true ->
  let effects :=
    Explore.fetchPacks
      (Some {| Explore.getPacks := Normal (JObj Array props) |}) refreshing in
  exists listed,
    Explore.packs (Explore.run st effects) = listed
    /\ map Explore.name listed
       = map (fun p => get_member_opt p "name") (Explore.array_elements props)
    /\ Forall2 (fun p l => Explore.decodeMetadata p
                           = Normal (Explore.metadata l))
               (Explore.array_elements props) listed
    /\ (forall title message, ~ In (Explore.Alert title message) effects).
Proof.
  intros H effects.
  destruct (mapPacks_records _ H) as (listed & Hl & Hnames & Hmds).
  exists listed. unfold effects. rewrite fetchPacks_resolved.
  unfold Explore.formattedPacks, js_or. cbn [truthy]. rewrite Hl.
  split; [now destruct refreshing|]. split; [exact Hnames|].
  split; [exact Hmds|].
  intros title message Hin.
  destruct refreshing; cbn in Hin;
    repeat (destruct Hin as [Hin|Hin]; try discriminate); exact Hin.
Qed.

(** X6.  One raw entry that is [null] or [undefined] anywhere in the
    array costs the whole list: the mapping throws, the alert "Could not
    fetch offline packs." is raised and the list on screen is emptied,
    the well-formed records included.  An answer that is truthy and not
    an array has the same outcome. *)
Theorem bad_record_clears_list
        (st : Explore.State) (refreshing : bool) (raw : JsValue) :
  (exists props bad,
      raw = JObj Array props
      /\ In bad (Explore.array_elements props)
      /\ ExploreView.is_record bad = false)
  \/ (truthy raw = true /\ forall props, raw <> JObj Array props) ->
  let effects :=
    Explore.fetchPacks (Some {| Explore.getPacks := Normal raw |}) refreshing in
  Explore.packs (Explore.run st effects) = []
  /\ exists error,
       In (Explore.Alert "Error"
             ("Could not fetch offline packs. " ++ message_of error))
          effects.
Proof.
  intros H effects.
  assert (Hthrow : exists e, Explore.formattedPacks raw = Throw e).
  { destruct H as [(props & bad & -> & Hin & Hbad)|[Ht Hna]].
    - unfold Explore.formattedPacks, js_or. cbn [truthy].
      exact (mapPacks_bad _ bad Hin Hbad).
    - unfold Explore.formattedPacks, js_or. rewrite Ht.
      destruct raw as [| |b|n|s|[|] props]; eauto.
      exfalso. now apply (Hna props). }
  destruct Hthrow as [e He]. unfold effects.
  rewrite fetchPacks_resolved, He.
  split; [now destruct refreshing|].
  exists e. destruct refreshing; cbn; auto.
Qed.

(** X7.  With the manager at hand, every run of [fetchPacks] calls
    [getPacks] exactly once, sets the list exactly once, and ends with
    both loading flags cleared, be the answer a list, nothing at all, or a
    failure at any point. *)
Theorem fetch_always_settles
        (st : Explore.State) (manager : Explore.OfflineManager)
        (refreshing : bool) :
  let effects := Explore.fetchPacks (Some manager) refreshing in
  Explore.getPacksCalls effects = 1%nat
  /\ List.length (filter (fun e => match e with
                                   | Explore.SetPacks _ => true
                                   | _ => false
                                   end) effects) = 1%nat
  /\ Explore.isLoading (Explore.run st effects) = false
  /\ Explore.isRefreshing (Explore.run st effects) = false.
Proof.
  destruct manager as [[raw|error]]; cbn zeta.
  - rewrite fetchPacks_resolved.
    destruct (Explore.formattedPacks raw); destruct refreshing;
      repeat split; reflexivity.
  - unfold Explore.fetchPacks. cbn [Explore.getPacks bind try_catch].
    destruct refreshing; repeat split; reflexivity.
Qed.

(** X8.  Without the manager [fetchPacks] asks the storage layer nothing
    and leaves the list alone; called as on focus ([refreshing] false) it
    sets [isLoading] and nothing in the call clears it, so that a screen
    with no pack yet keeps showing the spinner alone. *)
Theorem fetch_without_manager (st : Explore.State) (refreshing : bool) :
  let effects := Explore.fetchPacks None refreshing in
  Explore.getPacksCalls effects = 0%nat
  /\ Explore.packs (Explore.run st effects) = Explore.packs st
  /\ Explore.isRefreshing (Explore.run st effects) = Explore.isRefreshing st
  /\ (refreshing = false ->
      Explore.isLoading (Explore.run st effects) = true
      /\ (Explore.packs st = [] -> Explore.isRefreshing st = false ->
          ExploreView.view (Explore.run st effects) = ExploreView.Loader)).
Proof.
  destruct refreshing; cbn; repeat split; try discriminate.
  intros Hp Hr. unfold ExploreView.view. cbn. now rewrite Hp, Hr.
Qed.

(** X9.  After a fetch that failed, whatever was on screen before, the
    screen shows the list with no row and with its empty text ("No
    offline regions downloaded yet. Pull down to refresh."), not the
    spinner. *)
Theorem failed_fetch_shows_empty_text
        (st : Explore.State) (refreshing : bool) (error : Exn) :
  ExploreView.view
    (Explore.run st
       (Explore.fetchPacks (Some {| Explore.getPacks := Throw error |})
                           refreshing))
  = ExploreView.ListOf [] true.
Proof. destruct refreshing; reflexivity. Qed.

(** X10.  The title of a row is the decoded name when that is usable and
    the pack's identifier otherwise; so every record whose identifier is a
    non-empty string gets a row with a non-empty title, also when its
    metadata comes back without a name. *)
Theorem row_title_is_never_empty
        (pack : JsValue) (listed : Explore.OfflinePack) (id : string) :
  Explore.formatPack pack = Normal listed ->
  get_member pack "name" = Normal (JStr id) ->
  id <> EmptyString ->
  truthy (ExploreView.itemTitle listed) = true
  /\ (truthy (Explore.displayName (Explore.metadata listed)) = true ->
      ExploreView.itemTitle listed
      = Explore.displayName (Explore.metadata listed))
  /\ (truthy (Explore.displayName (Explore.metadata listed)) = false ->
      ExploreView.itemTitle listed = JStr id).
Proof.
  intros Hf Hid Hne.
  assert (Hname : Explore.name listed = JStr id).
  { unfold Explore.formatPack in Hf.
    destruct (Explore.decodeMetadata pack) as [md|e]; cbn [bind] in Hf;
      [|discriminate].
    destruct (Explore.estimatedSize pack) as [est|e]; cbn [bind] in Hf;
      [|discriminate].
    rewrite Hid in Hf. cbn [bind] in Hf.
    destruct (get_member pack "bounds") as [b|e]; cbn [bind] in Hf;
      [|discriminate].
    match type of Hf with
    | bind ?c _ = _ => destruct c as [b'|e]; cbn [bind] in Hf; [|discriminate]
    end.
    now injection Hf as <-. }
  unfold ExploreView.itemTitle, Explore.displayName, js_or. rewrite Hname.
  destruct (truthy (get_member_opt (Explore.metadata listed) "name")) eqn:Ht.
  - repeat split; [exact Ht|discriminate].
  - repeat split; [|discriminate].
    cbn. now destruct (String.eqb_spec id EmptyString).
Qed.

End CatalogFacts.

Lemma fetch_lists_records_in_order_witness :
  exists listed,
    Explore.packs (Explore.run staleScreen
                     (Explore.fetchPacks
                        (Some {| Explore.getPacks := Normal (JObj Array twoRecords) |})
                        false))
    = listed
    /\ map Explore.name listed
       = [JStr "offline-pack-1700000000000"; JStr "offline-pack-1"].
Proof.
  destruct (@fetch_lists_records_in_order runtime staleScreen false twoRecords
              eq_refl)
    as (listed & Hl & Hn & _).
  exists listed. split; [exact Hl|exact Hn].
Defined.

Lemma bad_record_clears_list_witness :
  Explore.packs
    (Explore.run staleScreen
       (Explore.fetchPacks
          (Some {| Explore.getPacks := Normal (JObj Array recordsWithNull) |})
          true))
  = [].
Proof.
  refine (proj1 (@bad_record_clears_list
                   runtime staleScreen true (JObj Array recordsWithNull) _)).
  left. exists recordsWithNull, JNull. repeat split. vm_compute. auto.
Defined.

Lemma fetch_without_manager_witness :
  ExploreView.view
    (Explore.run emptyScreen (Explore.fetchPacks None false))
  = ExploreView.Loader.
Proof.
  exact (proj2 (proj2 (proj2 (proj2
                  (@fetch_without_manager runtime emptyScreen false)))
                  eq_refl)
               eq_refl eq_refl).
Defined.

Lemma row_title_is_never_empty_witness :
  exists listed,
    Explore.formatPack namelessMapPack = Normal listed
    /\ ExploreView.itemTitle listed = JStr "offline-pack-1".
Proof.
  eexists. split; [vm_compute; reflexivity|].
  refine (proj2 (proj2 (@row_title_is_never_empty
                          runtime namelessMapPack _ "offline-pack-1"
                          _ eq_refl _)) _).
  - vm_compute; reflexivity.
  - discriminate.
  - reflexivity.
Defined.

(* ================================================================== *)
(** * Deleting a pack *)
(* ================================================================== *)

Section Deletion.
Context {RT : JsRuntime}.

Lemma run_screen (st : Explore.State) (effects : list Explore.Effect) :
  ExploreView.run st (map ExploreView.Screen effects) = Explore.run st effects.
Proof.
  revert st. induction effects as [|e rest IH]; intros st; [reflexivity|].
  cbn. apply IH.
Qed.

Lemma screenEffects_screen (effects : list Explore.Effect) :
  ExploreView.screenEffects (map ExploreView.Screen effects) = effects.
Proof. induction effects as [|e rest IH]; cbn; [reflexivity|now f_equal]. Qed.

Lemma deletePackCalls_screen (effects : list Explore.Effect) :
  ExploreView.deletePackCalls (map ExploreView.Screen effects) = [].
Proof. induction effects as [|e rest IH]; cbn; [reflexivity|exact IH]. Qed.

(** X11.  The storage layer is asked to delete a pack only when the
    manager is at hand and the user has pressed Delete in the dialog, and
    then once, for the pack of the row; a missing manager or a press on
    Cancel changes nothing on screen and fetches nothing. *)
Theorem delete_only_when_confirmed
        (st : Explore.State) (offlineManager : option ExploreView.Storage)
        (choice : ExploreView.Choice) (item : Explore.OfflinePack) :
  let effects := ExploreView.pressDelete offlineManager choice item in
  (ExploreView.deletePackCalls effects <> [] ->
   offlineManager <> None /\ choice = ExploreView.Delete
   /\ ExploreView.deletePackCalls effects = [Explore.name item])
  /\ (ExploreView.deletePackCalls effects = [] ->
      ExploreView.run st effects = st
      /\ Explore.getPacksCalls (ExploreView.screenEffects effects) = 0%nat).
Proof.
  cbn zeta. unfold ExploreView.pressDelete, ExploreView.handleDeletePack.
  destruct offlineManager as [storage|]; [destruct choice|].
  - split; [intros H; now contradiction H|]. intros _.
    destruct st; split; reflexivity.
  - split.
    + intros _. split; [discriminate|]. split; [reflexivity|].
      destruct (ExploreView.deletePack storage (Explore.name item)); cbn;
        [|reflexivity].
      now rewrite deletePackCalls_screen.
    + discriminate.
  - split; [intros H; now contradiction H|]. intros _.
    destruct st; split; reflexivity.
Qed.

(** X12.  When the storage layer fails to delete, the list on screen is
    left as it was and nothing is fetched; the failure is reported with
    the error's message and [isLoading] is cleared again. *)
Theorem failed_delete_keeps_list
        (st : Explore.State) (storage : ExploreView.Storage)
        (packName displayName : JsValue) (error : Exn) :
  ExploreView.deletePack storage packName = Throw error ->
  let effects :=
    ExploreView.handleDeletePack (Some storage) ExploreView.Delete
                                 packName displayName in
  Explore.packs (ExploreView.run st effects) = Explore.packs st
  /\ Explore.isLoading (ExploreView.run st effects) = false
  /\ Explore.isRefreshing (ExploreView.run st effects)
     = Explore.isRefreshing st
  /\ Explore.getPacksCalls (ExploreView.screenEffects effects) = 0%nat
  /\ In (ExploreView.Screen
           (Explore.Alert "Error"
              ("Could not delete pack. " ++ message_of error)))
        effects.
Proof.
  intros Hd. cbn zeta. unfold ExploreView.handleDeletePack. rewrite Hd.
  repeat split. cbn. auto.
Qed.

(** X13.  After a successful delete the screen does not patch its list:
    it raises the alert "Success" naming the region deleted and then
    fetches anew, with one [getPacks] call, and the list shown afterwards
    is the one that fetch yields, a pack that the storage layer still
    returns included, and the empty list if the fetch fails. *)
Theorem delete_refetches
        (st : Explore.State) (storage : ExploreView.Storage)
        (packName displayName : JsValue) :
  ExploreView.deletePack storage packName = Normal tt ->
  let effects :=
    ExploreView.handleDeletePack (Some storage) ExploreView.Delete
                                 packName displayName in
  let refetch :=
    Explore.fetchPacks (Some (ExploreView.packsManager storage)) false in
  Explore.packs (ExploreView.run st effects)
  = Explore.packs (Explore.run st refetch)
  /\ Explore.isLoading (ExploreView.run st effects) = false
  /\ Explore.isRefreshing (ExploreView.run st effects) = false
  /\ Explore.getPacksCalls (ExploreView.screenEffects effects) = 1%nat
  /\ ExploreView.deletePackCalls effects = [packName]
  /\ (forall error,
         Explore.getPacks (ExploreView.packsManager storage) = Throw error ->
         Explore.packs (ExploreView.run st effects) = [])
  /\ In (ExploreView.Screen
           (Explore.Alert "Success"
              ("Region " ++ Home.quote ++ ToString displayName ++ Home.quote
                 ++ " deleted.")))
        effects
  /\ ExploreView.screenEffects effects
     = (Explore.Alert "Confirm Deletion"
          ("Are you sure you want to delete the offline region "
             ++ Home.quote ++ ToString displayName ++ Home.quote ++ "?")
        :: Explore.SetIsLoading true
        :: Explore.Alert "Success"
             ("Region " ++ Home.quote ++ ToString displayName ++ Home.quote
                ++ " deleted.")
        :: refetch)%list.
Proof.
  intros Hd. cbn zeta. unfold ExploreView.handleDeletePack. rewrite Hd.
  set (refetch := Explore.fetchPacks
                    (Some (ExploreView.packsManager storage)) false).
  set (st1 := {| Explore.packs := Explore.packs st;
                 Explore.isLoading := true;
                 Explore.isRefreshing := Explore.isRefreshing st |}).
  assert (Hrun : forall text1 text2,
             ExploreView.run st
               (ExploreView.Screen (Explore.Alert "Confirm Deletion" text1)
                :: ExploreView.Screen (Explore.SetIsLoading true)
                :: ExploreView.CallDeletePack packName
                :: ExploreView.Screen (Explore.Alert "Success" text2)
                :: map ExploreView.Screen refetch)
             = Explore.run st1 refetch).
  { intros text1 text2. cbn. apply run_screen. }
  rewrite Hrun.
  assert (Hsettle :
            Explore.getPacksCalls refetch = 1%nat
            /\ Explore.isLoading (Explore.run st1 refetch) = false
            /\ Explore.isRefreshing (Explore.run st1 refetch) = false
            /\ Explore.packs (Explore.run st1 refetch)
               = Explore.packs (Explore.run st refetch)).
  { unfold refetch.
    destruct (ExploreView.packsManager storage) as [[raw|error]].
    - rewrite fetchPacks_resolved.
      destruct (Explore.formattedPacks raw); repeat split; reflexivity.
    - repeat split; reflexivity. }
  destruct Hsettle as (Hcalls & Hl & Hr & Hpacks).
  split; [exact Hpacks|]. split; [exact Hl|]. split; [exact Hr|].
  split; [|split; [|split; [|split]]].
  - cbn. rewrite screenEffects_screen. exact Hcalls.
  - cbn. now rewrite deletePackCalls_screen.
  - intros error He. rewrite Hpacks.
    destruct (ExploreView.packsManager storage) as [g]. cbn in He. subst g.
    reflexivity.
  - cbn. auto.
  - cbn. now rewrite screenEffects_screen.
Qed.

End Deletion.

Lemma delete_only_when_confirmed_witness :
  ExploreView.run staleScreen
    (ExploreView.pressDelete (Some refusingStorage) ExploreView.Cancel
                             earlierPack)
  = staleScreen.
Proof.
  exact (proj1 (proj2 (@delete_only_when_confirmed
                         runtime staleScreen (Some refusingStorage)
                         ExploreView.Cancel earlierPack)
                      eq_refl)).
Defined.

Lemma failed_delete_keeps_list_witness :
  Explore.packs
    (ExploreView.run staleScreen
       (ExploreView.handleDeletePack (Some refusingStorage) ExploreView.Delete
                                     (JStr "offline-pack-0") (JStr "Earlier")))
  = Explore.packs staleScreen.
Proof.
  exact (proj1 (@failed_delete_keeps_list
                  runtime staleScreen refusingStorage
                  (JStr "offline-pack-0") (JStr "Earlier")
                  (Rejected "pack is in use") eq_refl)).
Defined.

Lemma delete_refetches_witness :
  Explore.packs
    (ExploreView.run staleScreen
       (ExploreView.handleDeletePack (Some emptiedStorage) ExploreView.Delete
                                     (JStr "offline-pack-0") (JStr "Earlier")))
  = [].
Proof.
  exact (proj1 (@delete_refetches
                  runtime staleScreen emptiedStorage
                  (JStr "offline-pack-0") (JStr "Earlier") eq_refl)).
Defined.

(* ================================================================== *)
(** * More about the download coordinator *)
(* ================================================================== *)

Section CoordinatorFacts.
Context {RT : JsRuntime}.

Lemma createPackCalls_app (e1 e2 : list Home.Effect) :
  Home.createPackCalls (e1 ++ e2)
  = (Home.createPackCalls e1 + Home.createPackCalls e2)%nat.
Proof.
  unfold Home.createPackCalls. now rewrite filter_app, length_app.
Qed.

(** X14.  The zoom range asked of the storage layer: for a viewport zoom
    [z] the lower end is [max 0 (floor z - 2)] and the upper end is
    [min 16 (floor z + 3)], so the lower end is never negative and the
    upper end never above 16; the lower end does not exceed the upper one
    exactly when [floor z] lies between -3 and 18, and beyond zoom 19 the
    range handed over is empty (lower end above 16). *)
Theorem zoom_window (env : Home.Environment) (bounds : JsValue) (z : Q) :
  Home.getVisibleBounds env = Normal bounds ->
  truthy bounds = true ->
  Home.getZoom env = Normal (Some (Finite z)) ->
  exists options lo hi,
    In (Home.CreatePack options) (Home.handleDownload_rest env)
    /\ Home.minZoom options = Finite lo
    /\ Home.maxZoom options = Finite hi
    /\ (lo == inject_Z (Z.max 0 (Qfloor z - 2)))%Q
    /\ (hi == inject_Z (Z.min 16 (Qfloor z + 3)))%Q
    /\ (0 <= lo)%Q /\ (hi <= 16)%Q
    /\ ((lo <= hi)%Q <-> -3 <= Qfloor z <= 18).
Proof.
  intros Hb Ht Hz.
  unfold Home.handleDownload_rest, Home.handleDownload_try.
  rewrite Hb, Hz, Ht.
  set (f := Qfloor z).
  set (lo := if Qle_bool (inject_Z f + inject_Z (-2)) 0
             then 0%Q else (inject_Z f + inject_Z (-2))%Q).
  set (hi := if Qle_bool 16 (inject_Z f + inject_Z 3)
             then 16%Q else (inject_Z f + inject_Z 3)%Q).
  assert (Hlo : (lo == inject_Z (Z.max 0 (f - 2)))%Q).
  { unfold lo. destruct (Qle_bool _ 0) eqn:E.
    - apply Qle_bool_iff in E. unfold Qle in E. cbn in E.
      unfold Qeq. cbn. lia.
    - assert (~ (inject_Z f + inject_Z (-2) <= 0)%Q) as N
          by (rewrite <- Qle_bool_iff, E; discriminate).
      unfold Qle in N. cbn in N. unfold Qeq. cbn. lia. }
  assert (Hhi : (hi == inject_Z (Z.min 16 (f + 3)))%Q).
  { unfold hi. destruct (Qle_bool 16 _) eqn:E.
    - apply Qle_bool_iff in E. unfold Qle in E. cbn in E.
      unfold Qeq. cbn. lia.
    - assert (~ (16 <= inject_Z f + inject_Z 3)%Q) as N
          by (rewrite <- Qle_bool_iff, E; discriminate).
      unfold Qle in N. cbn in N. unfold Qeq. cbn. lia. }
  eexists _, lo, hi. split; [|split; [|split; [|split; [|split]]]].
  - destruct (Home.createPack env); cbn; left; reflexivity.
  - cbn. unfold lo. now destruct (Qle_bool _ 0).
  - cbn. unfold hi. now destruct (Qle_bool 16 _).
  - exact Hlo.
  - exact Hhi.
  - rewrite Hlo, Hhi. rewrite <- !Zle_Qle.
    change 0%Q with (inject_Z 0). change 16%Q with (inject_Z 16).
    rewrite <- !Zle_Qle. lia.
Qed.

(** X15.  A call of [handleDownload] from an idle screen always passes
    the guard, asks for at most one pack and leaves the progress at 0.
    The download is under way afterwards exactly when the map gave its
    bounds and zoom and [createPack] was accepted; in every other case,
    a throwing map or storage call included, the screen is idle again and
    an "Error" alert has been raised. *)
Theorem start_outcome (st : Home.State) (env : Home.Environment) :
  Home.isDownloading st = false ->
  let result := Home.handleDownload true st env in
  let final := Home.run st (snd result) in
  fst result = Home.DownloadStarted
  /\ Home.downloadProgress final = 0%Q
  /\ (Home.createPackCalls (snd result) <= 1)%nat
  /\ (Home.isDownloading final = true <->
      exists bounds zoom,
        Home.getVisibleBounds env = Normal bounds
        /\ truthy bounds = true
        /\ Home.getZoom env = Normal (Some zoom)
        /\ Home.createPack env = Normal tt)
  /\ (Home.isDownloading final = false ->
      exists message, In (Home.Alert "Error" message) (snd result)).
Proof.
  intros Hidle. cbn zeta. unfold Home.handleDownload.
  rewrite (handleDownload_when_idle st Hidle). cbn [fst snd].
  unfold Home.handleDownload_rest, Home.handleDownload_try.
  destruct (Home.getVisibleBounds env) as [bounds|e1];
    [destruct (Home.getZoom env) as [zoom|e2];
     [destruct (truthy bounds) eqn:Ht;
      [destruct zoom as [zoom|];
       [destruct (Home.createPack env) as [[]|e3]|]|]|]|].
  all: cbn; repeat split; try lia; try discriminate; eauto.
  all: try (intros (b & z & H1 & H2 & H3 & H4); congruence).
  all: try (intros _; exists bounds, zoom; now auto).
  all: intros _; eexists; repeat first [left; reflexivity | right].
Qed.

Lemma callback_keeps_idle (st : Home.State) (c : HomeView.Callback) :
  Home.createPackCalls (HomeView.callbackEffects c) = 0%nat
  /\ (Home.isDownloading st = false ->
      Home.isDownloading (Home.run st (HomeView.callbackEffects c)) = false).
Proof.
  destruct c as [pack status|pack err]; cbn [HomeView.callbackEffects].
  - unfold Home.onProgress. destruct (Home.state status =? 3); cbn; auto.
  - cbn. auto.
Qed.

(** X16.  The two listeners never start anything: whatever the storage
    layer calls them with, in whatever order, they make no [createPack]
    call, and a screen that is idle stays idle.  Only [handleDownload]
    sets [isDownloading]. *)
Theorem callbacks_never_start
        (st : Home.State) (calls : list HomeView.Callback) :
  let effects := flat_map HomeView.callbackEffects calls in
  Home.createPackCalls effects = 0%nat
  /\ (Home.isDownloading st = false ->
      Home.isDownloading (Home.run st effects) = false).
Proof.
  cbn zeta. revert st. induction calls as [|c rest IH]; intros st.
  - split; [reflexivity|auto].
  - cbn [flat_map]. rewrite createPackCalls_app, run_app.
    destruct (callback_keeps_idle st c) as [Hc Hi].
    destruct (IH (Home.run st (HomeView.callbackEffects c))) as [Hr Hk].
    split; [lia|]. intros Hidle. apply Hk, Hi, Hidle.
Qed.

Lemma progressRun_keeps_downloading
      (st : Home.State) (pack : Home.OfflinePackInfo)
      (statuses : list Home.OfflinePackStatus) :
  Forall (fun s => Home.state s <> 3) statuses ->
  Home.isDownloading (Home.run st (Home.progressRun pack statuses))
  = Home.isDownloading st.
Proof.
  intros H. rewrite (progressRun_ongoing pack statuses H).
  revert st. induction statuses as [|s rest IH]; intros st; [reflexivity|].
  inversion H; subst. cbn [map]. unfold Home.run in *. cbn [fold_left].
  now rewrite IH.
Qed.

(** X17.  From the press that starts a download until the callback that
    completes it, the download stays exclusive: after any run of progress
    callbacks short of completion the Download button is off the screen
    and a call of [handleDownload] is still turned down; the completing
    callback brings the button back and the next call passes the guard. *)
Theorem download_stays_exclusive
        (st : Home.State) (pack : Home.OfflinePackInfo)
        (before : list Home.OfflinePackStatus) (final : Home.OfflinePackStatus)
        (env : Home.Environment) :
  Home.isDownloading st = false ->
  Forall (fun s => Home.state s <> 3) before ->
  Home.state final = 3 ->
  let st1 := Home.run st (snd (Home.handleDownload_guard true st)) in
  let st2 := Home.run st1 (Home.progressRun pack before) in
  let st3 := Home.run st2 (Home.onProgress pack final) in
  HomeView.downloadButtonShown st2 = false
  /\ fst (Home.handleDownload true st2 env) = Home.DownloadPrevented
  /\ HomeView.downloadButtonShown st3 = true
  /\ fst (Home.handleDownload_guard true st3) = Home.DownloadStarted.
Proof.
  intros Hidle Hbefore Hfinal st1 st2 st3.
  assert (H1 : Home.isDownloading st1 = true)
    by (unfold st1; rewrite (handleDownload_when_idle st Hidle); reflexivity).
  assert (H2 : Home.isDownloading st2 = true)
    by (unfold st2; now rewrite progressRun_keeps_downloading).
  assert (H3 : Home.isDownloading st3 = false)
    by (unfold st3, Home.onProgress; rewrite Hfinal; reflexivity).
  unfold HomeView.downloadButtonShown. rewrite H2, H3.
  split; [reflexivity|]. split; [|split; [reflexivity|]].
  - destruct (handleDownload_while_downloading true st2 env H2)
      as (effects & -> & _). reflexivity.
  - now rewrite (handleDownload_when_idle st3 H3).
Qed.

Lemma Math_round_fraction (p : Z) :
  HomeView.Math_round (inject_Z p / 100 * 100)%Q = p.
Proof.
  unfold HomeView.Math_round.
  assert (E : (inject_Z p / 100 * 100 + (1 # 2) == inject_Z p + (1 # 2))%Q)
    by field.
  rewrite E. unfold Qfloor, Qplus, inject_Z. cbn [Qnum Qden Pos.mul].
  symmetry. apply Z.div_unique with (r := 1); lia.
Qed.

(** X18.  The number in the progress text is the percentage reported: a
    callback with the whole percentage [p], short of completion, makes the
    text read [p], and the completing callback makes it read 100 whatever
    percentage comes with it. *)
Theorem progress_text_shows_percentage
        (st : Home.State) (pack : Home.OfflinePackInfo)
        (status : Home.OfflinePackStatus) (p : Z) :
  Home.percentage status = inject_Z p ->
  (Home.state status <> 3 ->
   HomeView.progressPercent (Home.run st (Home.onProgress pack status)) = p)
  /\ (Home.state status = 3 ->
      HomeView.progressPercent (Home.run st (Home.onProgress pack status))
      = 100).
Proof.
  intros Hp. unfold Home.onProgress. split; intros Hs.
  - apply Z.eqb_neq in Hs. rewrite Hs. cbn. unfold HomeView.progressPercent.
    cbn [Home.downloadProgress]. rewrite Hp. apply Math_round_fraction.
  - rewrite Hs. reflexivity.
Qed.

End CoordinatorFacts.

Lemma zoom_window_witness :
  exists options lo hi,
    In (Home.CreatePack options) (Home.handleDownload_rest sampleEnvironment)
    /\ Home.minZoom options = Finite lo
    /\ Home.maxZoom options = Finite hi
    /\ (lo == inject_Z 10)%Q
    /\ (hi == inject_Z 15)%Q
    /\ (0 <= lo)%Q /\ (hi <= 16)%Q
    /\ ((lo <= hi)%Q <-> -3 <= Qfloor 12 <= 18).
Proof.
  exact (@zoom_window runtime sampleEnvironment (JObj Array []) 12%Q
           eq_refl eq_refl eq_refl).
Defined.

Lemma start_outcome_witness :
  Home.isDownloading
    (Home.run idleScreen (snd (Home.handleDownload true idleScreen sampleEnvironment)))
  = true.
Proof.
  refine (proj2 (proj1 (proj2 (proj2 (proj2
            (@start_outcome runtime idleScreen sampleEnvironment eq_refl)))))
          _).
  exists (JObj Array []), (Finite 12%Q). repeat split.
Defined.

Lemma callbacks_never_start_witness :
  Home.isDownloading
    (Home.run idleScreen
       (flat_map HomeView.callbackEffects
          [HomeView.Progress samplePack (active 45);
           HomeView.Failure samplePack {| Home.message := "network lost" |};
           HomeView.Progress samplePack (active 90)]))
  = false.
Proof.
  exact (proj2 (@callbacks_never_start runtime idleScreen _) eq_refl).
Defined.

Lemma download_stays_exclusive_witness :
  fst (Home.handleDownload true
         (Home.run
            (Home.run idleScreen (snd (Home.handleDownload_guard true idleScreen)))
            (Home.progressRun samplePack [active 10; active 45]))
         sampleEnvironment)
  = Home.DownloadPrevented.
Proof.
  refine (proj1 (proj2 (@download_stays_exclusive
                          runtime idleScreen samplePack
                          [active 10; active 45] (complete 100)
                          sampleEnvironment eq_refl _ eq_refl))).
  repeat constructor; discriminate.
Defined.

Lemma progress_text_shows_percentage_witness :
  HomeView.progressPercent
    (Home.run idleScreen (Home.onProgress samplePack (active 45)))
  = 45.
Proof.
  refine (proj1 (@progress_text_shows_percentage
                   runtime idleScreen samplePack (active 45) 45 eq_refl) _).
  discriminate.
Defined.

(* ================================================================== *)
(** * From the download to the list, and the location button *)
(* ================================================================== *)

Section RoundTrip.
Context {RT : JsRuntime}.

(** X19.  What [handleDownload] writes, the catalog reads back.  If the
    map gives bounds and zoom, one pack is asked for, named
    "offline-pack-" and the clock reading, with the metadata text of
    "Region @ " and the time of day.  When the storage layer returns a
    record with that identifier and that text as its [metadata], and
    [JSON.parse] reads the text back, the record is listed under that
    identifier with the title "Region @ " and the time, with the
    download time as written; its "Downloaded:" line shows unless that
    time is 0. *)
Theorem downloaded_region_is_listed
        (env : Home.Environment) (bounds : JsValue) (zoom : Num)
        (blob : string) (pack m : JsValue) :
  Home.getVisibleBounds env = Normal bounds ->
  truthy bounds = true ->
  Home.getZoom env = Normal (Some zoom) ->
  let written := Home.newMetadata (Home.localeTime env) (Home.nowForMetadata env) in
  let id := "offline-pack-" ++ Number_toString (inject_Z (Home.nowForName env)) in
  JSON_stringify written = Some blob ->
  JSON_parse blob = Some written ->
  blob <> EmptyString ->
  get_member pack "name" = Normal (JStr id) ->
  get_member pack "metadata" = Normal (JStr blob) ->
  get_member pack "_metadata" = Normal m ->
  truthy m = false ->
  (exists options,
      In (Home.CreatePack options) (Home.handleDownload_rest env)
      /\ (Home.createPackCalls (Home.handleDownload_rest env) = 1)%nat
      /\ Home.optName options = id
      /\ Home.optMetadata options = JStr blob
      /\ Home.optBounds options = bounds
      /\ Home.styleURL options = Home.MAP_STYLE_URL)
  /\ (exists listed,
         Explore.formatPack pack = Normal listed
         /\ Explore.name listed = JStr id
         /\ Explore.metadata listed = written
         /\ ExploreView.itemTitle listed
            = JStr ("Region @ " ++ Home.localeTime env)
         /\ get_member_opt (Explore.metadata listed) "downloaded_at"
            = JNum (Finite (inject_Z (Home.nowForMetadata env)))
         /\ ExploreView.showsDownloaded listed
            = negb (Home.nowForMetadata env =? 0)
         /\ Explore.size listed = JNull).
Proof.
  intros Hb Ht Hz written id Hs Hp Hne Hid Hmeta Hm Hfalsy. split.
  - unfold Home.handleDownload_rest, Home.handleDownload_try.
    rewrite Hb, Hz, Ht. unfold Home.stringified. fold written. rewrite Hs.
    eexists. split.
    + destruct (Home.createPack env); cbn; left; reflexivity.
    + repeat split. destruct (Home.createPack env); reflexivity.
  - assert (Hrec : ExploreView.is_record pack = true)
      by exact (member_record _ _ _ Hm).
    assert (Hobj : is_object m = false)
      by (destruct m; try reflexivity; discriminate).
    assert (Hser : ExploreView.serializable pack = true).
    { unfold ExploreView.serializable, get_member_opt. now rewrite Hm, Hfalsy. }
    destruct (formatPack_record pack Hrec Hser)
      as (listed & Hl & Hname & Hmd & Hsize).
    assert (Hdec : Explore.decodeMetadata pack = Normal written).
    { unfold Explore.decodeMetadata. rewrite Hm. cbn [bind].
      rewrite object_condition, Hobj.
      apply metadataFromField_named with (text := blob); auto. }
    rewrite Hdec in Hmd. injection Hmd as Hmd.
    assert (Hsz : Explore.size listed = JNull).
    { unfold Explore.estimatedSize in Hsize. rewrite Hm in Hsize.
      cbn [bind] in Hsize. rewrite Hfalsy in Hsize. now injection Hsize. }
    exists listed. split; [exact Hl|].
    split; [unfold get_member_opt in Hname; now rewrite Hid in Hname|].
    split; [now symmetry|].
    unfold ExploreView.itemTitle, ExploreView.showsDownloaded.
    rewrite <- Hmd. repeat split; try reflexivity. exact Hsz.
Qed.

End RoundTrip.

Lemma downloaded_region_is_listed_witness :
  exists listed,
    Explore.formatPack sampleTextPack = Normal listed
    /\ ExploreView.itemTitle listed = JStr "Region @ 10:00:00".
Proof.
  destruct (proj2 (@downloaded_region_is_listed
                     runtime sampleEnvironment (JObj Array []) (Finite 12%Q)
                     sampleBlob sampleTextPack JUndefined
                     eq_refl eq_refl eq_refl eq_refl eq_refl
                     ltac:(discriminate) eq_refl eq_refl eq_refl eq_refl))
    as (listed & Hl & _ & _ & Htitle & _).
  exists listed. split; [exact Hl|exact Htitle].
Defined.

(** X20.  Pressing the location button shows the user's position and
    makes the camera follow at zoom 15 exactly when permission is held
    already or is granted by the request the press makes; the timer then
    stops the following and keeps the zoom.  When permission is refused,
    or the request throws, the camera is not touched and no position is
    shown; a refusal raises the "Permission Required" alert and a thrown
    request raises none. *)
Theorem location_needs_permission
        (st : HomeView.LocationState) (request : Completion string) :
  let held :=
    match HomeView.locationPermission st with Some true => true | _ => false end in
  let granted :=
    match request with Normal status => String.eqb status "granted" | Throw _ => false end in
  let now := fst (HomeView.handleLocationFocus st request) in
  let later := snd (HomeView.handleLocationFocus st request) in
  let after := HomeView.runLocation st now in
  HomeView.markerShown after = held || granted
  /\ (held || granted = true ->
      HomeView.cameraConfig after
      = {| HomeView.followUserLocation := true;
           HomeView.zoomLevel := 15;
           HomeView.animationDuration := 1000 |}
      /\ HomeView.cameraConfig (HomeView.runLocation after later)
         = {| HomeView.followUserLocation := false;
              HomeView.zoomLevel := 15;
              HomeView.animationDuration := 1000 |})
  /\ (held || granted = false ->
      HomeView.cameraConfig after = HomeView.cameraConfig st
      /\ HomeView.showsUserLocation after = HomeView.showsUserLocation st
      /\ HomeView.locationPermission after = Some false
      /\ later = [])
  /\ ((exists title message, In (HomeView.PermissionAlert title message) now)
      <-> held = false
          /\ exists status, request = Normal status /\ status <> "granted").
Proof.
  cbn zeta.
  unfold HomeView.handleLocationFocus, HomeView.requestLocationPermission.
  destruct st as [[[|]|] shows camera]; cbn [HomeView.locationPermission];
    (destruct request as [status|e];
     [destruct (String.eqb_spec status "granted") as [->|Hne]|]).
  all: cbn; split; [|split; [|split]].
  all: try (destruct shows; reflexivity).
  all: try (intros H; first [discriminate H | repeat split; reflexivity]).
  all: split.
  all: try (intros (t & msg & H);
            repeat (destruct H as [H|H]; try discriminate);
            first [contradiction
                  |split; [reflexivity|];
                   exists status; split; [reflexivity|assumption]]).
  all: intros (H1 & s & H2 & H3);
    first [discriminate | congruence
          |do 2 eexists; right; left; reflexivity].
Qed.

Lemma location_needs_permission_witness :
  HomeView.cameraConfig
    (HomeView.runLocation
       (HomeView.runLocation HomeView.initialLocation
          (fst (HomeView.handleLocationFocus HomeView.initialLocation
                  (Normal "granted"))))
       (snd (HomeView.handleLocationFocus HomeView.initialLocation
               (Normal "granted"))))
  = {| HomeView.followUserLocation := false;
       HomeView.zoomLevel := 15;
       HomeView.animationDuration := 1000 |}.
Proof.
  exact (proj2 (proj1 (proj2 (location_needs_permission
                                HomeView.initialLocation (Normal "granted")))
                      eq_refl)).
Defined.

(** X21.  The list a fetch puts on screen owes nothing to the list that
    was there before: two screens with different lists show the same list
    after the same answer of the storage layer, so that fetching twice
    never adds a pack twice. *)
Theorem fetch_replaces_list
        {RT : JsRuntime} (st st' : Explore.State)
        (manager : Explore.OfflineManager) (refreshing : bool) :
  let effects := Explore.fetchPacks (Some manager) refreshing in
  Explore.packs (Explore.run st effects)
  = Explore.packs (Explore.run st' effects)
  /\ Explore.run (Explore.run st effects) effects = Explore.run st effects.
Proof.
  destruct manager as [[raw|error]]; cbn zeta.
  - rewrite fetchPacks_resolved.
    destruct (Explore.formattedPacks raw); destruct refreshing;
      split; reflexivity.
  - unfold Explore.fetchPacks. cbn [Explore.getPacks bind try_catch].
    destruct refreshing; split; reflexivity.
Qed.

(* ================================================================== *)
(** * Fields beside the characters *)
(* ================================================================== *)

Section BesideCharacters.
Context {RT : JsRuntime}.

(** An array index is read by [parseInt] as a number. *)
Lemma array_index_parses (k : string) :
  is_array_index k = true -> Explore.parses_as_number k = true.
Proof.
  unfold is_array_index, array_index, Explore.parses_as_number.
  destruct k as [|c r]; [discriminate|].
  destruct (is_decimal_digit c); [|discriminate].
  destruct (digits_prefix 10 (String c r) None) as [z|]; [|discriminate].
  destruct (Z.to_N z <? 4294967295)%N; [|discriminate]. cbn [andb].
  destruct (String.eqb_spec (N_toString (Z.to_N z)) (String c r)) as [E|];
    [|discriminate].
  intros _. now rewrite <- E, parseInt_N_toString.
Qed.

Lemma lookup_member (k : string) (props : Props) :
  In k (map fst props) -> exists v, lookup k props = Some v.
Proof.
  induction props as [|[k' v'] rest IH]; cbn; [intros []|].
  intros [->|Hin].
  - rewrite String.eqb_refl. eauto.
  - destruct (String.eqb k k'); [eauto|now apply IH].
Qed.

Lemma lookup_app_found (k : string) (props more : Props) (v : JsValue) :
  lookup k props = Some v -> lookup k (props ++ more)%list = Some v.
Proof.
  induction props as [|[k' v'] rest IH]; cbn; [discriminate|].
  destruct (String.eqb k k'); [auto|exact IH].
Qed.

Lemma reconstruct_beside (kind : ObjKind) (props more : Props)
      (keys : list string) (acc : string) :
  (forall key, In key keys -> In key (map fst props)) ->
  Explore.reconstruct (JObj kind (props ++ more)%list) keys acc
  = Explore.reconstruct (JObj kind props) keys acc.
Proof.
  revert acc. induction keys as [|key rest IH]; intros acc Hin;
    cbn [Explore.reconstruct]; [reflexivity|].
  destruct (lookup_member key props (Hin key (or_introl eq_refl))) as [v Hv].
  assert (E : get_member (JObj kind (props ++ more)%list) key
              = get_member (JObj kind props) key).
  { destruct kind; cbn; now rewrite (lookup_app_found _ _ more _ Hv), Hv. }
  rewrite E. destruct (get_member (JObj kind props) key); cbn [bind];
    [|reflexivity].
  apply IH. intros k Hk. apply Hin. now right.
Qed.

(** X22.  A field stored in the map beside the characters, such as
    [name], under a key that [parseInt] does not read as a number, has no
    part in the text: the keys collected and the text rebuilt are the same
    with and without it. *)
Theorem field_beside_characters_is_ignored
        (kind : ObjKind) (props : Props) (key : string) (value : JsValue) :
  parseInt key = None ->
  Explore.numericKeys (JObj kind (props ++ [(key, value)])%list)
  = Explore.numericKeys (JObj kind props)
  /\ Explore.reconstruct (JObj kind (props ++ [(key, value)])%list)
       (Explore.numericKeys (JObj kind (props ++ [(key, value)])%list)) EmptyString
     = Explore.reconstruct (JObj kind props)
         (Explore.numericKeys (JObj kind props)) EmptyString.
Proof.
  intros Hkey.
  assert (Hp : Explore.parses_as_number key = false)
    by (unfold Explore.parses_as_number; now rewrite Hkey).
  assert (Hi : is_array_index key = false).
  { destruct (is_array_index key) eqn:E; [|reflexivity].
    apply array_index_parses in E. congruence. }
  assert (Hkeys : Explore.numericKeys (JObj kind (props ++ [(key, value)])%list)
                  = Explore.numericKeys (JObj kind props)).
  { unfold Explore.numericKeys. cbn [Object_keys]. f_equal.
    unfold ownKeys. rewrite map_app. cbn [map fst].
    rewrite !filter_app. cbn [filter]. rewrite Hi. cbn [negb filter].
    rewrite Hp. now rewrite !app_nil_r. }
  split; [exact Hkeys|]. rewrite Hkeys.
  apply reconstruct_beside. intros k Hk.
  apply numericKeys_in in Hk as [Hk _]. cbn [Object_keys] in Hk.
  exact (Permutation_in _ (ownKeys_perm props) Hk).
Qed.

End BesideCharacters.

Lemma field_beside_characters_is_ignored_witness :
  Explore.reconstruct
    (JObj Plain (Explore.scattered sampleBlob ++ [("name", JStr "Other")])%list)
    (Explore.numericKeys
       (JObj Plain (Explore.scattered sampleBlob ++ [("name", JStr "Other")])%list))
    EmptyString
  = Explore.reconstruct (JObj Plain (Explore.scattered sampleBlob))
      (Explore.numericKeys (JObj Plain (Explore.scattered sampleBlob)))
      EmptyString.
Proof.
  exact (proj2 (@field_beside_characters_is_ignored
                  runtime Plain (Explore.scattered sampleBlob)
                  "name" (JStr "Other") eq_refl)).
Defined.
